(** * EcoPlug support bot: the priority router and the diagnostic detector

    A shallow embedding of the routing core of the chatbot
    ([chatbot/utils/text_utils.py], [chatbot/engine/diagnostic_engine.py],
    [chatbot/engine/intent_engine.py], [chatbot/engine/conversation_manager.py])
    together with the parts of the Python runtime those files call
    ([str] methods, the regular expressions they use, [difflib.SequenceMatcher]).

    Modelling conventions.
    - A Python [str] is a [string] that holds its UTF-8 encoding; its
      characters are [Py.chars], its length is [Py.len].  Classification and
      case mapping ([isspace], [\d], [\w], [lower], [upper]) are the ones
      Python applies to ASCII characters.  A character outside ASCII (a
      symbol such as the check mark of the option labels) is neither space,
      digit nor word character and has no case: the model is exact on ASCII
      text and on symbols of that kind, and does not cover letters, digits
      or white space outside ASCII.
    - [Optional[str]] is [option string]; Python truthiness of a string is
      [truthy] (present and non-empty).
    - A [dict] used as a map is a [gmap]; a dict whose iteration order matters
      is an association list.
    - A Python [float] is a binary64 number, [Float64.float]; the
      operations are those of IEEE 754 with rounding to nearest even, as
      the standard library specifies them ([SpecFloat]).
    - An [async] method is the function it computes; what it awaits from a
      collaborator is recorded, in order, in the trace of the turn. *)

From Stdlib Require Import String Ascii List ZArith Lia Bool SpecFloat.
From stdpp Require Import gmap strings.

Open Scope string_scope.

(** ** Python string primitives *)

Module Py.

Definition isspace (c : ascii) : bool :=
  let n := nat_of_ascii c in
  ((9 <=? n)%nat && (n <=? 13)%nat) || ((28 <=? n)%nat && (n <=? 32)%nat).

Definition isdigit_char (c : ascii) : bool :=
  let n := nat_of_ascii c in (48 <=? n)%nat && (n <=? 57)%nat.

Definition isupper_char (c : ascii) : bool :=
  let n := nat_of_ascii c in (65 <=? n)%nat && (n <=? 90)%nat.

Definition islower_char (c : ascii) : bool :=
  let n := nat_of_ascii c in (97 <=? n)%nat && (n <=? 122)%nat.

(** [\w] on ASCII: letters, digits and the underscore. *)
Definition isword_char (c : ascii) : bool :=
  isupper_char c || islower_char c || isdigit_char c || (nat_of_ascii c =? 95)%nat.

Definition lower_char (c : ascii) : ascii :=
  if isupper_char c then ascii_of_nat (nat_of_ascii c + 32) else c.

Definition upper_char (c : ascii) : ascii :=
  if islower_char c then ascii_of_nat (nat_of_ascii c - 32) else c.

Fixpoint map_chars (f : ascii -> ascii) (s : string) : string :=
  match s with
  | EmptyString => EmptyString
  | String c r => String (f c) (map_chars f r)
  end.

(** [s.lower()], [s.upper()] *)
Definition lower (s : string) : string := map_chars lower_char s.
Definition upper (s : string) : string := map_chars upper_char s.

Definition is_empty (s : string) : bool :=
  match s with EmptyString => true | _ => false end.

(** Truthiness of an [Optional[str]]: [None] and [""] are false. *)
Definition truthy (o : option string) : bool :=
  match o with
  | Some s => negb (is_empty s)
  | None => false
  end.

Fixpoint lstrip (s : string) : string :=
  match s with
  | EmptyString => EmptyString
  | String c r => if isspace c then lstrip r else s
  end.

Fixpoint rstrip (s : string) : string :=
  match s with
  | EmptyString => EmptyString
  | String c r =>
      let r' := rstrip r in
      if isspace c && is_empty r' then EmptyString else String c r'
  end.

(** [s.strip()] *)
Definition strip (s : string) : string := rstrip (lstrip s).

(** [s.split()]: the maximal runs of non-space characters, in order.
    [cur] is the word being read, if any. *)
Fixpoint split_from (cur : option string) (s : string) : list string :=
  match s with
  | EmptyString => match cur with Some w => [w] | None => [] end
  | String c r =>
      if isspace c then
        match cur with
        | Some w => w :: split_from None r
        | None => split_from None r
        end
      else
        split_from (Some (default EmptyString cur ++ String c EmptyString)) r
  end.

Definition split (s : string) : list string := split_from None s.

(** [s.isdigit()]: non-empty and made of digits. *)
Fixpoint all_digits (s : string) : bool :=
  match s with
  | EmptyString => true
  | String c r => isdigit_char c && all_digits r
  end.

Definition isdigit (s : string) : bool := negb (is_empty s) && all_digits s.

(** [s.startswith(p)] *)
Fixpoint startswith (p s : string) : bool :=
  match p, s with
  | EmptyString, _ => true
  | String a p', String b s' => Ascii.eqb a b && startswith p' s'
  | String _ _, EmptyString => false
  end.

(** [sub in s] *)
Fixpoint contains (sub s : string) : bool :=
  startswith sub s ||
  match s with
  | EmptyString => false
  | String _ r => contains sub r
  end.

(** [s[n:]] *)
Fixpoint drop (n : nat) (s : string) : string :=
  match n, s with
  | O, _ => s
  | S n', String _ r => drop n' r
  | S _, EmptyString => EmptyString
  end.

(** [s[i:j]] for [i <= j] *)
Definition slice (i j : nat) (s : string) : string := String.substring i (j - i) s.

Fixpoint zeros (n : nat) : string :=
  match n with O => EmptyString | S n' => String "0" (zeros n') end.

(** [s.isascii()] *)
Fixpoint isascii (s : string) : bool :=
  match s with
  | EmptyString => true
  | String c r => (nat_of_ascii c <? 128)%nat && isascii r
  end.

(** A continuation byte of UTF-8, [10xxxxxx]. *)
Definition is_continuation (c : ascii) : bool :=
  let n := nat_of_ascii c in (128 <=? n)%nat && (n <? 192)%nat.

(** The characters of [s], each as the bytes that encode it: a byte that is
    no continuation byte, with the continuation bytes that follow it. *)
Fixpoint chars (s : string) : list string :=
  match s with
  | EmptyString => []
  | String c r =>
      let tail := chars r in
      match r with
      | String d _ =>
          if is_continuation d then
            match tail with
            | first :: rest => String c first :: rest
            | [] => [String c EmptyString]
            end
          else String c EmptyString :: tail
      | EmptyString => [String c EmptyString]
      end
  end.

(** [len(s)] *)
Definition len (s : string) : nat := length (chars s).

(** ["".join(l)] *)
Definition join (l : list string) : string := fold_right String.append EmptyString l.

(** [s[:k]] for an integer [k]: the first [k] characters, and for a negative
    [k] all but the last [-k]. *)
Definition prefix (k : Z) (s : string) : string :=
  let n := if (k <? 0)%Z then Z.to_nat (Z.of_nat (len s) + k) else Z.to_nat k in
  join (firstn n (chars s)).

(** [s.zfill(width)] for a string without sign, as the digit groups are. *)
Definition zfill (width : nat) (s : string) : string :=
  zeros (width - String.length s) ++ s.

(** [re.sub(r'\s+', ' ', s)]: every maximal run of white space becomes one
    blank.  [in_run] tells that the previous character was white space. *)
Fixpoint sub_spaces (in_run : bool) (s : string) : string :=
  match s with
  | EmptyString => EmptyString
  | String c r =>
      if isspace c then
        if in_run then sub_spaces true r else String " " (sub_spaces true r)
      else String c (sub_spaces false r)
  end.

End Py.

(** ** Python floats *)

Module Float64.

(** A [float] is a binary64 number: 53 bits of precision, exponents up to
    1024.  A finite number is [(-1)^s * m * 2^e]. *)
Definition float : Type := spec_float.
Definition prec : Z := 53.
Definition emax : Z := 1024.

(** [x * y], [x + y], [x / y], [x < y], [x <= y] *)
Definition mul : float -> float -> float := SFmul prec emax.
Definition add : float -> float -> float := SFadd prec emax.
Definition div : float -> float -> float := SFdiv prec emax.
Definition ltb : float -> float -> bool := SFltb.
Definition leb : float -> float -> bool := SFleb.

(** The conversion of a size (an [int] that is not negative) to [float]. *)
Definition of_nat (n : nat) : float := binary_normalize prec emax (Z.of_nat n) 0 false.

(** The literals [0.0], [1.0], [2.0], [0.6], [0.4] and [0.70]: the binary64
    numbers nearest to them ([0.6] is [0x1.3333333333333p-1], [0.4] is
    [0x1.999999999999ap-2], [0.70] is [0x1.6666666666666p-1]). *)
Definition zero : float := S754_zero false.
Definition one : float := S754_finite false 4503599627370496 (-52).
Definition two : float := S754_finite false 4503599627370496 (-51).
Definition six_tenths : float := S754_finite false 5404319552844595 (-53).
Definition four_tenths : float := S754_finite false 7205759403792794 (-54).
Definition seven_tenths : float := S754_finite false 6305039478318694 (-53).

(** [math.isnan(x)] *)
Definition is_nan (x : float) : bool :=
  match x with S754_nan => true | _ => false end.

End Float64.

(** ** The fragment of [re] the program uses *)

Module Re.

Inductive regex : Type :=
| Lit (c : ascii)               (* a literal character *)
| Digit                         (* \d *)
| Space                         (* \s *)
| Seq (r1 r2 : regex)           (* r1 r2 *)
| Rep (r : regex) (lo hi : nat) (* r{lo,hi}, greedy *)
| Star (r : regex)              (* r*, greedy *)
| Group (r : regex)             (* ( r ): the capturing group *)
| WordB                         (* \b *)
| Bol                           (* ^ *)
| Eol.                          (* $ *)

(** The literal word [s], character by character. *)
Fixpoint word (s : string) : regex :=
  match s with
  | EmptyString => Rep Space 0 0
  | String c EmptyString => Lit c
  | String c r => Seq (Lit c) (word r)
  end.

Declare Scope re_scope.
Delimit Scope re_scope with re.
Infix ">>" := Seq (at level 60, right associativity) : re_scope.

(** A capture is the pair of positions that delimit group 1. *)
Definition capture : Type := option (nat * nat).

Section Engine.
(** [icase] is the flag [re.IGNORECASE]; [w] is the subject string. *)
Variable icase : bool.
Variable w : string.

Definition word_at (i : nat) : bool :=
  match String.get i w with Some c => Py.isword_char c | None => false end.

(** [\b]: exactly one of the two neighbours is a word character. *)
Definition boundary (i : nat) : bool :=
  xorb (match i with O => false | S p => word_at p end) (word_at i).

Definition at_end (i : nat) : bool :=
  (i =? String.length w)%nat ||
  ((S i =? String.length w)%nat &&
   match String.get i w with Some c => Ascii.eqb c "010" | None => false end).

Definition class (p : ascii -> bool) (i : nat) (g : capture) : list (nat * capture) :=
  match String.get i w with
  | Some c => if p c then [(S i, g)] else []
  | None => []
  end.

Definition same_char (c d : ascii) : bool :=
  if icase then Ascii.eqb (Py.lower_char c) (Py.lower_char d) else Ascii.eqb c d.

(** All the ways [r] matches from position [i], in the order a
    backtracking matcher tries them; the head is the match Python returns. *)
Fixpoint run (r : regex) (i : nat) (g : capture) : list (nat * capture) :=
  match r with
  | Lit c => class (same_char c) i g
  | Digit => class Py.isdigit_char i g
  | Space => class Py.isspace i g
  | Seq r1 r2 => flat_map (fun '(j, g') => run r2 j g') (run r1 i g)
  | Rep r lo hi =>
      (fix rep (hi lo i : nat) (g : capture) {struct hi} : list (nat * capture) :=
         let stop := match lo with O => [(i, g)] | S _ => [] end in
         match hi with
         | O => stop
         | S hi' =>
             (flat_map (fun '(j, g') => rep hi' (Nat.pred lo) j g') (run r i g) ++ stop)%list
         end) hi lo i g
  | Star r =>
      (fix star (fuel i : nat) (g : capture) {struct fuel} : list (nat * capture) :=
         match fuel with
         | O => [(i, g)]
         | S fuel' =>
             (flat_map (fun '(j, g') => if (i <? j)%nat then star fuel' j g' else [])
                       (run r i g) ++ [(i, g)])%list
         end) (String.length w) i g
  | Group r => List.map (fun '(j, _) => (j, Some (i, j))) (run r i g)
  | WordB => if boundary i then [(i, g)] else []
  | Bol => match i with O => [(i, g)] | S _ => [] end
  | Eol => if at_end i then [(i, g)] else []
  end.

(** [m.group(1)] *)
Definition group1 (g : capture) : string :=
  match g with
  | Some (i, j) => Py.slice i j w
  | None => EmptyString
  end.

(** [re.match(r, w)]: group 1 of the match anchored at position 0. *)
Definition match_at (r : regex) (i : nat) : option string :=
  match run r i None with
  | (_, g) :: _ => Some (group1 g)
  | [] => None
  end.

(** The first of the [n + 1] start positions from [i] on that matches. *)
Fixpoint search_from (r : regex) (n i : nat) : option string :=
  match match_at r i with
  | Some s => Some s
  | None =>
      match n with
      | O => None
      | S n' => search_from r n' (S i)
      end
  end.
End Engine.

(** [re.match(r, s, flags)] and [re.search(r, s, flags)], as the group-1
    text of the match object, or [None]. *)
Definition re_match (icase : bool) (r : regex) (s : string) : option string :=
  match_at icase s r 0.

Definition re_search (icase : bool) (r : regex) (s : string) : option string :=
  search_from icase s r (String.length s) 0.

End Re.

(** ** [difflib.SequenceMatcher(None, a, b).ratio()] *)

Module Difflib.

Section Elements.
(** The elements of the sequences and their equality; for two [str] they are
    the characters. *)
Context {A : Type} (eqb : A -> A -> bool).

Definition count_elem (c : A) (b : list A) : nat :=
  length (List.filter (fun d => eqb c d) b).

(** [__chain_b]: with [autojunk] (the default) and [len(b) >= 200], an
    element that occurs more than [len(b) // 100 + 1] times is "popular" and
    is removed from the index [b2j]. *)
Definition popular (b : list A) (c : A) : bool :=
  let n := length b in
  (200 <=? n)%nat && (n / 100 + 1 <? count_elem c b)%nat.

Definition block : Type := (nat * nat * nat)%type.

(** The dictionary [newj2len] for the element [x] of [a], as the list of its
    values at [j = 0, 1, ...] (0 where it has no key); [diag] is
    [j2len.get(j-1, 0)]. *)
Fixpoint next_row (pop : A -> bool) (x : A) (b : list A)
    (prev : list nat) (diag : nat) : list nat :=
  match b, prev with
  | y :: b', p :: prev' =>
      (if eqb x y && negb (pop y) then S diag else O)
        :: next_row pop x b' prev' p
  | _, _ => []
  end.

(** [if k > bestsize: besti, bestj, bestsize = i-k+1, j-k+1, k] *)
Definition improve (i j k : nat) (best : block) : block :=
  let '(_, _, bestsize) := best in
  if (bestsize <? k)%nat then (i + 1 - k, j + 1 - k, k)%nat else best.

Fixpoint scan_row (i j : nat) (row : list nat) (best : block) : block :=
  match row with
  | [] => best
  | k :: row' => scan_row i (S j) row' (improve i j k best)
  end.

(** The loop [for i in range(alo, ahi)] over the slice [a]. *)
Fixpoint longest (pop : A -> bool) (a b : list A) (i : nat)
    (j2len : list nat) (best : block) : block :=
  match a with
  | [] => best
  | x :: a' =>
      let newj2len := next_row pop x b j2len O in
      longest pop a' b (S i) newj2len (scan_row i O newj2len best)
  end.

(** The two [while] loops that extend the block by equal elements ([isbjunk]
    is false everywhere: no junk function is given). *)
Fixpoint extend_left (a b : list A) (besti bestj bestsize : nat) : block :=
  match besti, bestj with
  | S i', S j' =>
      match nth_error a i', nth_error b j' with
      | Some x, Some y =>
          if eqb x y then extend_left a b i' j' (S bestsize)
          else (besti, bestj, bestsize)
      | _, _ => (besti, bestj, bestsize)
      end
  | _, _ => (besti, bestj, bestsize)
  end.

Fixpoint extend_right (fuel : nat) (a b : list A) (besti bestj bestsize : nat) : block :=
  match fuel with
  | O => (besti, bestj, bestsize)
  | S fuel' =>
      match nth_error a (besti + bestsize), nth_error b (bestj + bestsize) with
      | Some x, Some y =>
          if eqb x y then extend_right fuel' a b besti bestj (S bestsize)
          else (besti, bestj, bestsize)
      | _, _ => (besti, bestj, bestsize)
      end
  end.

(** [find_longest_match(alo, ahi, blo, bhi)] on the slices [a = a[alo:ahi]]
    and [b = b[blo:bhi]], positions relative to the slices. *)
Definition find_longest_match (pop : A -> bool) (a b : list A) : block :=
  let '(i, j, k) := longest pop a b O (repeat O (length b)) (O, O, O) in
  let '(i, j, k) := extend_left a b i j k in
  extend_right (length a) a b i j k.

(** The sum of the sizes of [get_matching_blocks()]: the longest block, then
    the blocks to its left and to its right.  Each round works on a strictly
    shorter slice of [a], so [length a] rounds of [fuel] suffice. *)
Fixpoint matches (fuel : nat) (pop : A -> bool) (a b : list A) : nat :=
  match fuel with
  | O => O
  | S fuel' =>
      let '(i, j, k) := find_longest_match pop a b in
      match k with
      | O => O
      | S _ =>
          (k + (if (0 <? i)%nat && (0 <? j)%nat
                then matches fuel' pop (firstn i a) (firstn j b) else O)
             + (if (i + k <? length a)%nat && (j + k <? length b)%nat
                then matches fuel' pop (skipn (i + k) a) (skipn (j + k) b) else O))%nat
      end
  end.
End Elements.

(** [sum(triple[-1] for triple in self.get_matching_blocks())] for the
    strings [a] and [b]: the number of characters in matching blocks. *)
Definition matching (a b : string) : nat :=
  let la := Py.chars a in
  let lb := Py.chars b in
  matches String.eqb (length la) (popular String.eqb lb) la lb.

(** [_calculate_ratio(matches, len(a) + len(b))]:
    [2.0 * matches / length] if [length], else [1.0]. *)
Definition ratio (a b : string) : Float64.float :=
  let length := (Py.len a + Py.len b)%nat in
  match length with
  | O => Float64.one
  | S _ =>
      Float64.div (Float64.mul Float64.two (Float64.of_nat (matching a b)))
                  (Float64.of_nat length)
  end.

End Difflib.

(** ** [chatbot/utils/text_utils.py] *)

Module TextUtils.
Import Re.

Definition normalize_text (text : string) : string :=
  if Py.is_empty text then ""
  else Py.sub_spaces false (Py.strip (Py.lower text)).

Local Open Scope re_scope.

(** [\b(er\d{3,4})\b] *)
Definition pattern1 : regex := WordB >> Group (word "er" >> Rep Digit 3 4) >> WordB.
(** [\berror\s*(?:code)?\s*(\d{1,4})\b] *)
Definition pattern2 : regex :=
  WordB >> word "error" >> Star Space >> Rep (word "code") 0 1 >> Star Space
        >> Group (Rep Digit 1 4) >> WordB.
(** [\b(e\d{1,4})\b] *)
Definition pattern3 : regex := WordB >> Group (Lit "e" >> Rep Digit 1 4) >> WordB.
(** [\b(\d{3,4})\b] *)
Definition pattern4 : regex := WordB >> Group (Rep Digit 3 4) >> WordB.
(** [^\d{3,4}\s*$] *)
Definition only_number : regex := Bol >> Rep Digit 3 4 >> Star Space >> Eol.

Definition context_keywords : list string :=
  ["error"; "code"; "fault"; "issue"; "problem"; "showing"].

(** [any(keyword in message.lower() for keyword in context_keywords)] *)
Definition has_context_keyword (message : string) : bool :=
  existsb (fun keyword => Py.contains keyword (Py.lower message)) context_keywords.

Definition extract_error_pattern (message : string) : option string :=
  if Py.is_empty message then None else
  match re_search true pattern1 message with
  | Some g => Some (Py.upper g)
  | None =>
  match re_search true pattern2 message with
  | Some g => Some ("ER" ++ Py.zfill 3 g)
  | None =>
  match re_search true pattern3 message with
  | Some g => Some ("ER" ++ Py.zfill 3 (Py.drop 1 g))
  | None =>
  match re_search false pattern4 message with
  | Some g =>
      let message_stripped := Py.strip message in
      if (Py.len message_stripped <=? 4)%nat
         || bool_decide (is_Some (re_match false only_number message_stripped))
      then Some g
      else if has_context_keyword message then Some g
      else None
  | None => None
  end end end end.

(** [len(query_words & title_words) / len(query_words) if query_words else 0];
    the integer 0 enters the product that follows as [0.0]. *)
Definition word_overlap (query_normalized title_normalized : string) : Float64.float :=
  let query_words : gset string := list_to_set (Py.split query_normalized) in
  let title_words : gset string := list_to_set (Py.split title_normalized) in
  match size query_words with
  | O => Float64.zero
  | S _ => Float64.div (Float64.of_nat (size (query_words ∩ title_words)))
                       (Float64.of_nat (size query_words))
  end.

(** [(ratio * 0.6) + (word_overlap * 0.4)] *)
Definition combined_score (query_normalized title : string) : Float64.float :=
  let title_normalized := normalize_text title in
  Float64.add
    (Float64.mul (Difflib.ratio query_normalized title_normalized) Float64.six_tenths)
    (Float64.mul (word_overlap query_normalized title_normalized) Float64.four_tenths).

(** One round of the loop over [titles]; the state is
    [(best_match, best_ratio)]. *)
Definition title_step (query_normalized : string) (threshold : Float64.float)
    (st : option string * Float64.float) (title : string)
    : option string * Float64.float :=
  let combined := combined_score query_normalized title in
  if Float64.ltb (snd st) combined && Float64.leb threshold combined
  then (Some title, combined)
  else st.

Definition fuzzy_match_title (query : string) (titles : list string)
    (threshold : Float64.float) : option string :=
  if Py.is_empty query || bool_decide (titles = []) then None
  else
    let query_normalized := normalize_text query in
    fst (fold_left (title_step query_normalized threshold) titles (None, Float64.zero)).

Definition stop_words : gset string :=
  list_to_set
    ["the"; "a"; "an"; "and"; "or"; "but"; "in"; "on"; "at"; "to"; "for";
     "of"; "with"; "by"; "from"; "is"; "it"; "this"; "that"; "i"; "my"].

(** [[w for w in words if w not in stop_words and len(w) > 2]] *)
Definition is_keyword (w : string) : bool :=
  bool_decide (w ∉ stop_words) && (2 <? Py.len w)%nat.

Definition extract_keywords (text : string) : list string :=
  if Py.is_empty text then []
  else List.filter is_keyword (Py.split (normalize_text text)).

(** [max_length] is an [int]: the default 2000 or any other integer. *)
Definition sanitize_user_input (text : string) (max_length : Z) : string :=
  if Py.is_empty text then ""
  else
    let text := Py.strip text in
    if (max_length <? Z.of_nat (Py.len text))%Z then Py.prefix max_length text
    else text.

End TextUtils.

(** ** [chatbot/engine/diagnostic_engine.py] *)

Module DiagnosticEngine.
Import TextUtils.

(** One object of the error-code file.  A key the object lacks reads as the
    default the code gives to [.get]: [""], or [[]] for [Solution]. *)
Record FaultRecord : Type := {
  Error_Code : string;
  Tittle : string;
  Description : string;
  Solution : list string
}.

#[global] Instance FaultRecord_eq_dec : EqDecision FaultRecord.
Proof. solve_decision. Defined.

(** The two attributes [self.error_codes] and [self.error_index]. *)
Record engine : Type := {
  error_codes : list FaultRecord;
  error_index : gmap string FaultRecord
}.

(** [__init__] *)
Definition init : engine := {| error_codes := []; error_index := ∅ |}.

(** What [open] and [json.load] make of the file. *)
Inductive file : Type :=
| FileNotFoundError
| JSONDecodeError
| Parsed (records : list FaultRecord).

(** The body of the loop that builds the index. *)
Definition index_error (index : gmap string FaultRecord) (error : FaultRecord)
    : gmap string FaultRecord :=
  let error_code := Py.upper (Error_Code error) in
  if Py.is_empty error_code then index else <[error_code := error]> index.

Definition load_error_codes (self : engine) (f : file) : engine :=
  match f with
  | Parsed records =>
      {| error_codes := records;
         error_index := fold_left index_error records (error_index self) |}
  | FileNotFoundError | JSONDecodeError =>
      {| error_codes := []; error_index := ∅ |}
  end.

(** The dictionary [_format_error_response] returns. *)
Record Diagnostic : Type := {
  error_code : string;
  title : string;
  description : string;
  solutions : list string
}.

Definition _format_error_response (error_data : FaultRecord) : Diagnostic :=
  {| error_code := Error_Code error_data;
     title := Tittle error_data;
     description := Description error_data;
     solutions := Solution error_data |}.

Definition _lookup_by_code (self : engine) (code : string) : option Diagnostic :=
  let error_code_upper := Py.strip (Py.upper code) in
  match error_index self !! error_code_upper with
  | Some error => Some (_format_error_response error)
  | None =>
      let er_version := "ER" ++ error_code_upper in
      match
        (if negb (Py.startswith "ER" error_code_upper) && Py.isdigit error_code_upper
         then error_index self !! er_version else None)
      with
      | Some error => Some (_format_error_response error)
      | None =>
          if Py.startswith "ER" error_code_upper
          then _format_error_response <$> error_index self !! Py.drop 2 error_code_upper
          else None
      end
  end.

Definition _fuzzy_match_titles (self : engine) (query : string) : option Diagnostic :=
  let titles := List.map Tittle (error_codes self) in
  match fuzzy_match_title query titles Float64.six_tenths with
  | Some matched_title =>
      if Py.is_empty matched_title then None
      else _format_error_response <$>
             List.find (fun error => String.eqb (Tittle error) matched_title)
                       (error_codes self)
  | None => None
  end.

(** The inner loop: how many of the keywords occur in the description or in
    the title. *)
Definition keyword_score (keywords : list string) (error : FaultRecord) : nat :=
  let description := normalize_text (Description error) in
  let title := normalize_text (Tittle error) in
  length (List.filter (fun keyword => Py.contains keyword description
                                      || Py.contains keyword title) keywords).

(** One round of the outer loop; the state is [(best_match, best_score)]. *)
Definition keyword_step (keywords : list string)
    (st : option FaultRecord * nat) (error : FaultRecord) : option FaultRecord * nat :=
  let score := keyword_score keywords error in
  if (snd st <? score)%nat && (2 <=? score)%nat then (Some error, score) else st.

Definition _keyword_search (self : engine) (query : string) : option Diagnostic :=
  let keywords := extract_keywords query in
  match keywords with
  | [] => None
  | _ =>
      _format_error_response <$>
        fst (fold_left (keyword_step keywords) (error_codes self) (None, O))
  end.

Definition detect_error_code (self : engine) (message : string) : option Diagnostic :=
  if Py.is_empty message || bool_decide (error_codes self = []) then None
  else
    let by_code :=
      match extract_error_pattern message with
      | Some code => if Py.is_empty code then None else _lookup_by_code self code
      | None => None
      end in
    match by_code with
    | Some result => Some result
    | None =>
        let normalized_msg := normalize_text message in
        match _fuzzy_match_titles self normalized_msg with
        | Some result => Some result
        | None => _keyword_search self normalized_msg
        end
    end.

Definition get_error_by_code (self : engine) (code : string) : option Diagnostic :=
  _lookup_by_code self code.

Definition is_database_loaded (self : engine) : bool :=
  (0 <? length (error_codes self))%nat.

Definition get_total_error_count (self : engine) : nat := length (error_codes self).

End DiagnosticEngine.

(** ** [chatbot/engine/intent_engine.py] *)

Module IntentEngine.
Import TextUtils.

(** [self.intent_keywords], in the insertion order the loop iterates in. *)
Definition intent_keywords : list (string * list string) :=
  [ ("greeting", ["hello"; "hi"; "hey"; "good morning"; "good afternoon"; "greetings"]);
    ("error_report", ["error"; "fault"; "problem"; "issue"; "showing"; "displaying"]);
    ("troubleshoot", ["troubleshoot"; "diagnose"; "fix"; "solve"; "repair"]);
    ("wallet", ["wallet"; "balance"; "refund"; "transaction"; "payment failed"; "money";
                "recharge"; "wallet charge"; "add money"]);
    ("maintenance", ["maintenance"; "service"; "inspection"; "check"]);
    ("support", ["help"; "support"; "assistance"; "contact"]);
    ("status", ["status"; "working"; "operational"; "running"]);
    ("installation", ["install"; "setup"; "configure"; "connect"]);
    ("network", ["network"; "wifi"; "connection"; "internet"; "ocpp"; "communication"]);
    ("payment", ["payment"; "billing"; "cost"; "price"; "pay"]);
    ("usage", ["how to charge"; "charge car"; "charge vehicle"; "start charging";
               "charging guide"; "how to"; "guide"; "instructions"; "manual"; "how to use"]) ].

Definition _rule_based_detection (rules : list (string * list string))
    (normalized_text : string) : option string :=
  fst <$> List.find (fun '(_, keywords) =>
                       existsb (fun keyword => Py.contains keyword normalized_text) keywords)
                    rules.

Definition detect_intent (rules : list (string * list string)) (text : string)
    : option string :=
  if Py.is_empty text then None
  else
    match _rule_based_detection rules (normalize_text text) with
    | Some intent => if Py.is_empty intent then None else Some intent
    | None => None
    end.

(** [self.intent_keywords[intent] = keywords]: a key the dictionary has keeps
    its place in the order of iteration, a new key goes last. *)
Fixpoint add_intent_rule (rules : list (string * list string)) (intent : string)
    (keywords : list string) : list (string * list string) :=
  match rules with
  | [] => [(intent, keywords)]
  | (name, old) :: rest =>
      if String.eqb name intent then (name, keywords) :: rest
      else (name, old) :: add_intent_rule rest intent keywords
  end.

(** [list(self.intent_keywords.keys())] *)
Definition get_all_intents (rules : list (string * list string)) : list string :=
  List.map fst rules.

End IntentEngine.

(** ** [chatbot/engine/flow_engine.py] *)

Module FlowEngine.

(** The values a node of the flow file gives to its keys: [null], a string or
    a list of strings. *)
Inductive value : Type :=
| VNone
| VStr (s : string)
| VList (l : list string).

#[global] Instance value_eq_dec : EqDecision value.
Proof. solve_decision. Defined.

(** A node is a dictionary; [self.flows] maps the identifiers to the nodes. *)
Record engine : Type := {
  flows : gmap string (gmap string value)
}.

(** [__init__] *)
Definition init : engine := {| flows := ∅ |}.

(** What [open] and [json.load] make of the file; [Parsed data] carries
    [data.get("flows")], [None] when the object has no such key. *)
Inductive file : Type :=
| FileNotFoundError
| JSONDecodeError
| Parsed (data : option (gmap string (gmap string value))).

(** The minimal flow installed when the file is missing. *)
Definition minimal_start : gmap string value :=
  list_to_map
    [ ("text", VStr "Welcome to EV Charging Technical Support. How can I help you?");
      ("options", VList ["Report Error"; "Get Help"]);
      ("steps", VNone);
      ("action", VNone) ].

(** The node [get_node] answers with when there is no start node. *)
Definition last_resort : gmap string value :=
  list_to_map
    [ ("text", VStr "How can I assist you with EV charging today?");
      ("options", VNone);
      ("steps", VNone);
      ("action", VNone) ].

Definition load_flows (self : engine) (f : file) : engine :=
  match f with
  | Parsed data => {| flows := default ∅ data |}
  | FileNotFoundError => {| flows := {[ "start" := minimal_start ]} |}
  | JSONDecodeError => {| flows := ∅ |}
  end.

(** Truthiness of a dictionary: it has a key. *)
Definition node_truthy (node : gmap string value) : bool := bool_decide (node <> ∅).

Definition get_node (self : engine) (node_id : string) : gmap string value :=
  match flows self !! node_id with
  | Some node =>
      if node_truthy node then node
      else default last_resort (flows self !! "start")
  | None => default last_resort (flows self !! "start")
  end.

Definition get_start_node (self : engine) : gmap string value := get_node self "start".

Definition is_flow_loaded (self : engine) : bool := (0 <? size (flows self))%nat.

End FlowEngine.

(** ** [chatbot/services/ai_service.py] *)

Module AIService.

Definition help_answer : string :=
  "I'm here to help you with EV charging station diagnostics. "
  ++ "You can report error codes (like ER001, ER015, etc.), "
  ++ "troubleshoot issues, or ask technical questions. "
  ++ "How can I assist you today?".

Definition question_answer : string :=
  "I can help answer questions about EV charging stations. "
  ++ "For specific technical issues, please provide the error code "
  ++ "displayed on your charging station, and I'll provide detailed diagnostics.".

Definition thanks_answer : string :=
  "You're welcome! Is there anything else I can help you with?".

Definition default_answer : string :=
  "I understand you need assistance with EV charging. "
  ++ "Could you please provide more details or share any error codes "
  ++ "you're seeing on your charging station? This will help me provide "
  ++ "more accurate diagnostics and solutions.".

(** [any(word in message_lower for word in words)] *)
Definition any_word (words : list string) (message_lower : string) : bool :=
  existsb (fun word => Py.contains word message_lower) words.

Definition _mock_response (message : string) : string :=
  let message_lower := Py.lower message in
  if any_word ["help"; "assist"; "support"] message_lower then help_answer
  else if any_word ["how"; "what"; "why"; "when"] message_lower then question_answer
  else if any_word ["thank"; "thanks"] message_lower then thanks_answer
  else default_answer.

(** The placeholder body: the mock response. *)
Definition _openai_response (message : string) : string := _mock_response message.

(** [client] tells whether [self.client] is set; [__init__] leaves it unset. *)
Definition generate_response (client : bool) (message : string) : string :=
  if client then _openai_response message else _mock_response message.

End AIService.

(** ** [chatbot/models/request_models.py]: the validators *)

Module RequestModels.

(** [validate_user_id]: [None] stands for the [ValueError]. *)
Definition validate_user_id (v : string) : option string :=
  if Py.is_empty (Py.strip v) then None else Some (Py.strip v).

(** [validate_message]: the stripped message, [None] when nothing is left. *)
Definition validate_message (v : option string) : option string :=
  match v with
  | Some v =>
      let v := Py.strip v in
      if Py.is_empty v then None else Some v
  | None => None
  end.

End RequestModels.

(** ** [chatbot/engine/conversation_manager.py] *)

Module ConversationManager.
Import Re TextUtils.
Local Open Scope re_scope.

(** *** Collaborators and their calls *)

Inductive role : Type := user | assistant.

(** What a turn does that can be observed from outside the router, in the
    order it does it: the calls to the session service, to the flow engine,
    to the diagnostic and intent engines and to the AI service, and the
    evaluation of the two checks the router makes itself. *)
Inductive event : Type :=
| GetOrCreateSession (user_id platform : string)
| AddMessageToHistory (user_id session_id : string) (r : role) (content : string)
| UpdateSession (user_id session_id current_node : string)
| MapOptionToNode (option_text : string)
| DetectErrorCode (message : string)
| IsPaymentIntent (message : string)
| DetectIntent (text : string)
| GetNode (node_id : string)
| GenerateResponse (message : string).

#[global] Instance role_eq_dec : EqDecision role.
Proof. solve_decision. Defined.
#[global] Instance event_eq_dec : EqDecision event.
Proof. solve_decision. Defined.

(** A computation that yields a value and the events it caused. *)
Definition Traced (A : Type) : Type := (A * list event)%type.

#[global] Instance Traced_ret : MRet Traced := fun A (a : A) => (a, []).
#[global] Instance Traced_bind : MBind Traced :=
  fun A B (f : A -> Traced B) (m : Traced A) =>
    let '(a, t1) := m in
    let '(b, t2) := f a in
    (b, (t1 ++ t2)%list).

(** The call [e] with result [a]. *)
Definition call {A : Type} (e : event) (a : A) : Traced A := (a, [e]).

Definition value {A : Type} (m : Traced A) : A := fst m.
Definition trace {A : Type} (m : Traced A) : list event := snd m.

(** The session document: [current_node] is absent from a document that has
    no such key. *)
Record Session : Type := {
  session_id : string;
  current_node : option string
}.

(** A flow node, by the keys [_generate_flow_response] reads. *)
Record NodeData : Type := {
  node_text : option string;
  node_options : option (list string);
  node_steps : option (list string);
  node_action : option string
}.

Inductive response_type : Type := diagnostic | flow | ai.

Record ChatResponse : Type := {
  type : response_type;
  text : string;
  error_code : option string;
  description : option string;
  solutions : option (list string);
  options : option (list string);
  steps : option (list string);
  action : option string;
  response_session_id : string
}.

(** The objects given to [__init__].  The session service, the flow engine
    and the AI service are external: each is the function that answers the
    call. *)
Record manager : Type := {
  flow_engine : string -> NodeData;
  intent_engine : list (string * list string);
  diagnostic_engine : DiagnosticEngine.engine;
  session_service : string -> string -> Session;
  ai_service : string -> string
}.

(** *** The static maps *)

Definition option_mapping : gmap string string :=
  list_to_map
    [ ("report error code", "error_reporting");
      ("wallet related issues", "wallet_issues");
      ("troubleshoot issue", "troubleshooting");
      ("maintenance guide", "maintenance");
      ("contact support", "support");
      ("back to menu", "start");
      ("other error code", "other_error_code");
      ("balance not updating", "balance_not_updating");
      ("payment failed", "payment_failed");
      ("refund issues", "refund_issues");
      ("transaction history", "transaction_history");
      ("charging not starting", "troubleshooting");
      ("connection issues", "troubleshooting");
      ("display problems", "troubleshooting");
      ("physical damage", "troubleshooting");
      ("✅ yes, issue resolved", "solution_resolved");
      ("yes, issue resolved", "solution_resolved");
      ("✅ yes, this helped", "solution_resolved");
      ("yes, this helped", "solution_resolved");
      ("yes", "solution_resolved");
      ("❌ no, still having issues", "solution_not_resolved");
      ("no, still having issues", "solution_not_resolved");
      ("❌ no, still have questions", "solution_not_resolved");
      ("no, still have questions", "solution_not_resolved");
      ("❌ no, still need help", "solution_not_resolved");
      ("no, still need help", "solution_not_resolved");
      ("❌ no, need more guidance", "solution_not_resolved");
      ("no, need more guidance", "solution_not_resolved");
      ("no", "solution_not_resolved");
      ("no, i'm all set", "done_chatting");
      ("no i'm all set", "done_chatting");
      ("i'm all set", "done_chatting");
      ("all set", "done_chatting");
      ("report another error", "report_another_error") ].

(** [^er\d{3,4}\s*-] *)
Definition error_option_label : regex :=
  Bol >> word "er" >> Rep Digit 3 4 >> Star Space >> Lit "-".

Definition _map_option_to_node (option_text : string) : option string :=
  let normalized := Py.strip (Py.lower option_text) in
  if bool_decide (is_Some (re_match true error_option_label normalized)) then None
  else option_mapping !! normalized.

Definition intent_mapping : gmap string string :=
  list_to_map
    [ ("greeting", "start");
      ("error_report", "error_reporting");
      ("troubleshoot", "troubleshooting");
      ("wallet", "wallet_issues");
      ("maintenance", "maintenance");
      ("support", "support");
      ("status", "status_check");
      ("installation", "installation_guide");
      ("network", "network_help");
      ("payment", "wallet_issues");
      ("usage", "user_guide") ].

Definition _map_intent_to_node (intent : string) : string :=
  default "start" (intent_mapping !! intent).

Definition payment_keywords : list string :=
  ["payment"; "wallet"; "balance"; "refund"; "billing"].

(** [ratio >= 0.70] *)
Definition fuzzy_equal (msg_word keyword : string) : bool :=
  Float64.leb Float64.seven_tenths (Difflib.ratio msg_word keyword).

(** The two nested loops return [True] at the first pair that qualifies. *)
Definition _is_payment_intent (message : string) : bool :=
  let msg_words := Py.split (normalize_text message) in
  existsb (fun msg_word => existsb (fuzzy_equal msg_word) payment_keywords) msg_words.

(** *** Responses *)

Definition follow_up_options : list string :=
  ["✅ Yes, issue resolved"; "❌ No, still having issues"; "Back to Menu"].

Definition _generate_diagnostic_response (sid : string)
    (diagnostic_data : DiagnosticEngine.Diagnostic) : ChatResponse :=
  let code := DiagnosticEngine.error_code diagnostic_data in
  let title := DiagnosticEngine.title diagnostic_data in
  {| type := diagnostic;
     text := "I found information about " ++ code ++ " - " ++ title
             ++ ". Please review the solutions below.";
     error_code := Some code;
     description := Some (DiagnosticEngine.description diagnostic_data);
     solutions := Some (DiagnosticEngine.solutions diagnostic_data);
     options := Some follow_up_options;
     steps := None;
     action := None;
     response_session_id := sid |}.

Section Turn.
Variable self : manager.

Definition _generate_flow_response (sid node_id : string) : Traced ChatResponse :=
  node_data ← call (GetNode node_id) (flow_engine self node_id);
  mret {| type := flow;
          text := default "I'm not sure how to respond." (node_text node_data);
          error_code := None;
          description := None;
          solutions := None;
          options := node_options node_data;
          steps := node_steps node_data;
          action := node_action node_data;
          response_session_id := sid |}.

Definition _generate_ai_response (sid message : string) : Traced ChatResponse :=
  ai_text ← call (GenerateResponse message) (ai_service self message);
  mret {| type := ai;
          text := ai_text;
          error_code := None;
          description := None;
          solutions := None;
          options := None;
          steps := None;
          action := None;
          response_session_id := sid |}.

(** The statements of [_save_and_return_response] (in the source file they
    follow the docstring as one line of escaped text): the text of the
    response, which is a string, so that [response.text or ""] is the text,
    goes to the history as the assistant's message, and the response is
    returned. *)
Definition _save_and_return_response (user_id sid : string) (response : ChatResponse)
    : Traced ChatResponse :=
  let assistant_message := text response in
  _ ← call (AddMessageToHistory user_id sid assistant assistant_message) tt;
  mret response.

(** A flow decision: the node is fetched, the session is told the node,
    the response is saved and returned. *)
Definition route_to (user_id sid node_id : string) : Traced ChatResponse :=
  response ← _generate_flow_response sid node_id;
  _ ← call (UpdateSession user_id sid node_id) tt;
  _save_and_return_response user_id sid response.

Definition process_message (user_id : string) (message action : option string)
    (platform : string) : Traced ChatResponse :=
  session ← call (GetOrCreateSession user_id platform)
                 (session_service self user_id platform);
  let sid := session_id session in
  let current := default "start" (current_node session) in
  let msg := default "" message in
  _ ← (if Py.truthy message
       then call (AddMessageToHistory user_id sid user msg) tt
       else (mret tt : Traced unit));
  (* STEP 0.5: direct option button mapping *)
  option_node ← (if Py.truthy message
                 then call (MapOptionToNode msg) (_map_option_to_node msg)
                 else (mret None : Traced (option string)));
  if Py.truthy option_node then route_to user_id sid (default "" option_node)
  else
  (* STEP 1: error code detection *)
  diagnostic_result ←
    (if Py.truthy message
     then call (DetectErrorCode msg)
               (DiagnosticEngine.detect_error_code (diagnostic_engine self) msg)
     else (mret None : Traced (option DiagnosticEngine.Diagnostic)));
  match diagnostic_result with
  | Some diagnostic_data =>
      let response := _generate_diagnostic_response sid diagnostic_data in
      _ ← call (UpdateSession user_id sid current) tt;
      _save_and_return_response user_id sid response
  | None =>
  (* STEP 1.5: payment / wallet intent *)
  payment ← (if Py.truthy message
             then call (IsPaymentIntent msg) (_is_payment_intent msg)
             else (mret false : Traced bool));
  if (payment : bool) then route_to user_id sid "wallet_issues"
  else
  (* STEP 2: explicit action *)
  if Py.truthy action then route_to user_id sid (default "" action)
  else
  (* STEP 3: intent detection *)
  intent ← (if Py.truthy message
            then call (DetectIntent msg)
                      (IntentEngine.detect_intent (intent_engine self) msg)
            else (mret None : Traced (option string)));
  if Py.truthy intent then
    route_to user_id sid (_map_intent_to_node (default "" intent))
  else
  (* STEP 4: AI fallback *)
  response ← _generate_ai_response sid (if Py.truthy message then msg else "Hello");
  _ ← call (UpdateSession user_id sid current) tt;
  _save_and_return_response user_id sid response
  end.
End Turn.

End ConversationManager.

(** ** The vocabulary of the specification *)

Module Spec.
Import ConversationManager.

(** The strategies of the router in their order of priority (section 4.5),
    each with what it hands to the response. *)
Inductive decision : Type :=
| OptionMapped (node : string)
| DiagnosticHit (d : DiagnosticEngine.Diagnostic)
| PaymentIntent
| ExplicitAction (node : string)
| IntentDetected (intent : string)
| Fallback.

(** The first strategy that matches.  The strategies that read the utterance
    match only when there is one. *)
Definition first_match (self : manager) (message action : option string) : decision :=
  let present := Py.truthy message in
  let msg := default "" message in
  match (if present then _map_option_to_node msg else None) with
  | Some (String c node) => OptionMapped (String c node)
  | _ =>
  match (if present
         then DiagnosticEngine.detect_error_code (diagnostic_engine self) msg
         else None) with
  | Some d => DiagnosticHit d
  | None =>
  if present && _is_payment_intent msg then PaymentIntent
  else
  match action with
  | Some (String c node) => ExplicitAction (String c node)
  | _ =>
  match (if present then IntentEngine.detect_intent (intent_engine self) msg else None) with
  | Some (String c intent) => IntentDetected (String c intent)
  | _ => Fallback
  end end end end.

(** The evaluations of the strategies that read the utterance. *)
Definition is_evaluation (e : event) : bool :=
  match e with
  | MapOptionToNode _ | DetectErrorCode _ | IsPaymentIntent _ | DetectIntent _ => true
  | _ => false
  end.

(** The calls to the session collaborator. *)
Definition is_session_call (e : event) : bool :=
  match e with
  | GetOrCreateSession _ _ | AddMessageToHistory _ _ _ _ | UpdateSession _ _ _ => true
  | _ => false
  end.

(** The instructions to the session collaborator that change what it
    stores. *)
Definition is_instruction (e : event) : bool :=
  match e with
  | AddMessageToHistory _ _ _ _ | UpdateSession _ _ _ => true
  | _ => false
  end.

Definition evaluations (t : list event) : list event := List.filter is_evaluation t.

(** The nodes the session collaborator is told to persist, in order. *)
Fixpoint persisted (t : list event) : list string :=
  match t with
  | [] => []
  | UpdateSession _ _ node :: t' => node :: persisted t'
  | _ :: t' => persisted t'
  end.

(** The messages appended to the history, in order. *)
Fixpoint appended (t : list event) : list (role * string) :=
  match t with
  | [] => []
  | AddMessageToHistory _ _ r content :: t' => (r, content) :: appended t'
  | _ :: t' => appended t'
  end.

(** The texts handed to the fallback generator. *)
Fixpoint generated (t : list event) : list string :=
  match t with
  | [] => []
  | GenerateResponse m :: t' => m :: generated t'
  | _ :: t' => generated t'
  end.

(** The reading of the claim on sequencing: whatever the router tells the
    session collaborator to store, it tells it once nothing is left to
    evaluate or to generate. *)
Definition instructions_follow_decision (t : list event) : Prop :=
  forall pre e post,
    t = (pre ++ e :: post)%list -> is_instruction e = true ->
    Forall (fun e' => is_session_call e' = true) post.

Section Turn.
Variable self : manager.
Variables (user_id platform : string) (message action : option string).

Definition the_session : Session := session_service self user_id platform.
Definition sid : string := session_id the_session.
Definition prior_node : string := default "start" (current_node the_session).
Definition msg : string := default "" message.

Definition flow_response (node : string) : ChatResponse :=
  value (_generate_flow_response self sid node).
Definition ai_response (m : string) : ChatResponse :=
  value (_generate_ai_response self sid m).

(** How every turn begins... *)
Definition opening : list event :=
  GetOrCreateSession user_id platform ::
  (if Py.truthy message then [AddMessageToHistory user_id sid user msg] else []).

(** ... and how it ends. *)
Definition closing (node : string) (response : ChatResponse) : list event :=
  [UpdateSession user_id sid node;
   AddMessageToHistory user_id sid assistant (text response)].

Definition gated (t : list event) : list event :=
  if Py.truthy message then t else [].

(** What the router answers and does, by the strategy that matched. *)
Definition turn (d : decision) : Traced ChatResponse :=
  match d with
  | OptionMapped node =>
      (flow_response node,
       opening ++ [MapOptionToNode msg] ++ GetNode node :: closing node (flow_response node))
  | DiagnosticHit data =>
      let response := _generate_diagnostic_response sid data in
      (response,
       opening ++ [MapOptionToNode msg; DetectErrorCode msg] ++ closing prior_node response)
  | PaymentIntent =>
      (flow_response "wallet_issues",
       opening ++ [MapOptionToNode msg; DetectErrorCode msg; IsPaymentIntent msg]
               ++ GetNode "wallet_issues"
                    :: closing "wallet_issues" (flow_response "wallet_issues"))
  | ExplicitAction node =>
      (flow_response node,
       opening ++ gated [MapOptionToNode msg; DetectErrorCode msg; IsPaymentIntent msg]
               ++ GetNode node :: closing node (flow_response node))
  | IntentDetected intent =>
      let node := _map_intent_to_node intent in
      (flow_response node,
       opening ++ [MapOptionToNode msg; DetectErrorCode msg; IsPaymentIntent msg;
                   DetectIntent msg]
               ++ GetNode node :: closing node (flow_response node))
  | Fallback =>
      let prompt := if Py.truthy message then msg else "Hello" in
      (ai_response prompt,
       opening ++ gated [MapOptionToNode msg; DetectErrorCode msg; IsPaymentIntent msg;
                         DetectIntent msg]
               ++ GenerateResponse prompt :: closing prior_node (ai_response prompt))
  end%list.
End Turn.

(** *** The catalog *)

(** [error] is stored under [key] by the loop that builds the index. *)
Definition indexed_under (key : string) (error : DiagnosticEngine.FaultRecord) : bool :=
  negb (Py.is_empty key) && String.eqb (Py.upper (DiagnosticEngine.Error_Code error)) key.

(** The last record of the sequence that is stored under [key]. *)
Definition last_under (key : string) (records : list DiagnosticEngine.FaultRecord)
    : option DiagnosticEngine.FaultRecord :=
  List.find (indexed_under key) (rev records).

(** The codes are unique across the catalog, up to case. *)
Definition unique_codes (records : list DiagnosticEngine.FaultRecord) : Prop :=
  forall i j a b,
    records !! i = Some a -> records !! j = Some b ->
    Py.upper (DiagnosticEngine.Error_Code a) = Py.upper (DiagnosticEngine.Error_Code b) ->
    i = j.

(** The codes are unique, up to case, among the records that have one. *)
Definition unique_among_coded (records : list DiagnosticEngine.FaultRecord) : Prop :=
  forall i j a b,
    records !! i = Some a -> records !! j = Some b ->
    DiagnosticEngine.Error_Code a <> "" ->
    Py.upper (DiagnosticEngine.Error_Code a) = Py.upper (DiagnosticEngine.Error_Code b) ->
    i = j.

(** *** Loops that keep the first best candidate *)

(** One round of a loop that keeps the first candidate of the highest score
    among those that reach [threshold]; [leb] is the order of the scores and
    the state is (best candidate, best score). *)
Definition keep_best {A S : Type} (leb : S -> S -> bool) (score : A -> S) (threshold : S)
    (st : option A * S) (x : A) : option A * S :=
  if negb (leb (score x) (snd st)) && leb threshold (score x)
  then (Some x, score x)
  else st.

(** One round of a loop that keeps a candidate when its score is greater
    than the best so far and reaches [threshold]; [ltb] and [leb] are the
    comparisons of the scores. *)
Definition keep_greater {A S : Type} (ltb leb : S -> S -> bool) (score : A -> S)
    (threshold : S) (st : option A * S) (x : A) : option A * S :=
  if ltb (snd st) (score x) && leb threshold (score x)
  then (Some x, score x)
  else st.

(** *** The order of the floats *)

(** Numbers compare as their keys do in the lexicographic order; what is
    not a number has no key. *)
Definition float_key (x : Float64.float) : option (Z * Z * Z) :=
  match x with
  | S754_nan => None
  | S754_infinity true => Some (-2, 0, 0)%Z
  | S754_finite true m e => Some (-1, - e, - Zpos m)%Z
  | S754_zero _ => Some (0, 0, 0)%Z
  | S754_finite false m e => Some (1, e, Zpos m)%Z
  | S754_infinity false => Some (2, 0, 0)%Z
  end.

Definition lex (a b : Z * Z * Z) : comparison :=
  let '(a1, a2, a3) := a in
  let '(b1, b2, b3) := b in
  match (a1 ?= b1)%Z with
  | Eq => match (a2 ?= b2)%Z with Eq => (a3 ?= b3)%Z | c => c end
  | c => c
  end.

(** *** The words two texts share *)

(** The distinct words of a text, and those of them that are words of
    another text. *)
Definition distinct_words (text : string) : list string := remove_dups (Py.split text).

Definition shared_words (query title : string) : list string :=
  filter (fun w => w ∈ Py.split title) (distinct_words query).

(** *** The longest matching block *)

(** Either no block was found yet, or the block starts before row [n]. *)
Definition starts_before (n : nat) (best : Difflib.block) : Prop :=
  let '(besti, _, bestsize) := best in
  (bestsize = 0 /\ besti = 0)%nat \/ (besti < n)%nat.

(** *** Lower-case words *)

(** Every character of [s] passes [p]. *)
Fixpoint forall_chars (p : ascii -> bool) (s : string) : bool :=
  match s with
  | EmptyString => true
  | String c r => p c && forall_chars p r
  end.

(** [c] is its own lower case. *)
Definition is_lower_char (c : ascii) : bool := Ascii.eqb (Py.lower_char c) c.

(** *** Normalized text *)

(** The white space of [s] is single blanks, each before a character that is
    no white space; [after_space] tells that a blank, or the start of the
    text, comes just before [s]. *)
Fixpoint single_spaced (after_space : bool) (s : string) : bool :=
  match s with
  | EmptyString => negb after_space
  | String c r =>
      if Py.isspace c then Ascii.eqb c " " && negb after_space && single_spaced true r
      else single_spaced false r
  end.

(** *** Characters *)

(** A character: a byte and continuation bytes. *)
Definition continuation_bytes (s : string) : bool := forall_chars Py.is_continuation s.

Definition starts_character (c : string) : bool :=
  match c with
  | String b t => negb (Py.is_continuation b) && continuation_bytes t
  | EmptyString => false
  end.

Definition is_character (c : string) : bool :=
  match c with
  | String b t => continuation_bytes t
  | EmptyString => false
  end.

(** *** Messages that are a number *)

Definition digits : list ascii := ["0"; "1"; "2"; "3"; "4"; "5"; "6"; "7"; "8"; "9"]%char.

(** All the strings of [n] digits. *)
Fixpoint digit_strings (n : nat) : list string :=
  match n with
  | O => [EmptyString]
  | S n' => flat_map (fun s => List.map (fun c => String c s) digits) (digit_strings n')
  end.

Definition option_string_eqb (a b : option string) : bool :=
  match a, b with
  | Some x, Some y => String.eqb x y
  | None, None => true
  | _, _ => false
  end.

(** *** Intent rules *)

(** A rule fires on a text that holds one of its keywords. *)
Definition rule_fires (normalized_text : string) (rule : string * list string) : bool :=
  existsb (fun keyword => Py.contains keyword normalized_text) (snd rule).

End Spec.

(** ** A catalog and a manager to evaluate on *)

Module Sample.
Import DiagnosticEngine ConversationManager.

Definition gun_temperature : FaultRecord :=
  {| Error_Code := "ER001";
     Tittle := "Gun Temperature Limit";
     Description := "The gun temperature exceeded the safe limit";
     Solution := ["Remove the gun and let it cool down"] |}.

Definition rfid_fail : FaultRecord :=
  {| Error_Code := "ER015";
     Tittle := "RFID Communication Fail";
     Description := "The card reader does not answer";
     Solution := ["Restart the charger"] |}.

Definition ocpp_error : FaultRecord :=
  {| Error_Code := "ER042";
     Tittle := "OCPP Communication Error";
     Description := "The link to the central system is lost";
     Solution := ["Check the network cable"; "Restart the charger"] |}.

Definition catalog : engine :=
  load_error_codes init (Parsed [gun_temperature; rfid_fail; ocpp_error]).

Definition node (node_id : string) : NodeData :=
  {| node_text := Some ("You are at " ++ node_id);
     node_options := Some ["Back to Menu"];
     node_steps := None;
     node_action := None |}.

Definition mgr : manager :=
  {| flow_engine := node;
     intent_engine := IntentEngine.intent_keywords;
     diagnostic_engine := catalog;
     session_service := fun _ _ =>
       {| session_id := "sess_0123456789abcdef"; current_node := Some "troubleshooting" |};
     ai_service := fun m => "Let me think about: " ++ m |}.

End Sample.

(** * Properties *)

Import Re TextUtils DiagnosticEngine ConversationManager Spec.

(** ** The router *)

(** The router does what the first matching strategy prescribes. *)
Lemma process_message_turn self user_id message action platform :
  process_message self user_id message action platform
  = turn self user_id platform message (first_match self message action).
Proof.
  unfold process_message, first_match, turn, opening, gated, closing, route_to,
    _save_and_return_response, flow_response, ai_response, _generate_flow_response,
    _generate_ai_response, value, call, msg, sid, prior_node, the_session.
  unfold mbind, Traced_bind, mret, Traced_ret.
  destruct (Py.truthy message) eqn:Hm; cbn [andb].
  - destruct (_map_option_to_node (default "" message)) as [[|c node]|]; cbn;
      try reflexivity;
      (destruct (detect_error_code _ _); cbn; [reflexivity|];
       destruct (_is_payment_intent _); cbn; [reflexivity|];
       destruct action as [[|c' a]|]; cbn; try reflexivity;
       destruct (IntentEngine.detect_intent _ _) as [[|c'' i]|]; cbn; reflexivity).
  - cbn. destruct action as [[|c' a]|]; cbn; reflexivity.
Qed.

(** Every node of the option map has a name. *)
Lemma option_mapping_nodes key node :
  option_mapping !! key = Some node -> node <> "".
Proof.
  intros Hk. apply elem_of_list_to_map_2 in Hk.
  change (snd (key, node) <> ""). revert Hk. generalize (key, node).
  apply Forall_forall. repeat (constructor; [discriminate|]). constructor.
Qed.

Lemma map_option_to_node_named option_text node :
  _map_option_to_node option_text = Some node -> node <> "".
Proof.
  unfold _map_option_to_node. case_bool_decide; [discriminate|].
  apply option_mapping_nodes.
Qed.

Lemma detect_intent_named rules message intent :
  IntentEngine.detect_intent rules message = Some intent -> intent <> "".
Proof.
  unfold IntentEngine.detect_intent.
  destruct (Py.is_empty message); [discriminate|].
  destruct (IntentEngine._rule_based_detection _ _) as [[|c i]|]; cbn; congruence.
Qed.

Lemma truthy_present (m : string) : m <> "" -> Py.truthy (Some m) = true.
Proof. destruct m; [congruence | reflexivity]. Qed.

(** The strategy that matched fixes the type of the answer and the node that
    is persisted. *)
Lemma turn_type_persisted self user_id platform message d :
  let r := turn self user_id platform message d in
  match d with
  | OptionMapped node => type (value r) = flow /\ persisted (trace r) = [node]
  | DiagnosticHit _ =>
      type (value r) = diagnostic
      /\ persisted (trace r) = [prior_node self user_id platform]
  | PaymentIntent => type (value r) = flow /\ persisted (trace r) = ["wallet_issues"]
  | ExplicitAction node => type (value r) = flow /\ persisted (trace r) = [node]
  | IntentDetected intent =>
      type (value r) = flow /\ persisted (trace r) = [_map_intent_to_node intent]
  | Fallback =>
      type (value r) = ai /\ persisted (trace r) = [prior_node self user_id platform]
  end.
Proof.
  destruct d; cbn; unfold opening, gated; destruct (Py.truthy message); cbn; auto.
Qed.

(** C10.  An empty utterance without action is handled as no utterance at
    all: the answer and the calls are those of the turn without utterance;
    no strategy that reads the utterance is evaluated, the only message
    appended to the history is the assistant's, the fallback generator gets
    the text "Hello", the answer is an [ai] response and the node persisted
    is the one the session had. *)
Theorem empty_utterance_is_no_utterance self user_id platform :
  let r := process_message self user_id (Some "") None platform in
  r = process_message self user_id None None platform
  /\ evaluations (trace r) = []
  /\ appended (trace r) = [(assistant, text (value r))]
  /\ generated (trace r) = ["Hello"]
  /\ type (value r) = ai
  /\ text (value r) = ai_service self "Hello"
  /\ persisted (trace r) = [prior_node self user_id platform].
Proof.
  cbv zeta. rewrite !process_message_turn. cbn. repeat split; reflexivity.
Qed.

(** C9.  A diagnostic answer and an AI answer persist the node the session
    had; the answers of the other four strategies are flow answers and
    persist the node they route to. *)
Theorem persisted_node_by_decision self user_id message action platform :
  let r := process_message self user_id message action platform in
  let prior := prior_node self user_id platform in
  (type (value r) = diagnostic \/ type (value r) = ai -> persisted (trace r) = [prior])
  /\ match first_match self message action with
     | DiagnosticHit _ => type (value r) = diagnostic /\ persisted (trace r) = [prior]
     | Fallback => type (value r) = ai /\ persisted (trace r) = [prior]
     | OptionMapped node => type (value r) = flow /\ persisted (trace r) = [node]
     | PaymentIntent => type (value r) = flow /\ persisted (trace r) = ["wallet_issues"]
     | ExplicitAction node => type (value r) = flow /\ persisted (trace r) = [node]
     | IntentDetected intent =>
         type (value r) = flow /\ persisted (trace r) = [_map_intent_to_node intent]
     end.
Proof.
  cbv zeta. rewrite process_message_turn.
  pose proof (turn_type_persisted self user_id platform message
                (first_match self message action)) as H.
  cbv zeta in H. split; [|destruct (first_match self message action); exact H].
  destruct (first_match self message action); destruct H as [Ht Hp]; rewrite Ht;
    intros [?|?]; congruence.
Qed.

(** C8, as the code has it.  A turn is: the session is fetched; the
    utterance, when there is one, is appended to the history at once; then
    the strategies are evaluated and the response is produced, without any
    call to the session collaborator; then the node is persisted; then the
    text of the response is appended to the history; the response is
    returned. *)
Theorem effects_sequence self user_id message action platform :
  let r := process_message self user_id message action platform in
  exists deciding node,
    trace r = (opening self user_id platform message
               ++ deciding
               ++ closing self user_id platform node (value r))%list
    /\ deciding <> []
    /\ Forall (fun e => is_session_call e = false) deciding
    /\ appended (trace r)
       = ((if Py.truthy message then [(user, msg message)] else [])
          ++ [(assistant, text (value r))])%list.
Proof.
  cbv zeta. rewrite process_message_turn.
  pose (m := msg message).
  pose (seen := fun t : list event => if Py.truthy message then t else []).
  unfold turn, opening, gated.
  destruct (first_match self message action) as [node|d| |node|intent|];
    [ exists [MapOptionToNode m; GetNode node], node
    | exists [MapOptionToNode m; DetectErrorCode m], (prior_node self user_id platform)
    | exists [MapOptionToNode m; DetectErrorCode m; IsPaymentIntent m;
              GetNode "wallet_issues"], "wallet_issues"
    | exists (seen [MapOptionToNode m; DetectErrorCode m; IsPaymentIntent m]
              ++ [GetNode node])%list, node
    | exists [MapOptionToNode m; DetectErrorCode m; IsPaymentIntent m; DetectIntent m;
              GetNode (_map_intent_to_node intent)], (_map_intent_to_node intent)
    | exists (seen [MapOptionToNode m; DetectErrorCode m; IsPaymentIntent m;
                    DetectIntent m]
              ++ [GenerateResponse (if Py.truthy message then m else "Hello")])%list,
             (prior_node self user_id platform) ];
    subst seen m; cbv beta; destruct (Py.truthy message);
    (split; [reflexivity | split; [discriminate | split; [repeat constructor | reflexivity]]]).
Qed.

(** C8, as stated, fails: the utterance is appended to the history before
    the first strategy is looked at. *)
Lemma user_message_saved_before_decision :
  let t := trace (process_message Sample.mgr "u1" (Some "hello") None "web") in
  t !! 1%nat = Some (AddMessageToHistory "u1" "sess_0123456789abcdef" user "hello")
  /\ t !! 2%nat = Some (MapOptionToNode "hello")
  /\ ~ instructions_follow_decision t.
Proof.
  cbv zeta. split; [vm_compute; reflexivity|]. split; [vm_compute; reflexivity|].
  intros H.
  specialize (H [GetOrCreateSession "u1" "web"]
                (AddMessageToHistory "u1" "sess_0123456789abcdef" user "hello") _
                ltac:(vm_compute; reflexivity) eq_refl).
  apply Forall_inv in H. discriminate H.
Qed.

(** What the router does once the payment check has fired. *)
Lemma payment_route self user_id message action platform :
  message <> "" ->
  _map_option_to_node message = None ->
  detect_error_code (diagnostic_engine self) message = None ->
  _is_payment_intent message = true ->
  process_message self user_id (Some message) action platform
  = turn self user_id platform (Some message) PaymentIntent.
Proof.
  intros Hm Ho Hd Hp. rewrite process_message_turn. unfold first_match.
  rewrite (truthy_present _ Hm).
  change (default "" (Some message)) with message. rewrite Ho, Hd, Hp. reflexivity.
Qed.

(** C6.  The payment check holds exactly when some word of the normalized
    utterance has a similarity of at least 0.70 with one of the five
    keywords, the similarity of two words being [2.0 * M / T] for the [M]
    characters in matching blocks and the [T] characters of both; the
    utterance is read in lower case; "payement" and "pamyent" match
    "payment", "charging" matches no keyword; and once the check fires the
    answer is the flow node [wallet_issues], which is also the node
    persisted, and the intent engine is not consulted. *)
Theorem payment_intent_check :
  (forall message,
      _is_payment_intent message = true <->
      exists w k, In w (Py.split (normalize_text message))
                  /\ In k payment_keywords
                  /\ Float64.leb Float64.seven_tenths (Difflib.ratio w k) = true)
  /\ (forall w k,
        Difflib.ratio w k
        = if (Py.len w + Py.len k =? 0)%nat then Float64.one
          else Float64.div
                 (Float64.mul Float64.two (Float64.of_nat (Difflib.matching w k)))
                 (Float64.of_nat (Py.len w + Py.len k)))
  /\ payment_keywords = ["payment"; "wallet"; "balance"; "refund"; "billing"]
  /\ Float64.seven_tenths = Float64.div (Float64.of_nat 7) (Float64.of_nat 10)
  /\ (Difflib.matching "payement" "payment" = 7%nat
      /\ Difflib.matching "pamyent" "payment" = 6%nat
      /\ Difflib.matching "charging" "billing" = 3%nat)
  /\ fuzzy_equal "payement" "payment" = true
  /\ fuzzy_equal "pamyent" "payment" = true
  /\ _is_payment_intent "payement" = true
  /\ _is_payment_intent "pamyent" = true
  /\ (forall k, In k payment_keywords -> fuzzy_equal "charging" k = false)
  /\ _is_payment_intent "charging" = false
  /\ (_is_payment_intent "Check my  WALLET" = true
      /\ fuzzy_equal "WALLET" "wallet" = false
      /\ Difflib.matching "✅wallet✅" "wallet" = 6%nat
      /\ Py.len "✅wallet✅" = 8%nat
      /\ _is_payment_intent "✅wallet✅" = true
      /\ _is_payment_intent "❌❌refnd" = true)
  /\ (forall self user_id message action platform,
        message <> "" ->
        _map_option_to_node message = None ->
        detect_error_code (diagnostic_engine self) message = None ->
        _is_payment_intent message = true ->
        let r := process_message self user_id (Some message) action platform in
        value r = flow_response self user_id platform "wallet_issues"
        /\ type (value r) = flow
        /\ In (GetNode "wallet_issues") (trace r)
        /\ persisted (trace r) = ["wallet_issues"]
        /\ evaluations (trace r)
           = [MapOptionToNode message; DetectErrorCode message; IsPaymentIntent message]
        /\ forall text, ~ In (DetectIntent text) (trace r)).
Proof.
  split; [|split; [|split; [|split; [|split; [|split; [|split; [|split; [|split;
    [|split; [|split; [|split]]]]]]]]]]].
  - intros message. unfold _is_payment_intent. rewrite existsb_exists. split.
    + intros (w & Hw & Hk). apply existsb_exists in Hk as (k & Hk & Hr).
      exists w, k. repeat split; assumption.
    + intros (w & k & Hw & Hk & Hr). exists w. split; [assumption|].
      apply existsb_exists. exists k. split; assumption.
  - intros w k. unfold Difflib.ratio. now destruct (Py.len w + Py.len k)%nat.
  - reflexivity.
  - vm_compute; reflexivity.
  - split; [|split]; vm_compute; reflexivity.
  - vm_compute; reflexivity.
  - vm_compute; reflexivity.
  - vm_compute; reflexivity.
  - vm_compute; reflexivity.
  - intros k Hk. unfold payment_keywords in Hk.
    repeat (destruct Hk as [<-|Hk]; [vm_compute; reflexivity|]). destruct Hk.
  - vm_compute; reflexivity.
  - split; [|split; [|split; [|split; [|split]]]]; vm_compute; reflexivity.
  - intros self user_id message action platform Hm Ho Hd Hp. cbv zeta.
    rewrite (payment_route _ _ _ _ _ Hm Ho Hd Hp).
    unfold turn, opening, value, trace. rewrite (truthy_present _ Hm).
    cbn [fst snd app evaluations persisted List.filter is_evaluation closing].
    split; [reflexivity|]. split; [reflexivity|].
    split; [cbn [In]; auto 10|]. split; [reflexivity|]. split; [reflexivity|].
    intros text0 H. cbn [In] in H.
    repeat (destruct H as [H|H]; [discriminate H|]). destruct H.
Qed.

(** C6 on the utterance "pamyent issue". *)
Lemma payment_intent_check_witness :
  let r := process_message Sample.mgr "u1" (Some "pamyent issue") None "web" in
  type (value r) = flow /\ persisted (trace r) = ["wallet_issues"].
Proof.
  pose proof (proj2 (proj2 (proj2 (proj2 (proj2 (proj2 (proj2 (proj2 (proj2 (proj2
                (proj2 (proj2 payment_intent_check)))))))))))
                Sample.mgr "u1" "pamyent issue" None "web") as H.
  cbv zeta in H.
  destruct H as (_ & Ht & _ & Hp & _).
  - discriminate.
  - vm_compute; reflexivity.
  - vm_compute; reflexivity.
  - vm_compute; reflexivity.
  - split; [exact Ht | exact Hp].
Defined.

(** An utterance that carries the code of an indexed record is diagnosed by
    the first stage of detection. *)
Lemma detect_by_pattern self message code record :
  message <> "" ->
  error_codes self <> [] ->
  extract_error_pattern message = Some code ->
  code <> "" ->
  error_index self !! Py.strip (Py.upper code) = Some record ->
  detect_error_code self message = Some (_format_error_response record).
Proof.
  intros Hm Hc He Hn Hi. unfold detect_error_code.
  destruct message; [congruence|]. cbn [Py.is_empty orb].
  rewrite bool_decide_eq_false_2 by assumption. rewrite He.
  destruct code; [congruence|]. cbn [Py.is_empty].
  unfold _lookup_by_code. rewrite Hi. reflexivity.
Qed.

(** C1, as the code has it.  The strategies are tried in the order option
    mapping, diagnostic detection, payment check, explicit action, intent
    detection, AI fallback, and the first that matches answers.  The option
    map is looked up at the lower-cased, stripped utterance (runs of white
    space inside it are kept), unless that text begins like an error label,
    in which case the option map is skipped and detection is consulted;
    "ER001 - Gun Temp" is diagnosed whenever the catalog indexes ER001. *)
Theorem router_priority self user_id message action platform :
  message <> "" ->
  let r := process_message self user_id (Some message) action platform in
  let sid := sid self user_id platform in
  (* the order of the strategies *)
  (forall node,
      _map_option_to_node message = Some node ->
      value r = flow_response self user_id platform node
      /\ evaluations (trace r) = [MapOptionToNode message])
  /\ (_map_option_to_node message = None ->
      (forall d,
          detect_error_code (diagnostic_engine self) message = Some d ->
          value r = _generate_diagnostic_response sid d
          /\ evaluations (trace r) = [MapOptionToNode message; DetectErrorCode message])
      /\ (detect_error_code (diagnostic_engine self) message = None ->
          (_is_payment_intent message = true ->
           value r = flow_response self user_id platform "wallet_issues"
           /\ evaluations (trace r)
              = [MapOptionToNode message; DetectErrorCode message;
                 IsPaymentIntent message])
          /\ (_is_payment_intent message = false ->
              (forall node,
                  action = Some node -> node <> "" ->
                  value r = flow_response self user_id platform node
                  /\ evaluations (trace r)
                     = [MapOptionToNode message; DetectErrorCode message;
                        IsPaymentIntent message])
              /\ (Py.truthy action = false ->
                  (forall intent,
                      IntentEngine.detect_intent (intent_engine self) message
                      = Some intent ->
                      value r = flow_response self user_id platform
                                  (_map_intent_to_node intent)
                      /\ evaluations (trace r)
                         = [MapOptionToNode message; DetectErrorCode message;
                            IsPaymentIntent message; DetectIntent message])
                  /\ (IntentEngine.detect_intent (intent_engine self) message = None ->
                      value r = ai_response self user_id platform message
                      /\ evaluations (trace r)
                         = [MapOptionToNode message; DetectErrorCode message;
                            IsPaymentIntent message; DetectIntent message])))))
  (* the option map and its exception *)
  /\ (forall node,
        re_match true error_option_label (Py.strip (Py.lower message)) = None ->
        option_mapping !! Py.strip (Py.lower message) = Some node ->
        _map_option_to_node message = Some node /\ type (value r) = flow
        /\ persisted (trace r) = [node])
  /\ (is_Some (re_match true error_option_label (Py.strip (Py.lower message))) ->
      _map_option_to_node message = None
      /\ In (DetectErrorCode message) (trace r))
  (* the example *)
  /\ (forall record,
        error_codes (diagnostic_engine self) <> [] ->
        error_index (diagnostic_engine self) !! "ER001" = Some record ->
        let r' := process_message self user_id (Some "ER001 - Gun Temp") action platform in
        _map_option_to_node "ER001 - Gun Temp" = None
        /\ type (value r') = diagnostic
        /\ error_code (value r') = Some (Error_Code record)
        /\ evaluations (trace r')
           = [MapOptionToNode "ER001 - Gun Temp"; DetectErrorCode "ER001 - Gun Temp"]).
Proof.
  intros Hm. cbv zeta.
  assert (Hturn : forall d, first_match self (Some message) action = d ->
            process_message self user_id (Some message) action platform
            = turn self user_id platform (Some message) d)
    by (intros d <-; apply process_message_turn).
  assert (Hev : forall d, evaluations (trace (turn self user_id platform (Some message) d))
            = match d with
              | OptionMapped _ => [MapOptionToNode message]
              | DiagnosticHit _ => [MapOptionToNode message; DetectErrorCode message]
              | PaymentIntent | ExplicitAction _ =>
                  [MapOptionToNode message; DetectErrorCode message; IsPaymentIntent message]
              | _ => [MapOptionToNode message; DetectErrorCode message;
                      IsPaymentIntent message; DetectIntent message]
              end).
  { intros d. unfold turn, opening, gated, trace. rewrite (truthy_present _ Hm).
    destruct d; reflexivity. }
  assert (Hfirst : first_match self (Some message) action
            = match _map_option_to_node message with
              | Some (String c node) => OptionMapped (String c node)
              | _ =>
              match detect_error_code (diagnostic_engine self) message with
              | Some d => DiagnosticHit d
              | None =>
              if _is_payment_intent message then PaymentIntent else
              match action with
              | Some (String c node) => ExplicitAction (String c node)
              | _ =>
              match IntentEngine.detect_intent (intent_engine self) message with
              | Some (String c intent) => IntentDetected (String c intent)
              | _ => Fallback
              end end end end).
  { unfold first_match. rewrite (truthy_present _ Hm). reflexivity. }
  assert (Hopt : forall node, _map_option_to_node message = Some node ->
            first_match self (Some message) action = OptionMapped node).
  { intros node Ho. rewrite Hfirst, Ho.
    destruct node; [|reflexivity]. now apply map_option_to_node_named in Ho. }
  split; [|split; [|split; [|split]]].
  - intros node Ho. rewrite (Hturn _ (Hopt _ Ho)), Hev. split; reflexivity.
  - intros Ho. rewrite Ho in Hfirst. split.
    + intros d Hd. rewrite Hd in Hfirst. rewrite (Hturn _ Hfirst), Hev.
      split; reflexivity.
    + intros Hd. rewrite Hd in Hfirst. split.
      * intros Hp. rewrite Hp in Hfirst. rewrite (Hturn _ Hfirst), Hev.
        split; reflexivity.
      * intros Hp. rewrite Hp in Hfirst. split.
        -- intros node -> Hn. destruct node; [congruence|].
           rewrite (Hturn _ Hfirst), Hev. split; reflexivity.
        -- intros Ha.
           assert (Hfirst' : first_match self (Some message) action
                     = match IntentEngine.detect_intent (intent_engine self) message with
                       | Some (String c intent) => IntentDetected (String c intent)
                       | _ => Fallback
                       end).
           { rewrite Hfirst. destruct action as [[|c a]|]; try reflexivity.
             discriminate Ha. }
           split.
           ++ intros intent Hi. rewrite Hi in Hfirst'.
              destruct intent; [now apply detect_intent_named in Hi|].
              rewrite (Hturn _ Hfirst'), Hev. split; reflexivity.
           ++ intros Hi. rewrite Hi in Hfirst'. rewrite (Hturn _ Hfirst'), Hev.
              split; [|reflexivity].
              unfold turn, value. rewrite (truthy_present _ Hm). reflexivity.
  - intros node Hre Hmap.
    assert (Ho : _map_option_to_node message = Some node).
    { unfold _map_option_to_node. rewrite Hre.
      rewrite bool_decide_eq_false_2 by (intros [x Hx]; discriminate Hx). exact Hmap. }
    split; [exact Ho|]. rewrite (Hturn _ (Hopt _ Ho)).
    apply (turn_type_persisted self user_id platform (Some message) (OptionMapped node)).
  - intros Hre.
    assert (Ho : _map_option_to_node message = None).
    { unfold _map_option_to_node. now rewrite bool_decide_eq_true_2. }
    split; [exact Ho|]. rewrite Ho in Hfirst.
    assert (Hin : In (DetectErrorCode message)
                     (evaluations (trace (process_message self user_id (Some message)
                                            action platform)))).
    { rewrite (Hturn _ eq_refl), Hev, Hfirst.
      destruct (detect_error_code _ _); [cbn; auto|].
      destruct (_is_payment_intent _); [cbn; auto|].
      destruct action as [[|? ?]|];
        try (cbn; now auto);
        destruct (IntentEngine.detect_intent _ _) as [[|? ?]|]; cbn; auto. }
    unfold evaluations in Hin. apply filter_In in Hin. tauto.
  - intros record Hc Hi.
    assert (Ho : _map_option_to_node "ER001 - Gun Temp" = None)
      by (vm_compute; reflexivity).
    assert (Hd : detect_error_code (diagnostic_engine self) "ER001 - Gun Temp"
                 = Some (_format_error_response record)).
    { apply (detect_by_pattern _ _ "ER001"); try assumption; try discriminate.
      vm_compute; reflexivity. }
    rewrite process_message_turn. unfold first_match.
    change (Py.truthy (Some "ER001 - Gun Temp")) with true.
    change (default "" (Some "ER001 - Gun Temp")) with "ER001 - Gun Temp".
    rewrite Ho, Hd. repeat split; reflexivity.
Qed.

(** C1 on the button label "Yes" and on "ER001 - Gun Temp". *)
Lemma router_priority_witness :
  "Yes" <> ""
  /\ (let r := process_message Sample.mgr "u1" (Some "Yes") None "web" in
      _map_option_to_node "Yes" = Some "solution_resolved"
      /\ type (value r) = flow
      /\ persisted (trace r) = ["solution_resolved"])
  /\ (let r := process_message Sample.mgr "u1" (Some "ER001 - Gun Temp") None "web" in
      type (value r) = diagnostic
      /\ error_code (value r) = Some "ER001").
Proof.
  assert (Hm : "Yes" <> "") by discriminate.
  pose proof (router_priority Sample.mgr "u1" "Yes" None "web" Hm) as H.
  cbv zeta in H. destruct H as (_ & _ & Hopt & _ & Hex).
  split; [exact Hm|]. split.
  - apply Hopt; vm_compute; reflexivity.
  - destruct (Hex Sample.gun_temperature) as (_ & Ht & Hc & _).
    + discriminate.
    + vm_compute; reflexivity.
    + split; [exact Ht | exact Hc].
Defined.

(** C1, as stated, fails: normalized as the specification normalizes (white
    space collapsed), "Back  to Menu" with two blanks is the entry
    "back to menu" of the option map, but the router looks the map up at the
    text with both blanks, finds nothing and ends in the AI fallback. *)
Lemma collapsed_blanks_do_not_map :
  let r := process_message Sample.mgr "u1" (Some "Back  to Menu") None "web" in
  normalize_text "Back  to Menu" = "back to menu"
  /\ option_mapping !! normalize_text "Back  to Menu" = Some "start"
  /\ re_match true error_option_label (normalize_text "Back  to Menu") = None
  /\ _map_option_to_node "Back  to Menu" = None
  /\ type (value r) = ai
  /\ persisted (trace r) = ["troubleshooting"].
Proof. cbv zeta. repeat split; vm_compute; reflexivity. Qed.

(** ** Empty texts *)

Lemma is_empty_true s : Py.is_empty s = true <-> s = "".
Proof. destruct s; cbn; split; congruence. Qed.

Lemma is_empty_false s : Py.is_empty s = false <-> s <> "".
Proof. destruct s; cbn; split; congruence. Qed.

(** ** The catalog and its index *)

Lemma index_error_lookup index error key :
  index_error index error !! key
  = if indexed_under key error then Some error else index !! key.
Proof.
  unfold index_error, indexed_under.
  destruct (String.eqb_spec (Py.upper (Error_Code error)) key) as [<-|Hne].
  - destruct (Py.upper (Error_Code error)); cbn; [reflexivity|].
    apply lookup_insert_eq.
  - rewrite andb_false_r.
    destruct (Py.is_empty (Py.upper (Error_Code error))); [reflexivity|].
    now apply lookup_insert_ne.
Qed.

Lemma last_under_last key records error :
  last_under key (records ++ [error])
  = if indexed_under key error then Some error else last_under key records.
Proof. unfold last_under. rewrite rev_app_distr. reflexivity. Qed.

(** After the loop a key holds the last record loaded under it; where no
    record of the file takes the key, the entry the index had stays. *)
Lemma index_loop_lookup records index key :
  fold_left index_error records index !! key
  = match last_under key records with
    | Some error => Some error
    | None => index !! key
    end.
Proof.
  induction records as [|error records IH] using rev_ind; [reflexivity|].
  rewrite fold_left_app, last_under_last. cbn [fold_left].
  rewrite index_error_lookup. destruct (indexed_under key error); [reflexivity|].
  exact IH.
Qed.

Lemma last_under_Some key records error :
  last_under key records = Some error ->
  In error records /\ key <> "" /\ Py.upper (Error_Code error) = key.
Proof.
  unfold last_under. intros H. apply find_some in H as [Hin Hk].
  apply in_rev in Hin. unfold indexed_under in Hk.
  apply andb_true_iff in Hk as [Hne Heq]. apply String.eqb_eq in Heq.
  repeat split; try assumption. destruct key; [discriminate|discriminate].
Qed.

(** With unique codes, each record with a code is the one stored under its
    code. *)
Lemma last_under_unique records error :
  unique_codes records ->
  In error records ->
  Py.upper (Error_Code error) <> "" ->
  last_under (Py.upper (Error_Code error)) records = Some error.
Proof.
  intros Hu Hin Hne.
  destruct (last_under (Py.upper (Error_Code error)) records) as [other|] eqn:Hl.
  - apply last_under_Some in Hl as (Hin' & _ & Heq).
    apply list_elem_of_In, list_elem_of_lookup in Hin as [i Hi].
    apply list_elem_of_In, list_elem_of_lookup in Hin' as [j Hj].
    assert (j = i) by (eapply Hu; eauto). subst j. congruence.
  - exfalso. unfold last_under in Hl.
    eapply find_none in Hl; [|apply in_rev; rewrite rev_involutive; exact Hin].
    unfold indexed_under in Hl. rewrite String.eqb_refl, andb_true_r in Hl.
    destruct (Py.upper (Error_Code error)); [congruence|discriminate].
Qed.

(** What a load leaves: after a failure both attributes are empty; after a
    success the records are those of the file, and the index holds them on
    top of the entries it had. *)
Lemma load_error_codes_result self f :
  match f with
  | Parsed records =>
      error_codes (load_error_codes self f) = records
      /\ forall key,
           error_index (load_error_codes self f) !! key
           = match last_under key records with
             | Some error => Some error
             | None => error_index self !! key
             end
  | _ =>
      error_codes (load_error_codes self f) = []
      /\ error_index (load_error_codes self f) = ∅
  end.
Proof.
  destruct f; cbn; split; try reflexivity. intros key. apply index_loop_lookup.
Qed.

(** The first load of a catalog with unique codes: the index holds each
    record with a code under its upper-cased code, and nothing else. *)
Lemma first_load_index records key error :
  unique_codes records ->
  error_index (load_error_codes init (Parsed records)) !! key = Some error
  <-> In error records /\ key <> "" /\ Py.upper (Error_Code error) = key.
Proof.
  intros Hu. cbn. rewrite index_loop_lookup. split.
  - destruct (last_under key records) eqn:Hl; [|rewrite lookup_empty; discriminate].
    intros [= ->]. now apply last_under_Some.
  - intros (Hin & Hne & <-). now rewrite last_under_unique.
Qed.

Lemma upper_empty s : Py.upper s = "" <-> s = "".
Proof. destruct s; cbn; split; congruence. Qed.

(** With codes unique among the records that have one, each record with a
    code is the one stored under its code. *)
Lemma last_under_coded records error :
  unique_among_coded records ->
  In error records ->
  Error_Code error <> "" ->
  last_under (Py.upper (Error_Code error)) records = Some error.
Proof.
  intros Hu Hin Hne.
  destruct (last_under (Py.upper (Error_Code error)) records) as [other|] eqn:Hl.
  - apply last_under_Some in Hl as (Hin' & _ & Heq).
    apply list_elem_of_In, list_elem_of_lookup in Hin as [i Hi].
    apply list_elem_of_In, list_elem_of_lookup in Hin' as [j Hj].
    assert (i = j) by (eapply Hu; eauto). subst j. congruence.
  - exfalso. unfold last_under in Hl.
    eapply find_none in Hl; [|apply in_rev; rewrite rev_involutive; exact Hin].
    unfold indexed_under in Hl. rewrite String.eqb_refl, andb_true_r in Hl.
    apply negb_false_iff, is_empty_true in Hl.
    apply (proj1 (upper_empty _)) in Hl. exact (Hne Hl).
Qed.

(** C2, as the code has it.  After the load on a fresh engine the records
    are those of the file and the index holds, under each key, the last
    record of the file whose upper-cased code is the key, and nothing else:
    every entry is a record of the file under its non-empty upper-cased code,
    and when the codes are unique among the records that have one, each such
    record has its entry, under that key only.  A load that fails leaves
    both attributes empty, whatever was loaded before, and a load after it
    is again a first load. *)
Theorem first_load_builds_index records :
  let self := load_error_codes init (Parsed records) in
  error_codes self = records
  /\ (forall key, error_index self !! key = last_under key records)
  /\ (forall key error,
        error_index self !! key = Some error ->
        In error records /\ key <> "" /\ Py.upper (Error_Code error) = key)
  /\ (unique_among_coded records ->
      forall error,
        In error records -> Error_Code error <> "" ->
        forall key,
          error_index self !! key = Some error <-> key = Py.upper (Error_Code error))
  /\ (forall prior f,
        f = FileNotFoundError \/ f = JSONDecodeError ->
        error_codes (load_error_codes prior f) = []
        /\ error_index (load_error_codes prior f) = ∅
        /\ load_error_codes (load_error_codes prior f) (Parsed records) = self).
Proof.
  cbv zeta.
  assert (Hidx : forall key,
             error_index (load_error_codes init (Parsed records)) !! key
             = last_under key records).
  { intros key. cbn. rewrite index_loop_lookup, lookup_empty.
    now destruct (last_under key records). }
  split; [reflexivity|]. split; [exact Hidx|]. split; [|split].
  - intros key error. rewrite Hidx. apply last_under_Some.
  - intros Hu error Hin Hne key. rewrite Hidx. split.
    + intros H. apply last_under_Some in H as (_ & _ & <-). reflexivity.
    + intros ->. now apply last_under_coded.
  - intros prior f [-> | ->]; repeat split; reflexivity.
Qed.

(** C2, as stated, fails at two loads in a row.  The second load replaces
    the records, but the index keeps the entry of the first: ER001 is still
    looked up although no loaded record has that code. *)
Theorem reload_keeps_stale_entries :
  let once := load_error_codes init (Parsed [Sample.gun_temperature]) in
  let twice := load_error_codes once (Parsed [Sample.ocpp_error]) in
  error_codes twice = [Sample.ocpp_error]
  /\ error_index twice !! "ER042" = Some Sample.ocpp_error
  /\ error_index twice !! "ER001" = Some Sample.gun_temperature
  /\ ~ In Sample.gun_temperature (error_codes twice)
  /\ detect_error_code twice "ER001"
     = Some (_format_error_response Sample.gun_temperature)
  /\ error_index (load_error_codes once JSONDecodeError) = ∅.
Proof.
  cbv zeta. split; [reflexivity|]. split; [vm_compute; reflexivity|].
  split; [vm_compute; reflexivity|]. split.
  - cbn. intros [H|[]]. discriminate H.
  - split; [vm_compute; reflexivity | reflexivity].
Qed.

(** ** Detection by code *)

(** The second branch of the lookup: a bare number finds the record stored
    under the number with the prefix. *)
Lemma lookup_by_code_bare self code record :
  error_index self !! Py.strip (Py.upper code) = None ->
  Py.startswith "ER" (Py.strip (Py.upper code)) = false ->
  Py.isdigit (Py.strip (Py.upper code)) = true ->
  error_index self !! ("ER" ++ Py.strip (Py.upper code)) = Some record ->
  _lookup_by_code self code = Some (_format_error_response record).
Proof.
  intros Hnone Hprefix Hdigit Hsome. unfold _lookup_by_code.
  rewrite Hnone, Hprefix, Hdigit. cbn [negb andb]. rewrite Hsome. reflexivity.
Qed.

Lemma sample_codes_unique :
  unique_codes [Sample.gun_temperature; Sample.rfid_fail; Sample.ocpp_error].
Proof.
  intros i j a b Hi Hj He.
  destruct i as [|[|[|i]]]; destruct j as [|[|[|j]]]; cbn in Hi, Hj;
    try discriminate; try reflexivity;
    injection Hi as <-; injection Hj as <-; vm_compute in He; discriminate He.
Qed.

(** C2 on the sample catalog. *)
Lemma first_load_builds_index_witness :
  error_index Sample.catalog !! "ER042" = Some Sample.ocpp_error
  /\ error_index Sample.catalog !! "er042" = None.
Proof.
  pose proof (first_load_builds_index
                [Sample.gun_temperature; Sample.rfid_fail; Sample.ocpp_error])
    as (_ & Hidx & _ & Hu & _).
  split; [|rewrite Hidx; reflexivity].
  apply (Hu (fun i j a b Ha Hb _ => sample_codes_unique i j a b Ha Hb)
            Sample.ocpp_error); [cbn; auto | discriminate | reflexivity].
Defined.

(** C3, as the code has it.  In a catalog with unique codes that holds a
    record with the code ER042, the messages "ER042" and "error 42" are
    resolved to that record by pattern extraction and exact lookup, and so is
    "042 error" through the added prefix when no record has the code 042;
    from "42 error" no code is extracted. *)
Theorem code_lookup_by_pattern records record :
  unique_codes records ->
  In record records ->
  Error_Code record = "ER042" ->
  let self := load_error_codes init (Parsed records) in
  (extract_error_pattern "ER042" = Some "ER042"
   /\ detect_error_code self "ER042" = Some (_format_error_response record))
  /\ (extract_error_pattern "error 42" = Some "ER042"
      /\ detect_error_code self "error 42" = Some (_format_error_response record))
  /\ (extract_error_pattern "042 error" = Some "042"
      /\ ((forall other, In other records -> Py.upper (Error_Code other) <> "042") ->
          detect_error_code self "042 error" = Some (_format_error_response record)))
  /\ extract_error_pattern "42 error" = None.
Proof.
  intros Hu Hin Hcode self.
  assert (Hcodes : error_codes self <> [])
    by (cbn; intros ->; destruct Hin).
  assert (Hidx : error_index self !! "ER042" = Some record).
  { apply first_load_index; [assumption|]. rewrite Hcode.
    repeat split; [assumption | discriminate]. }
  split; [|split; [|split]].
  - split; [vm_compute; reflexivity|].
    apply (detect_by_pattern self "ER042" "ER042");
      [discriminate | assumption | vm_compute; reflexivity | discriminate | exact Hidx].
  - split; [vm_compute; reflexivity|].
    apply (detect_by_pattern self "error 42" "ER042");
      [discriminate | assumption | vm_compute; reflexivity | discriminate | exact Hidx].
  - split; [vm_compute; reflexivity|]. intros Hfree.
    assert (Hnone : error_index self !! "042" = None).
    { destruct (error_index self !! "042") as [other|] eqn:Ho; [|reflexivity].
      apply first_load_index in Ho as (Hin' & _ & Heq); [|assumption].
      now apply Hfree in Hin'. }
    unfold detect_error_code. cbn [Py.is_empty orb].
    rewrite bool_decide_eq_false_2 by assumption.
    replace (extract_error_pattern "042 error") with (Some "042")
      by (vm_compute; reflexivity).
    cbn [Py.is_empty].
    rewrite (lookup_by_code_bare self "042" record); [reflexivity | | | |].
    + exact Hnone.
    + reflexivity.
    + reflexivity.
    + exact Hidx.
  - vm_compute; reflexivity.
Qed.

(** C3 on the sample catalog. *)
Lemma code_lookup_by_pattern_witness :
  let self := Sample.catalog in
  detect_error_code self "ER042" = Some (_format_error_response Sample.ocpp_error)
  /\ detect_error_code self "error 42" = Some (_format_error_response Sample.ocpp_error)
  /\ detect_error_code self "042 error" = Some (_format_error_response Sample.ocpp_error).
Proof.
  pose proof (code_lookup_by_pattern
                [Sample.gun_temperature; Sample.rfid_fail; Sample.ocpp_error]
                Sample.ocpp_error sample_codes_unique) as H.
  cbv zeta in H. destruct H as ((_ & H1) & (_ & H2) & (_ & H3) & _).
  - cbn. auto.
  - reflexivity.
  - split; [exact H1|]. split; [exact H2|]. apply H3.
    intros other [<-|[<-|[<-|[]]]]; vm_compute; discriminate.
Defined.

(** C3, as stated, fails: the catalog holds ER042, "ER042" is resolved to
    it, but "42 error" is resolved to nothing: no pattern takes a number of
    two digits that follows no word. *)
Lemma two_digits_before_error_not_detected :
  In Sample.ocpp_error (error_codes Sample.catalog)
  /\ Error_Code Sample.ocpp_error = "ER042"
  /\ detect_error_code Sample.catalog "ER042"
     = Some (_format_error_response Sample.ocpp_error)
  /\ extract_error_pattern "42 error" = None
  /\ detect_error_code Sample.catalog "42 error" = None.
Proof.
  split; [cbn; auto|]. split; [reflexivity|].
  repeat split; vm_compute; reflexivity.
Qed.

(** ** Pattern extraction *)

Lemma isdigit_char_digits c : Py.isdigit_char c = true -> In c digits.
Proof.
  destruct c as [[] [] [] [] [] [] [] []]; vm_compute; intros H;
    try discriminate H; auto 12.
Qed.

Lemma digit_strings_complete s :
  Py.all_digits s = true -> In s (digit_strings (String.length s)).
Proof.
  induction s as [|c s IH]; cbn [Py.all_digits String.length digit_strings].
  - intros _. now left.
  - intros H. apply andb_true_iff in H as [Hc Hs].
    apply in_flat_map. exists s. split; [now apply IH|].
    apply (in_map (fun d => String d s) digits c). now apply isdigit_char_digits.
Qed.

(** Every string of three or of four digits is extracted as it is. *)
Lemma numbers_extracted :
  forallb (fun s => option_string_eqb (extract_error_pattern s) (Some s))
          (digit_strings 3 ++ digit_strings 4) = true.
Proof. vm_compute. reflexivity. Qed.

(** ** What a match of the engine implies *)

Section EngineFacts.
Variables (icase : bool) (w : string).

Lemma class_In p i g j g' :
  In (j, g') (Re.class w p i g) ->
  j = S i /\ g' = g /\ exists c, String.get i w = Some c /\ p c = true.
Proof.
  unfold Re.class. destruct (String.get i w) as [c|]; [|intros []].
  destruct (p c) eqn:Hp; [|intros []]. intros [[= <- <-]|[]]. eauto.
Qed.

(** [r{lo,hi}] with one more round allowed. *)
Lemma run_Rep_S r lo hi i g :
  run icase w (Rep r lo (S hi)) i g
  = (flat_map (fun '(j, g') => run icase w (Rep r (Nat.pred lo) hi) j g')
              (run icase w r i g)
     ++ match lo with O => [(i, g)] | S _ => [] end)%list.
Proof. reflexivity. Qed.

Lemma run_Rep_0 r lo i g :
  run icase w (Rep r lo 0) i g = match lo with O => [(i, g)] | S _ => [] end.
Proof. reflexivity. Qed.

(** A repetition of [\d] consumes digits only, and at most [hi] of them. *)
Lemma run_digits_In hi : forall lo i g j g',
  In (j, g') (run icase w (Rep Digit lo hi) i g) ->
  g' = g /\ (i <= j <= i + hi)%nat
  /\ forall k, (i <= k < j)%nat ->
               exists c, String.get k w = Some c /\ Py.isdigit_char c = true.
Proof.
  induction hi as [|hi IH]; intros lo i g j g'.
  - rewrite run_Rep_0. destruct lo; [|intros []]. intros [[= <- <-]|[]].
    repeat split; intros; lia.
  - rewrite run_Rep_S. intros H. apply in_app_or in H as [H|H].
    + apply in_flat_map in H as ([j1 g1] & H1 & H2).
      apply class_In in H1 as (-> & -> & c & Hc & Hd).
      apply IH in H2 as (-> & Hj & Hk). repeat split; try lia.
      intros k Hik. destruct (decide (k = i)) as [->|Hne]; [eauto|].
      apply Hk. lia.
    + destruct lo; [|destruct H]. destruct H as [[= <- <-]|[]].
      repeat split; intros; lia.
Qed.

(** [\s*] consumes white space only. *)
Lemma run_spaces_In i g j g' :
  In (j, g') (run icase w (Star Space) i g) ->
  g' = g /\ (i <= j)%nat
  /\ forall k, (i <= k < j)%nat ->
               exists c, String.get k w = Some c /\ Py.isspace c = true.
Proof.
  cbn [run]. generalize (String.length w) as fuel. intros fuel. revert i g.
  induction fuel as [|fuel IH]; intros i g.
  - intros [[= <- <-]|[]]. repeat split; intros; lia.
  - intros H. apply in_app_or in H as [H|H].
    + apply in_flat_map in H as ([j1 g1] & H1 & H2).
      apply class_In in H1 as (-> & -> & c & Hc & Hs).
      rewrite (proj2 (Nat.ltb_lt i (S i))) in H2 by lia.
      apply IH in H2 as (-> & Hj & Hk). repeat split; try lia.
      intros k Hik. destruct (decide (k = i)) as [->|Hne]; [eauto|].
      apply Hk. lia.
    + destruct H as [[= <- <-]|[]]. repeat split; intros; lia.
Qed.
End EngineFacts.

Lemma get_in_range s : forall k, (k < String.length s)%nat -> exists c, String.get k s = Some c.
Proof.
  induction s as [|a s IH]; intros k Hk; cbn in Hk; [lia|].
  destruct k; cbn; [eauto|]. apply IH. lia.
Qed.

(** A match of [^\d{3,4}\s*$] leaves white space only from the fifth
    character on. *)
Lemma only_number_tail s k c :
  is_Some (re_match false only_number s) ->
  (4 <= k)%nat -> String.get k s = Some c -> Py.isspace c = true.
Proof.
  unfold re_match, match_at. intros [x Hx] Hk Hc.
  destruct (run false s only_number 0 None) as [|[j g] rest] eqn:Hrun; [discriminate|].
  assert (Hin : In (j, g) (run false s only_number 0 None)) by (rewrite Hrun; now left).
  clear Hrun Hx. unfold only_number in Hin. cbn [run flat_map] in Hin.
  rewrite app_nil_r in Hin.
  apply in_flat_map in Hin as ([j1 g1] & H1 & Hin).
  apply in_flat_map in Hin as ([j2 g2] & H2 & Hin).
  apply (run_digits_In false s 4 3) in H1 as (_ & Hj1 & _).
  apply (run_spaces_In false) in H2 as (_ & Hj2 & Hsp).
  destruct (at_end s j2) eqn:Hend; [|destruct Hin]. destruct Hin as [[= <- <-]|[]].
  assert (Hlt : (k < String.length s)%nat).
  { destruct (le_lt_dec (String.length s) k) as [Hge|]; [|assumption].
    assert (String.get k s = None); [|congruence].
    clear -Hge. revert k Hge. induction s as [|a s IH]; intros k Hge; [now destruct k|].
    destruct k; cbn in *; [lia|]. apply IH. lia. }
  destruct (decide (k < j2)%nat) as [Hkj|Hkj].
  - destruct (Hsp k) as (c' & Hc' & Hs); [lia|]. congruence.
  - unfold at_end in Hend. apply orb_true_iff in Hend as [Hend|Hend].
    + apply Nat.eqb_eq in Hend. lia.
    + apply andb_true_iff in Hend as [Hlen Hnl]. apply Nat.eqb_eq in Hlen.
      assert (k = j2) by lia. subst k. rewrite Hc in Hnl.
      apply Ascii.eqb_eq in Hnl. now subst c.
Qed.

(** The last character of a right-stripped string is no white space. *)
Lemma rstrip_last s c :
  String.get (String.length (Py.rstrip s) - 1) (Py.rstrip s) = Some c ->
  Py.isspace c = false.
Proof.
  induction s as [|a s IH]; cbn [Py.rstrip]; [discriminate|].
  destruct (Py.isspace a && Py.is_empty (Py.rstrip s)) eqn:Hcond; [discriminate|].
  cbn [String.length]. destruct (Py.rstrip s) as [|b t] eqn:Hr.
  - cbn. intros [= <-]. cbn in Hcond. now rewrite andb_true_r in Hcond.
  - cbn [String.length]. replace (S (S (String.length t)) - 1)%nat
      with (S (String.length t)) by lia.
    cbn [String.get]. intros H. apply IH. cbn [String.length].
    now replace (S (String.length t) - 1)%nat with (String.length t) by lia.
Qed.

(** A text has at most as many characters as bytes. *)
Lemma len_le_length s : (Py.len s <= String.length s)%nat.
Proof.
  unfold Py.len. induction s as [|c s IH]; [reflexivity|].
  cbn [Py.chars String.length]. destruct s as [|d s]; [cbn; lia|].
  destruct (Py.is_continuation d); [|cbn [length] in *; lia].
  destruct (Py.chars (String d s)); cbn [length] in *; lia.
Qed.

(** On a stripped message the test [^\d{3,4}\s*$] adds nothing to the test
    of the length. *)
Lemma only_number_bytes message :
  is_Some (re_match false only_number (Py.strip message)) ->
  (String.length (Py.strip message) <= 4)%nat.
Proof.
  intros Hm. destruct (le_lt_dec (String.length (Py.strip message)) 4) as [|Hlong];
    [assumption|exfalso].
  destruct (get_in_range (Py.strip message) (String.length (Py.strip message) - 1))
    as [c Hc]; [lia|].
  assert (Hk : (4 <= String.length (Py.strip message) - 1)%nat) by lia.
  pose proof (only_number_tail _ _ _ Hm Hk Hc) as Hs.
  unfold Py.strip in Hc. apply rstrip_last in Hc. congruence.
Qed.

Lemma only_number_short message :
  is_Some (re_match false only_number (Py.strip message)) ->
  (Py.len (Py.strip message) <= 4)%nat.
Proof.
  intros H. apply only_number_bytes in H.
  pose proof (len_le_length (Py.strip message)). lia.
Qed.

(** C4, as the code has it.  The four patterns are tried in order and the
    first that matches gives the code.  When only the fourth matches, the
    number is returned as it is exactly when the stripped message has at most
    four characters (the test [^\d{3,4}\s*$] of the code holds for no longer
    stripped message) or the message holds one of the six context words;
    otherwise nothing is returned.  The characters are counted, not the
    bytes: a number of three digits with one symbol is returned.  A message
    that is a number of three or four digits is returned unmodified. *)
Theorem extract_error_pattern_order message :
  (forall g, re_search true pattern1 message = Some g ->
             extract_error_pattern message = Some (Py.upper g))
  /\ (re_search true pattern1 message = None ->
      (forall g, re_search true pattern2 message = Some g ->
                 extract_error_pattern message = Some ("ER" ++ Py.zfill 3 g))
      /\ (re_search true pattern2 message = None ->
          (forall g, re_search true pattern3 message = Some g ->
                     extract_error_pattern message
                     = Some ("ER" ++ Py.zfill 3 (Py.drop 1 g)))
          /\ (re_search true pattern3 message = None ->
              (forall g, re_search false pattern4 message = Some g ->
                 let returned :=
                   (Py.len (Py.strip message) <= 4)%nat
                   \/ has_context_keyword message = true in
                 (extract_error_pattern message = Some g <-> returned)
                 /\ (extract_error_pattern message = None <-> ~ returned))
              /\ (re_search false pattern4 message = None ->
                  extract_error_pattern message = None))))
  /\ (has_context_keyword message = true <->
      exists keyword,
        In keyword ["error"; "code"; "fault"; "issue"; "problem"; "showing"]
        /\ Py.contains keyword (Py.lower message) = true)
  /\ (Py.len "123✅" = 4%nat
      /\ extract_error_pattern "123✅" = Some "123"
      /\ extract_error_pattern " ✅301 " = Some "301"
      /\ extract_error_pattern "12345" = None
      /\ extract_error_pattern "see 301 ✅" = None)
  /\ (Py.all_digits message = true ->
      (3 <= String.length message <= 4)%nat ->
      extract_error_pattern message = Some message).
Proof.
  split; [|split; [|split; [|split;
    [split; [|split; [|split; [|split]]]; vm_compute; reflexivity|]]]].
  - intros g H. destruct message; [vm_compute in H; discriminate H|].
    unfold extract_error_pattern. cbn [Py.is_empty]. now rewrite H.
  - destruct message as [|c m].
    { intros _. split; [intros g H; vm_compute in H; discriminate H|].
      intros _. split; [intros g H; vm_compute in H; discriminate H|].
      intros _. split; [intros g H; vm_compute in H; discriminate H|].
      intros _. reflexivity. }
    set (message := String c m). intros H1.
    unfold extract_error_pattern. cbn [Py.is_empty message]. fold message. rewrite H1.
    split; [intros g H2; now rewrite H2|]. intros H2. rewrite H2.
    split; [intros g H3; now rewrite H3|]. intros H3. rewrite H3.
    split; [|intros H4; now rewrite H4]. intros g H4. rewrite H4. cbv zeta.
    destruct (Py.len (Py.strip message) <=? 4)%nat eqn:Hlen.
    { apply Nat.leb_le in Hlen. cbn [orb].
      split; [split; [auto | reflexivity]|]. split; [discriminate | tauto]. }
    apply Nat.leb_gt in Hlen. cbn [orb]. case_bool_decide as Hnum.
    { apply only_number_short in Hnum. lia. }
    destruct (has_context_keyword message) eqn:Hkw.
    { split; [split; [auto | reflexivity]|]. split; [discriminate | tauto]. }
    split.
    + split; [discriminate|]. intros [H|H]; [lia | discriminate].
    + split; [|reflexivity]. intros _ [H|H]; [lia | discriminate].
  - unfold has_context_keyword. apply existsb_exists.
  - intros Hd Hlen.
    assert (Hin : In message (digit_strings 3 ++ digit_strings 4)).
    { apply in_or_app. pose proof (digit_strings_complete message Hd) as H.
      destruct (decide (String.length message = 3)) as [E|E];
        [left | right; assert (String.length message = 4) as E' by lia];
        congruence. }
    pose proof numbers_extracted as Hall. rewrite forallb_forall in Hall.
    specialize (Hall _ Hin). unfold option_string_eqb in Hall.
    destruct (extract_error_pattern message); [|discriminate Hall].
    apply String.eqb_eq in Hall. now subst.
Qed.

(** C4 on the message "showing 301". *)
Lemma extract_error_pattern_order_witness :
  extract_error_pattern "showing 301" = Some "301"
  /\ extract_error_pattern "1234" = Some "1234".
Proof.
  pose proof (extract_error_pattern_order "showing 301") as (_ & H & _ & _ & _).
  destruct H as (_ & H); [vm_compute; reflexivity|].
  destruct H as (_ & H); [vm_compute; reflexivity|].
  destruct H as (H & _); [vm_compute; reflexivity|].
  destruct (H "301") as ((_ & H') & _); [vm_compute; reflexivity|].
  split.
  - apply H'. right. vm_compute; reflexivity.
  - apply (extract_error_pattern_order "1234"); [reflexivity | cbn; lia].
Defined.

(** C4, as stated, fails: in "123!" the number is not the whole stripped
    message and no context word occurs, yet it is returned, because the
    stripped message has four characters. *)
Lemma short_message_number_returned :
  re_search true pattern1 "123!" = None
  /\ re_search true pattern2 "123!" = None
  /\ re_search true pattern3 "123!" = None
  /\ re_search false pattern4 "123!" = Some "123"
  /\ Py.strip "123!" <> "123"
  /\ has_context_keyword "123!" = false
  /\ extract_error_pattern "123!" = Some "123".
Proof.
  repeat split; try (vm_compute; reflexivity). vm_compute. discriminate.
Qed.

(** ** Loops that keep the first best candidate *)

Section KeepBest.
Context {A S : Type}.
Variables (le : S -> S -> Prop) (leb : S -> S -> bool).
Hypothesis leb_le : forall x y, leb x y = true <-> le x y.
Hypothesis le_trans : forall x y z, le x y -> le y z -> le x z.
Hypothesis le_total : forall x y, le x y \/ le y x.
Variables (score : A -> S) (threshold zero : S).

Local Abbreviation scan l := (fold_left (keep_best leb score threshold) l (None, zero)).

Lemma keep_best_test (st : option A * S) x :
  keep_best leb score threshold st x
  = if negb (leb (score x) (snd st)) && leb threshold (score x)
    then (Some x, score x) else st.
Proof. reflexivity. Qed.

Lemma keep_best_taken (s : S) x :
  negb (leb (score x) s) && leb threshold (score x) = true <->
  ~ le (score x) s /\ le threshold (score x).
Proof.
  rewrite andb_true_iff, negb_true_iff, <- not_true_iff_false, !leb_le. tauto.
Qed.

(** The state of the loop after the candidates [l]: either no candidate
    was kept, and then every candidate is at most [zero] or misses the
    threshold; or the candidate kept reaches the threshold, is above [zero],
    has the highest score of [l] and is the first of [l] with that score. *)
Lemma keep_best_scan (l : list A) :
  match scan l with
  | (None, s) =>
      s = zero /\ forall x, In x l -> le (score x) zero \/ ~ le threshold (score x)
  | (Some b, s) =>
      s = score b /\ le threshold (score b) /\ ~ le (score b) zero
      /\ exists i, l !! i = Some b
           /\ (forall j x, l !! j = Some x -> le (score x) (score b))
           /\ (forall j x, (j < i)%nat -> l !! j = Some x -> ~ le (score b) (score x))
  end.
Proof.
  induction l as [|x l IH] using rev_ind; [cbn; split; [reflexivity|intros ? []]|].
  rewrite fold_left_app. cbn [fold_left]. rewrite keep_best_test.
  destruct (scan l) as [[b|] s]; cbn [snd].
  - destruct IH as (-> & Hthr & Hpos & i & Hi & Hmax & Hfirst).
    destruct (negb _ && _) eqn:Htest.
    + apply keep_best_taken in Htest as [Hgt Hge].
      assert (Hbx : le (score b) (score x)) by (destruct (le_total (score b) (score x)); tauto).
      split; [reflexivity|]. split; [assumption|]. split; [eauto|].
      exists (length l). split; [|split].
      * rewrite lookup_app_r by lia. now rewrite Nat.sub_diag.
      * intros j y Hj. apply lookup_app_Some in Hj as [Hj|[_ Hj]].
        -- eauto.
        -- apply list_lookup_singleton_Some in Hj as [_ <-].
           destruct (le_total (score x) (score x)); assumption.
      * intros j y Hlt Hj. rewrite lookup_app_l in Hj by assumption. eauto.
    + apply not_true_iff_false in Htest. rewrite keep_best_taken in Htest.
      split; [reflexivity|]. split; [assumption|]. split; [assumption|].
      exists i. split; [|split].
      * now apply lookup_app_l_Some.
      * intros j y Hj. apply lookup_app_Some in Hj as [Hj|[_ Hj]]; [eauto|].
        apply list_lookup_singleton_Some in Hj as [_ <-].
        destruct (leb (score x) (score b)) eqn:Hxb; [now apply leb_le|].
        apply not_true_iff_false in Hxb. rewrite leb_le in Hxb.
        destruct (le_total (score x) threshold) as [?|Hty]; [eauto|]. tauto.
      * intros j y Hlt Hj. apply lookup_lt_Some in Hi.
        rewrite lookup_app_l in Hj by lia. eauto.
  - destruct IH as (-> & Hl).
    destruct (negb _ && _) eqn:Htest.
    + apply keep_best_taken in Htest as [Hgt Hge].
      assert (Hzx : le zero (score x)) by (destruct (le_total zero (score x)); tauto).
      assert (Hbelow : forall y, In y l -> le (score y) (score x) /\ ~ le (score x) (score y)).
      { intros y Hy. destruct (Hl y Hy) as [Hy0|Hyt].
        - split; [eauto|]. intros Hxy. eauto.
        - assert (le (score y) threshold) by (destruct (le_total (score y) threshold); tauto).
          split; [eauto|]. intros Hxy. eauto. }
      split; [reflexivity|]. split; [assumption|]. split; [assumption|].
      exists (length l). split; [|split].
      * rewrite lookup_app_r by lia. now rewrite Nat.sub_diag.
      * intros j y Hj. apply lookup_app_Some in Hj as [Hj|[_ Hj]].
        -- apply list_elem_of_lookup_2, list_elem_of_In in Hj. now apply Hbelow.
        -- apply list_lookup_singleton_Some in Hj as [_ <-].
           destruct (le_total (score x) (score x)); assumption.
      * intros j y Hlt Hj. rewrite lookup_app_l in Hj by assumption.
        apply list_elem_of_lookup_2, list_elem_of_In in Hj. now apply Hbelow.
    + apply not_true_iff_false in Htest. rewrite keep_best_taken in Htest.
      split; [reflexivity|]. intros y Hy. apply in_app_or in Hy as [Hy|[<-|[]]]; [auto|].
      destruct (leb (score x) zero) eqn:Hx0; [left; now apply leb_le|].
      apply not_true_iff_false in Hx0. rewrite leb_le in Hx0. tauto.
Qed.
End KeepBest.

(** ** The fuel of [Difflib.matches] *)

Section LongestBlock.
Context {A : Type} (eqb : A -> A -> bool).
Variables (pop : A -> bool) (a b : list A).

Lemma starts_before_mono n m best :
  (n <= m)%nat -> starts_before n best -> starts_before m best.
Proof. destruct best as [[i j] k]. unfold starts_before. lia. Qed.

Lemma improve_starts_before n i j k best :
  (i < n)%nat -> starts_before n best -> starts_before n (Difflib.improve i j k best).
Proof.
  destruct best as [[bi bj] bk]. unfold Difflib.improve, starts_before. intros Hi Hb.
  destruct (bk <? k)%nat eqn:Hk; [|assumption]. apply Nat.ltb_lt in Hk. lia.
Qed.

Lemma scan_row_starts_before n i row : forall j best,
  (i < n)%nat -> starts_before n best ->
  starts_before n (Difflib.scan_row i j row best).
Proof.
  induction row as [|k row IH]; intros j best Hi Hb; cbn; [assumption|].
  apply IH; [assumption|]. now apply improve_starts_before.
Qed.

Lemma longest_starts_before l : forall i j2len best,
  starts_before i best ->
  starts_before (i + length l) (Difflib.longest eqb pop l b i j2len best).
Proof.
  induction l as [|x l IH]; intros i j2len best Hb; cbn [Difflib.longest length].
  - now rewrite Nat.add_0_r.
  - replace (i + S (length l))%nat with (S i + length l)%nat by lia.
    apply IH. apply scan_row_starts_before; [lia|].
    eapply starts_before_mono; [|exact Hb]. lia.
Qed.

Lemma extend_left_starts_before n : forall i j k,
  starts_before n (i, j, k) -> starts_before n (Difflib.extend_left eqb a b i j k).
Proof.
  induction i as [|i IH]; intros j k Hb; cbn [Difflib.extend_left]; [assumption|].
  destruct j as [|j]; [assumption|].
  destruct (nth_error a i) as [x|]; [|assumption].
  destruct (nth_error b j) as [y|]; [|assumption].
  destruct (eqb x y); [|assumption].
  apply IH. unfold starts_before in *. lia.
Qed.

Lemma extend_right_start fuel i j : forall k i' j' k',
  Difflib.extend_right eqb fuel a b i j k = (i', j', k') ->
  i' = i /\ (k' = k \/ (i < length a)%nat).
Proof.
  induction fuel as [|fuel IH]; intros k i' j' k'; cbn [Difflib.extend_right].
  - intros [= <- <- <-]. auto.
  - destruct (nth_error a (i + k)) as [x|] eqn:Hx; [|intros [= <- <- <-]; auto].
    destruct (nth_error b (j + k)) as [y|]; [|intros [= <- <- <-]; auto].
    destruct (eqb x y); [|intros [= <- <- <-]; auto].
    intros H. apply IH in H as [-> _]. split; [reflexivity|]. right.
    assert (i + k < length a)%nat by (apply nth_error_Some; congruence). lia.
Qed.

(** A block that is not empty starts inside [a]. *)
Lemma find_longest_match_start i j k :
  Difflib.find_longest_match eqb pop a b = (i, j, k) -> k <> 0%nat -> (i < length a)%nat.
Proof.
  unfold Difflib.find_longest_match.
  pose proof (longest_starts_before a 0 (repeat 0%nat (length b)) (0, 0, 0)%nat
                ltac:(cbn; lia)) as H0.
  destruct (Difflib.longest _ _ _ _ _ _ _) as [[i0 j0] k0]. cbn [Nat.add] in H0.
  pose proof (extend_left_starts_before _ _ _ _ H0) as H1.
  destruct (Difflib.extend_left eqb a b i0 j0 k0) as [[i1 j1] k1].
  intros H Hk. apply extend_right_start in H as [-> [->|Hlt]]; [|assumption].
  unfold starts_before in H1. lia.
Qed.
End LongestBlock.

(** Any fuel of at least the length of [a] gives the same count: the counts
    which [Difflib.ratio] uses are those of the unbounded recursion. *)
Lemma matches_fuel {A : Type} (eqb : A -> A -> bool) pop : forall f1 f2 a b,
  (length a <= f1)%nat -> (length a <= f2)%nat ->
  Difflib.matches eqb f1 pop a b = Difflib.matches eqb f2 pop a b.
Proof.
  assert (Hnil : forall f b, Difflib.matches eqb f pop [] b = 0%nat).
  { intros [|f] b; [reflexivity|]. cbn [Difflib.matches].
    destruct (Difflib.find_longest_match eqb pop [] b) as [[i j] k] eqn:Hf.
    destruct k; [reflexivity|].
    apply find_longest_match_start in Hf; [cbn in Hf; lia | discriminate]. }
  induction f1 as [|f1 IH]; intros f2 a b H1 H2.
  - destruct a; [|cbn in H1; lia]. now rewrite !Hnil.
  - destruct f2 as [|f2].
    + destruct a; [|cbn in H2; lia]. now rewrite !Hnil.
    + cbn [Difflib.matches].
      destruct (Difflib.find_longest_match eqb pop a b) as [[i j] k] eqn:Hf.
      destruct k as [|k]; [reflexivity|].
      apply find_longest_match_start in Hf; [|discriminate].
      assert (Hl : (length (firstn i a) <= f1 /\ length (firstn i a) <= f2)%nat)
        by (rewrite length_firstn; lia).
      assert (Hr : (length (skipn (i + S k) a) <= f1
                    /\ length (skipn (i + S k) a) <= f2)%nat)
        by (rewrite length_skipn; lia).
      rewrite (IH f2 (firstn i a)) by tauto.
      rewrite (IH f2 (skipn (i + S k) a)) by tauto. reflexivity.
Qed.

(** ** The order of the floats *)

Lemma SFcompare_key x y :
  SFcompare x y
  = match float_key x, float_key y with
    | Some a, Some b => Some (lex a b)
    | _, _ => None
    end.
Proof.
  destruct x as [[]|[]| |[] mx ex], y as [[]|[]| |[] my ey]; try reflexivity;
    cbn [SFcompare float_key lex]; f_equal.
  rewrite Z.compare_opp, (Z.compare_antisym ex ey).
  destruct (ex ?= ey)%Z; reflexivity.
Qed.

Ltac lex_solve :=
  repeat match goal with
         | p : (Z * Z * Z)%type |- _ => destruct p as [[? ?] ?]
         end;
  unfold lex in *;
  repeat match goal with
         | H : context [(?a ?= ?b)%Z] |- _ => destruct (Z.compare_spec a b); try discriminate
         | |- context [(?a ?= ?b)%Z] => destruct (Z.compare_spec a b); try discriminate
         end;
  try reflexivity; try lia; try congruence.

Lemma lex_lt_trans a b c : lex a b = Lt -> lex b c = Lt -> lex a c = Lt.
Proof. intros H1 H2. lex_solve. Qed.

Lemma lex_le_lt_trans a b c : lex a b <> Gt -> lex b c = Lt -> lex a c = Lt.
Proof. intros H1 H2. lex_solve. Qed.

Lemma lex_lt_le_trans a b c : lex a b = Lt -> lex b c <> Gt -> lex a c = Lt.
Proof. intros H1 H2. lex_solve. Qed.

Lemma lex_le_trans a b c : lex a b <> Gt -> lex b c <> Gt -> lex a c <> Gt.
Proof. intros H1 H2. lex_solve. Qed.

Lemma lex_lt_not_ge a b : lex a b = Lt -> lex b a <> Gt -> False.
Proof. intros H1 H2. lex_solve. Qed.

Lemma lex_total a b : lex a b = Lt \/ lex b a <> Gt.
Proof. lex_solve; (left; reflexivity) || (right; discriminate) || lia. Qed.

Lemma ltb_key x y :
  Float64.ltb x y = true <->
  exists a b, float_key x = Some a /\ float_key y = Some b /\ lex a b = Lt.
Proof.
  unfold Float64.ltb, SFltb. rewrite SFcompare_key.
  destruct (float_key x) as [a|], (float_key y) as [b|]; split;
    try discriminate; try (intros (? & ? & ? & ? & _); discriminate).
  - intros H. exists a, b. repeat split. now destruct (lex a b).
  - intros (a' & b' & [= <-] & [= <-] & ->). reflexivity.
Qed.

Lemma leb_key x y :
  Float64.leb x y = true <->
  exists a b, float_key x = Some a /\ float_key y = Some b /\ lex a b <> Gt.
Proof.
  unfold Float64.leb, SFleb. rewrite SFcompare_key.
  destruct (float_key x) as [a|], (float_key y) as [b|]; split;
    try discriminate; try (intros (? & ? & ? & ? & _); discriminate).
  - intros H. exists a, b. repeat split. now destruct (lex a b).
  - intros (a' & b' & [= <-] & [= <-] & H). now destruct (lex a b).
Qed.

Ltac float_keys :=
  repeat match goal with
         | H : Float64.ltb _ _ = true |- _ =>
             apply ltb_key in H; destruct H as (? & ? & ? & ? & ?)
         | H : Float64.leb _ _ = true |- _ =>
             apply leb_key in H; destruct H as (? & ? & ? & ? & ?)
         end;
  repeat match goal with
         | H : float_key ?x = Some ?a, H' : float_key ?x = Some ?b |- _ =>
             rewrite H in H'; injection H' as <-
         end.

Lemma float_lt_trans x y z :
  Float64.ltb x y = true -> Float64.ltb y z = true -> Float64.ltb x z = true.
Proof.
  intros H1 H2. float_keys. apply ltb_key. eauto 6 using lex_lt_trans.
Qed.

Lemma float_le_lt_trans x y z :
  Float64.leb x y = true -> Float64.ltb y z = true -> Float64.ltb x z = true.
Proof.
  intros H1 H2. float_keys. apply ltb_key. eauto 6 using lex_le_lt_trans.
Qed.

Lemma float_lt_le_trans x y z :
  Float64.ltb x y = true -> Float64.leb y z = true -> Float64.ltb x z = true.
Proof.
  intros H1 H2. float_keys. apply ltb_key. eauto 6 using lex_lt_le_trans.
Qed.

Lemma float_le_trans x y z :
  Float64.leb x y = true -> Float64.leb y z = true -> Float64.leb x z = true.
Proof.
  intros H1 H2. float_keys. apply leb_key. eauto 6 using lex_le_trans.
Qed.

Lemma float_lt_le x y : Float64.ltb x y = true -> Float64.leb x y = true.
Proof.
  intros H. float_keys. apply leb_key. do 2 eexists. repeat split; eauto. congruence.
Qed.

Lemma float_lt_not_ge x y :
  Float64.ltb x y = true -> Float64.leb y x = true -> False.
Proof. intros H1 H2. float_keys. eauto using lex_lt_not_ge. Qed.

(** Among numbers, "not less" is "at least". *)
Lemma float_not_lt x y :
  Float64.is_nan x = false -> Float64.is_nan y = false ->
  (Float64.ltb x y = false <-> Float64.leb y x = true).
Proof.
  intros Hx Hy.
  assert (Kx : exists a, float_key x = Some a) by (destruct x as [[]|[]| |[] ? ?]; eauto; discriminate).
  assert (Ky : exists b, float_key y = Some b) by (destruct y as [[]|[]| |[] ? ?]; eauto; discriminate).
  destruct Kx as [a Ka], Ky as [b Kb]. split.
  - intros H. apply leb_key. exists b, a. repeat split; try assumption.
    destruct (lex_total a b) as [Hlt|Hge]; [|assumption].
    assert (Float64.ltb x y = true) by (apply ltb_key; eauto). congruence.
  - intros H. destruct (Float64.ltb x y) eqn:Hlt; [|reflexivity].
    destruct (float_lt_not_ge _ _ Hlt H).
Qed.

Lemma float_not_le x y :
  Float64.is_nan x = false -> Float64.is_nan y = false ->
  (Float64.leb x y = false <-> Float64.ltb y x = true).
Proof.
  intros Hx Hy.
  assert (Kx : exists a, float_key x = Some a) by (destruct x as [[]|[]| |[] ? ?]; eauto; discriminate).
  assert (Ky : exists b, float_key y = Some b) by (destruct y as [[]|[]| |[] ? ?]; eauto; discriminate).
  destruct Kx as [a Ka], Ky as [b Kb]. split.
  - intros H. apply ltb_key. exists b, a. repeat split; try assumption.
    destruct (lex_total b a) as [Hlt|Hge]; [assumption|].
    assert (Float64.leb x y = true) by (apply leb_key; eauto). congruence.
  - intros H. destruct (Float64.leb x y) eqn:Hle; [|reflexivity].
    destruct (float_lt_not_ge _ _ H Hle).
Qed.

(** What compares is a number. *)
Lemma float_le_numbers x y :
  Float64.leb x y = true -> Float64.is_nan x = false /\ Float64.is_nan y = false.
Proof.
  intros H. apply leb_key in H as (a & b & Ha & Hb & _).
  destruct x, y; try discriminate; split; reflexivity.
Qed.

(** ** Loops that keep the first candidate of the greatest score *)

Section KeepGreater.
Context {A S : Type}.
Variables (ltb leb : S -> S -> bool).
Hypothesis lt_trans : forall x y z, ltb x y = true -> ltb y z = true -> ltb x z = true.
Hypothesis le_lt_trans : forall x y z, leb x y = true -> ltb y z = true -> ltb x z = true.
Hypothesis lt_le_trans : forall x y z, ltb x y = true -> leb y z = true -> ltb x z = true.
Hypothesis le_trans : forall x y z, leb x y = true -> leb y z = true -> leb x z = true.
Hypothesis lt_le : forall x y, ltb x y = true -> leb x y = true.
Hypothesis lt_not_ge : forall x y, ltb x y = true -> leb y x = true -> False.
Variables (score : A -> S) (threshold zero : S).

Local Abbreviation scan_greater l :=
  (fold_left (keep_greater ltb leb score threshold) l (None, zero)).

Lemma not_lt_self x : ltb x x = false.
Proof. destruct (ltb x x) eqn:H; [|reflexivity]. destruct (lt_not_ge x x H (lt_le x x H)). Qed.

(** The state of the loop after the candidates [l]: either no candidate
    was kept, and then no candidate is above [zero] and reaches the
    threshold; or the candidate kept reaches the threshold, is above
    [zero], no candidate of [l] has a greater score and no candidate before
    it has a score as great. *)
Lemma keep_greater_scan (l : list A) :
  match scan_greater l with
  | (None, s) =>
      s = zero
      /\ forall x, In x l -> ltb zero (score x) = false \/ leb threshold (score x) = false
  | (Some b, s) =>
      s = score b /\ leb threshold (score b) = true /\ ltb zero (score b) = true
      /\ exists i, l !! i = Some b
           /\ (forall j x, l !! j = Some x -> ltb (score b) (score x) = false)
           /\ (forall j x, (j < i)%nat -> l !! j = Some x -> leb (score b) (score x) = false)
  end.
Proof.
  induction l as [|x l IH] using rev_ind; [cbn; split; [reflexivity|intros ? []]|].
  rewrite fold_left_app. cbn [fold_left]. unfold keep_greater at 1.
  destruct (scan_greater l) as [[b|] s]; cbn [snd].
  - destruct IH as (-> & Hthr & Hpos & i & Hi & Hmax & Hfirst).
    destruct (ltb (score b) (score x) && leb threshold (score x)) eqn:Htest.
    + apply andb_true_iff in Htest as [Hgt Hge].
      split; [reflexivity|]. split; [assumption|]. split; [eauto|].
      exists (length l). split; [|split].
      * rewrite lookup_app_r by lia. now rewrite Nat.sub_diag.
      * intros j y Hj. apply lookup_app_Some in Hj as [Hj|[_ Hj]].
        -- destruct (ltb (score x) (score y)) eqn:Hxy; [|reflexivity].
           rewrite <- (Hmax j y Hj). symmetry. eauto.
        -- apply list_lookup_singleton_Some in Hj as [_ <-]. apply not_lt_self.
      * intros j y Hlt Hj. rewrite lookup_app_l in Hj by assumption.
        destruct (leb (score x) (score y)) eqn:Hxy; [|reflexivity].
        rewrite <- (Hmax j y Hj). symmetry. eauto.
    + split; [reflexivity|]. split; [assumption|]. split; [assumption|].
      exists i. split; [|split].
      * now apply lookup_app_l_Some.
      * intros j y Hj. apply lookup_app_Some in Hj as [Hj|[_ Hj]]; [eauto|].
        apply list_lookup_singleton_Some in Hj as [_ <-].
        destruct (ltb (score b) (score x)) eqn:Hbx; [|reflexivity].
        cbn [andb] in Htest. rewrite <- Htest. symmetry. eauto.
      * intros j y Hlt Hj. apply lookup_lt_Some in Hi.
        rewrite lookup_app_l in Hj by lia. eauto.
  - destruct IH as (-> & Hl).
    destruct (ltb zero (score x) && leb threshold (score x)) eqn:Htest.
    + apply andb_true_iff in Htest as [Hgt Hge].
      assert (Hbelow : forall y, In y l ->
                ltb (score x) (score y) = false /\ leb (score x) (score y) = false).
      { intros y Hy. destruct (Hl y Hy) as [Hy0|Hyt]; split.
        - destruct (ltb (score x) (score y)) eqn:Hxy; [|reflexivity].
          rewrite <- Hy0. symmetry. eauto.
        - destruct (leb (score x) (score y)) eqn:Hxy; [|reflexivity].
          rewrite <- Hy0. symmetry. eauto.
        - destruct (ltb (score x) (score y)) eqn:Hxy; [|reflexivity].
          rewrite <- Hyt. symmetry. eauto.
        - destruct (leb (score x) (score y)) eqn:Hxy; [|reflexivity].
          rewrite <- Hyt. symmetry. eauto. }
      split; [reflexivity|]. split; [assumption|]. split; [assumption|].
      exists (length l). split; [|split].
      * rewrite lookup_app_r by lia. now rewrite Nat.sub_diag.
      * intros j y Hj. apply lookup_app_Some in Hj as [Hj|[_ Hj]].
        -- apply list_elem_of_lookup_2, list_elem_of_In in Hj. now apply Hbelow.
        -- apply list_lookup_singleton_Some in Hj as [_ <-]. apply not_lt_self.
      * intros j y Hlt Hj. rewrite lookup_app_l in Hj by assumption.
        apply list_elem_of_lookup_2, list_elem_of_In in Hj. now apply Hbelow.
    + split; [reflexivity|]. intros y Hy. apply in_app_or in Hy as [Hy|[<-|[]]]; [auto|].
      apply andb_false_iff in Htest. exact Htest.
Qed.
End KeepGreater.

(** ** Fuzzy title matching *)

Lemma title_loop_keep_greater q threshold titles :
  fold_left (title_step q threshold) titles (None, Float64.zero)
  = fold_left (keep_greater Float64.ltb Float64.leb (combined_score q) threshold)
      titles (None, Float64.zero).
Proof. reflexivity. Qed.

Lemma size_words (l : list string) :
  size (list_to_set l : gset string) = length (remove_dups l).
Proof.
  rewrite <- (size_list_to_set (C := gset string) (remove_dups l))
    by apply NoDup_remove_dups.
  f_equal. apply set_eq. intros x. now rewrite !elem_of_list_to_set, elem_of_remove_dups.
Qed.

Lemma size_shared_words (l l' : list string) :
  size ((list_to_set l : gset string) ∩ list_to_set l')
  = length (filter (fun w => w ∈ l') (remove_dups l)).
Proof.
  rewrite <- (size_list_to_set (C := gset string)
                (filter (fun w => w ∈ l') (remove_dups l)))
    by apply NoDup_filter, NoDup_remove_dups.
  f_equal. apply set_eq. intros x.
  rewrite elem_of_intersection, !elem_of_list_to_set, list_elem_of_filter,
    elem_of_remove_dups. tauto.
Qed.

(** The share of the distinct words of the query that are words of the
    title. *)
Lemma word_overlap_shared q t :
  word_overlap q t
  = match distinct_words q with
    | [] => Float64.zero
    | _ :: _ =>
        Float64.div (Float64.of_nat (length (shared_words q t)))
                    (Float64.of_nat (length (distinct_words q)))
    end.
Proof.
  unfold word_overlap, shared_words, distinct_words.
  rewrite size_shared_words, size_words. now destruct (remove_dups (Py.split q)).
Qed.

(** C5.  The combined score is, in binary64, 0.6 times the similarity of the
    normalized texts plus 0.4 times the share of the distinct words of the
    query that are words of the candidate (0 when the query has no word); the
    similarity is [2.0 * M / T].  A candidate is returned only if its score
    reaches the threshold; no candidate has then a greater score and no
    candidate before it has a score as great: it is the first candidate, in
    the order of the list, that attains the greatest score.  Nothing is
    returned exactly when the query is empty or no candidate has a positive
    score that reaches the threshold.  The scores are the rounded ones:
    "bcd" and "a bcd xxxxxxxxxxxxx" both score 0.65 for "a bcd" in exact
    arithmetic, and the second is returned because the first rounds below.
    (The comparisons are stated for all binary64 values; among numbers, that
    no score is greater means that every score is at most the returned
    one.) *)
Theorem best_title_match query titles threshold :
  let q := normalize_text query in
  let score := combined_score q in
  (forall title,
      score title
      = Float64.add
          (Float64.mul (Difflib.ratio q (normalize_text title)) Float64.six_tenths)
          (Float64.mul (word_overlap q (normalize_text title)) Float64.four_tenths))
  /\ (forall a b,
        Difflib.ratio a b
        = if (Py.len a + Py.len b =? 0)%nat then Float64.one
          else Float64.div
                 (Float64.mul Float64.two (Float64.of_nat (Difflib.matching a b)))
                 (Float64.of_nat (Py.len a + Py.len b)))
  /\ (forall t,
        word_overlap q t
        = match distinct_words q with
          | [] => Float64.zero
          | _ :: _ =>
              Float64.div (Float64.of_nat (length (shared_words q t)))
                          (Float64.of_nat (length (distinct_words q)))
          end)
  /\ (Float64.six_tenths = Float64.div (Float64.of_nat 6) (Float64.of_nat 10)
      /\ Float64.four_tenths = Float64.div (Float64.of_nat 4) (Float64.of_nat 10))
  /\ (forall title,
        fuzzy_match_title query titles threshold = Some title ->
        Float64.leb threshold (score title) = true
        /\ exists i,
             titles !! i = Some title
             /\ (forall j t, titles !! j = Some t ->
                             Float64.ltb (score title) (score t) = false)
             /\ (forall j t, (j < i)%nat -> titles !! j = Some t ->
                             Float64.leb (score title) (score t) = false)
             /\ (forall j t, titles !! j = Some t ->
                             Float64.is_nan (score t) = false ->
                             Float64.leb (score t) (score title) = true)
             /\ (forall j t, (j < i)%nat -> titles !! j = Some t ->
                             Float64.is_nan (score t) = false ->
                             Float64.ltb (score t) (score title) = true))
  /\ (fuzzy_match_title query titles threshold = None <->
      query = ""
      \/ forall t, In t titles ->
                   Float64.ltb Float64.zero (score t) = false
                   \/ Float64.leb threshold (score t) = false)
  /\ (forall x y,
        Float64.is_nan x = false -> Float64.is_nan y = false ->
        (Float64.ltb x y = false <-> Float64.leb y x = true))
  /\ (Difflib.matching "a bcd" "bcd" = 3%nat
      /\ shared_words "a bcd" "bcd" = ["bcd"]
      /\ distinct_words "a  bcd a" = ["bcd"; "a"]
      /\ combined_score "a bcd" "bcd"
         = S754_finite false 5854679515581644 (-53)
      /\ combined_score "a bcd" "a bcd xxxxxxxxxxxxx"
         = S754_finite false 5854679515581645 (-53)
      /\ combined_score "gun temperature" "  Gun  TEMPERATURE Limit "
         = S754_finite false 8106479329266893 (-53)
      /\ fuzzy_match_title "a bcd" ["bcd"; "a bcd xxxxxxxxxxxxx"] Float64.six_tenths
         = Some "a bcd xxxxxxxxxxxxx"
      /\ fuzzy_match_title "ab" ["a"] Float64.four_tenths = None).
Proof.
  intros q score. split; [reflexivity|]. split.
  { intros a b. unfold Difflib.ratio. now destruct (Py.len a + Py.len b)%nat. }
  split; [intros t; apply word_overlap_shared|].
  split; [split; vm_compute; reflexivity|].
  assert (Hrest : (forall x y,
        Float64.is_nan x = false -> Float64.is_nan y = false ->
        (Float64.ltb x y = false <-> Float64.leb y x = true))
    /\ (Difflib.matching "a bcd" "bcd" = 3%nat
      /\ shared_words "a bcd" "bcd" = ["bcd"]
      /\ distinct_words "a  bcd a" = ["bcd"; "a"]
      /\ combined_score "a bcd" "bcd"
         = S754_finite false 5854679515581644 (-53)
      /\ combined_score "a bcd" "a bcd xxxxxxxxxxxxx"
         = S754_finite false 5854679515581645 (-53)
      /\ combined_score "gun temperature" "  Gun  TEMPERATURE Limit "
         = S754_finite false 8106479329266893 (-53)
      /\ fuzzy_match_title "a bcd" ["bcd"; "a bcd xxxxxxxxxxxxx"] Float64.six_tenths
         = Some "a bcd xxxxxxxxxxxxx"
      /\ fuzzy_match_title "ab" ["a"] Float64.four_tenths = None)).
  { split; [exact float_not_lt|].
    split; [|split; [|split; [|split; [|split; [|split; [|split]]]]]];
      vm_compute; reflexivity. }
  pose proof (keep_greater_scan Float64.ltb Float64.leb float_lt_trans float_le_lt_trans
                float_lt_le_trans float_le_trans float_lt_le float_lt_not_ge
                score threshold Float64.zero titles) as Hscan.
  unfold fuzzy_match_title. fold q. rewrite title_loop_keep_greater. fold score.
  destruct (fold_left _ titles _) as [[b|] s]; cbn [fst].
  - destruct Hscan as (_ & Hthr & Hpos & i & Hi & Hmax & Hfirst). split; [|split].
    + destruct (Py.is_empty query || bool_decide (titles = [])); [discriminate|].
      intros title [= <-]. split; [assumption|]. exists i.
      destruct (float_le_numbers _ _ Hthr) as [_ Hnum].
      split; [assumption|]. split; [assumption|]. split; [assumption|]. split.
      * intros j t Hj Ht. apply float_not_lt; eauto.
      * intros j t Hlt Hj Ht. apply float_not_le; eauto.
    + split.
      * destruct query; [now left|]. cbn [Py.is_empty orb].
        case_bool_decide as Ht; [|discriminate]. intros _. right. subst titles.
        intros t [].
      * intros [->|Hall]; [reflexivity|]. exfalso.
        apply list_elem_of_lookup_2, list_elem_of_In in Hi.
        destruct (Hall b Hi); congruence.
    + exact Hrest.
  - destruct Hscan as (_ & Hall). split; [|split].
    + intros title H. destruct (_ || _); discriminate H.
    + split; [|intros _; now destruct (_ || _)].
      intros _. destruct query; [now left|]. right. exact Hall.
    + exact Hrest.
Qed.

(** C5 on the query "gun temperature". *)
Lemma best_title_match_witness :
  let titles := ["RFID Communication Fail"; "Gun Temperature Limit"] in
  fuzzy_match_title "gun temperature" titles Float64.six_tenths
  = Some "Gun Temperature Limit"
  /\ Float64.leb Float64.six_tenths
       (combined_score "gun temperature" "Gun Temperature Limit") = true
  /\ combined_score "gun temperature" "Gun Temperature Limit"
     = S754_finite false 8106479329266893 (-53).
Proof.
  cbv zeta.
  assert (H : fuzzy_match_title "gun temperature"
                ["RFID Communication Fail"; "Gun Temperature Limit"] Float64.six_tenths
              = Some "Gun Temperature Limit") by (vm_compute; reflexivity).
  split; [exact H|]. split.
  - apply (best_title_match "gun temperature"
             ["RFID Communication Fail"; "Gun Temperature Limit"] Float64.six_tenths) in H.
    exact (proj1 H).
  - vm_compute. reflexivity.
Defined.

(** ** Substrings and characters *)

Lemma startswith_prefix p : forall s,
  Py.startswith p s = true <-> exists post, s = p ++ post.
Proof.
  induction p as [|a p IH]; intros s.
  - split; [intros _; now exists s | reflexivity].
  - destruct s as [|b s]; cbn.
    + split; [discriminate | intros [post H]; discriminate].
    + rewrite andb_true_iff, Ascii.eqb_eq, IH. split.
      * intros [-> [post ->]]. now exists post.
      * intros [post [= -> ->]]. eauto.
Qed.

Lemma contains_unfold sub s :
  Py.contains sub s
  = Py.startswith sub s || match s with EmptyString => false | String _ r => Py.contains sub r end.
Proof. now destruct s. Qed.

(** [sub in s]: [s] is [sub] between two texts. *)
Lemma contains_infix sub s :
  Py.contains sub s = true <-> exists pre post, s = pre ++ sub ++ post.
Proof.
  split.
  - induction s as [|c s IH]; rewrite contains_unfold, orb_true_iff.
    + intros [H|H]; [|discriminate]. apply startswith_prefix in H as [post ->].
      now exists "", post.
    + intros [H|H].
      * apply startswith_prefix in H as [post ->]. now exists "", post.
      * destruct (IH H) as (pre & post & ->). now exists (String c pre), post.
  - intros (pre & post & ->). induction pre as [|c pre IH].
    + change ("" ++ sub ++ post) with (sub ++ post). rewrite contains_unfold.
      replace (Py.startswith sub (sub ++ post)) with true; [reflexivity|].
      symmetry. apply startswith_prefix. eauto.
    + change (String c pre ++ sub ++ post) with (String c (pre ++ sub ++ post)).
      cbn [Py.contains]. rewrite IH. apply orb_true_r.
Qed.

Lemma append_assoc (a b c : string) : (a ++ b) ++ c = a ++ b ++ c.
Proof.
  induction a as [|x a IH]; [reflexivity|].
  change (String x ((a ++ b) ++ c) = String x (a ++ b ++ c)). now rewrite IH.
Qed.

Lemma contains_trans a b s :
  Py.contains a b = true -> Py.contains b s = true -> Py.contains a s = true.
Proof.
  rewrite !contains_infix. intros (p1 & q1 & ->) (p2 & q2 & ->).
  exists (p2 ++ p1), (q1 ++ q2). now rewrite !append_assoc.
Qed.

Lemma ascii_not_continuation c :
  (nat_of_ascii c <? 128)%nat = true -> Py.is_continuation c = false.
Proof.
  unfold Py.is_continuation. intros H. apply Nat.ltb_lt in H.
  apply andb_false_iff. left. apply Nat.leb_gt. exact H.
Qed.

(** In ASCII text the characters are the bytes. *)
Lemma len_ascii s : Py.isascii s = true -> Py.len s = String.length s.
Proof.
  unfold Py.len. induction s as [|c s IH]; [reflexivity|].
  cbn [Py.isascii]. intros H. apply andb_true_iff in H as [_ Hs].
  specialize (IH Hs). cbn [Py.chars String.length]. destruct s as [|d s]; [reflexivity|].
  cbn [Py.isascii] in Hs. apply andb_true_iff in Hs as [Hd _].
  rewrite (ascii_not_continuation d Hd). cbn [length]. now rewrite IH.
Qed.

(** ** Keyword search *)

Lemma forall_chars_map p f s :
  (forall c, p (f c) = true) -> forall_chars p (Py.map_chars f s) = true.
Proof. intros H. induction s as [|c s IH]; cbn; [reflexivity|]. now rewrite H, IH. Qed.

Lemma forall_chars_lstrip p s :
  forall_chars p s = true -> forall_chars p (Py.lstrip s) = true.
Proof.
  induction s as [|c s IH]; cbn; [reflexivity|]. intros H.
  destruct (Py.isspace c); [|exact H]. apply andb_true_iff in H. tauto.
Qed.

Lemma forall_chars_rstrip p s :
  forall_chars p s = true -> forall_chars p (Py.rstrip s) = true.
Proof.
  induction s as [|c s IH]; cbn; [reflexivity|]. intros H.
  apply andb_true_iff in H as [Hc Hs].
  destruct (Py.isspace c && Py.is_empty (Py.rstrip s)); cbn; [reflexivity|].
  now rewrite Hc, IH.
Qed.

Lemma forall_chars_sub_spaces p in_run s :
  p " "%char = true ->
  forall_chars p s = true -> forall_chars p (Py.sub_spaces in_run s) = true.
Proof.
  intros Hsp. revert in_run. induction s as [|c s IH]; intros in_run; cbn; [reflexivity|].
  intros H. apply andb_true_iff in H as [Hc Hs].
  destruct (Py.isspace c); [destruct in_run|]; cbn; rewrite ?Hsp, ?Hc, ?IH; auto.
Qed.

Lemma forall_chars_app p a b :
  forall_chars p (a ++ b) = forall_chars p a && forall_chars p b.
Proof.
  induction a as [|c a IH]; simpl; [reflexivity|].
  now rewrite IH, andb_assoc.
Qed.

Lemma forall_chars_split_from p s : forall cur,
  forall_chars p (default "" cur) = true ->
  forall_chars p s = true ->
  Forall (fun w => forall_chars p w = true) (Py.split_from cur s).
Proof.
  induction s as [|c s IH]; intros cur Hcur Hs; cbn.
  - destruct cur; repeat constructor. exact Hcur.
  - cbn in Hs. apply andb_true_iff in Hs as [Hc Hs]. destruct (Py.isspace c).
    + destruct cur; [constructor; [exact Hcur|]|]; now apply IH.
    + apply IH; [|exact Hs].
      change (forall_chars p (default "" cur ++ String c "") = true).
      rewrite forall_chars_app, Hcur. cbn. now rewrite Hc.
Qed.

Lemma lower_char_idempotent c : is_lower_char (Py.lower_char c) = true.
Proof. destruct c as [[] [] [] [] [] [] [] []]; reflexivity. Qed.

Lemma lower_fixed w : forall_chars is_lower_char w = true -> Py.lower w = w.
Proof.
  induction w as [|c w IH]; cbn; [reflexivity|]. intros H.
  apply andb_true_iff in H as [Hc Hw]. apply Ascii.eqb_eq in Hc.
  unfold Py.lower in IH. now rewrite Hc, IH.
Qed.

(** The words of a normalized text are in lower case. *)
Lemma normalized_words_lower text :
  Forall (fun w => Py.lower w = w) (Py.split (normalize_text text)).
Proof.
  eapply List.Forall_impl; [intros w; apply lower_fixed|].
  apply forall_chars_split_from; [reflexivity|].
  unfold normalize_text. destruct (Py.is_empty text); [reflexivity|].
  apply forall_chars_sub_spaces; [reflexivity|].
  apply forall_chars_rstrip, forall_chars_lstrip, forall_chars_map, lower_char_idempotent.
Qed.

Lemma keyword_step_keep_best keywords st error :
  keyword_step keywords st error
  = keep_best Nat.leb (keyword_score keywords) 2%nat st error.
Proof. unfold keyword_step, keep_best. now rewrite Nat.ltb_antisym. Qed.

Lemma keyword_loop_keep_best keywords records : forall st,
  fold_left (keyword_step keywords) records st
  = fold_left (keep_best Nat.leb (keyword_score keywords) 2%nat) records st.
Proof.
  induction records as [|e records IH]; intros st; cbn; [reflexivity|].
  now rewrite keyword_step_keep_best, IH.
Qed.

Lemma is_keyword_spec w :
  is_keyword w = true <->
  ~ In w ["the"; "a"; "an"; "and"; "or"; "but"; "in"; "on"; "at"; "to"; "for";
          "of"; "with"; "by"; "from"; "is"; "it"; "this"; "that"; "i"; "my"]
  /\ (2 < Py.len w)%nat.
Proof.
  unfold is_keyword, stop_words.
  rewrite andb_true_iff, bool_decide_eq_true, Nat.ltb_lt, elem_of_list_to_set,
    list_elem_of_In. reflexivity.
Qed.

(** C7.  The keywords are the words of the normalized message, in their
    order, that have more than two characters and are none of the twenty-one
    stop words; they are in lower case.  The score of a record is the number
    of keywords that occur as a substring of its normalized description or
    title.  The record returned has a score of at least 2, the highest score
    of the catalog, and is the first with that score; nothing is returned
    exactly when no record scores 2. *)
Theorem keyword_search self query :
  let score := keyword_score (extract_keywords query) in
  (forall text,
      extract_keywords text = List.filter is_keyword (Py.split (normalize_text text))
      /\ (forall w,
            In w (extract_keywords text) <->
            In w (Py.split (normalize_text text))
            /\ ~ In w ["the"; "a"; "an"; "and"; "or"; "but"; "in"; "on"; "at"; "to";
                       "for"; "of"; "with"; "by"; "from"; "is"; "it"; "this"; "that";
                       "i"; "my"]
            /\ (2 < Py.len w)%nat)
      /\ Forall (fun w => Py.lower w = w) (extract_keywords text))
  /\ (forall w, Py.isascii w = true -> Py.len w = String.length w)
  /\ (forall keywords error,
        keyword_score keywords error
        = length (List.filter
                    (fun keyword =>
                       Py.contains keyword (normalize_text (Description error))
                       || Py.contains keyword (normalize_text (Tittle error)))
                    keywords))
  /\ (forall sub s,
        Py.contains sub s = true <-> exists pre post, s = pre ++ sub ++ post)
  /\ (forall d,
        _keyword_search self query = Some d ->
        exists i error,
          error_codes self !! i = Some error
          /\ d = _format_error_response error
          /\ (2 <= score error)%nat
          /\ (forall j e, error_codes self !! j = Some e -> (score e <= score error)%nat)
          /\ (forall j e, (j < i)%nat -> error_codes self !! j = Some e ->
                          (score e < score error)%nat))
  /\ (_keyword_search self query = None <->
      forall e, In e (error_codes self) -> (score e < 2)%nat)
  /\ (extract_keywords "The GUN  is at 42C, my ✅ ok" = ["gun"; "42c,"]
      /\ Py.len "✅" = 1%nat
      /\ keyword_score ["temp"; "ceed"; "gun"; "cable"] Sample.gun_temperature = 3%nat
      /\ _keyword_search Sample.catalog "temp exceeds" = None
      /\ _keyword_search Sample.catalog "temp exceeded"
         = Some (_format_error_response Sample.gun_temperature)).
Proof.
  intros score. split; [|split; [exact len_ascii|split; [reflexivity|split;
    [exact contains_infix|]]]].
  { intros text.
    assert (He : extract_keywords text
                 = List.filter is_keyword (Py.split (normalize_text text)))
      by (unfold extract_keywords; now destruct text).
    split; [exact He|]. rewrite He. split.
    - intros w. rewrite filter_In, is_keyword_spec. reflexivity.
    - apply List.Forall_forall. intros w Hw. apply filter_In in Hw as [Hw _].
      pose proof (normalized_words_lower text) as Hlow.
      rewrite List.Forall_forall in Hlow. auto. }
  assert (Hex : extract_keywords "The GUN  is at 42C, my ✅ ok" = ["gun"; "42c,"]
      /\ Py.len "✅" = 1%nat
      /\ keyword_score ["temp"; "ceed"; "gun"; "cable"] Sample.gun_temperature = 3%nat
      /\ _keyword_search Sample.catalog "temp exceeds" = None
      /\ _keyword_search Sample.catalog "temp exceeded"
         = Some (_format_error_response Sample.gun_temperature))
    by (split; [|split; [|split; [|split]]]; vm_compute; reflexivity).
  pose proof (keep_best_scan Nat.le Nat.leb Nat.leb_le Nat.le_trans Nat.le_ge_cases
                score 2%nat 0%nat (error_codes self)) as Hscan.
  unfold _keyword_search. rewrite keyword_loop_keep_best. fold score.
  destruct (extract_keywords query) as [|k keywords] eqn:Hk.
  { split; [discriminate|]. split; [|exact Hex]. split; [|reflexivity]. intros _ e _.
    unfold score, keyword_score. cbn. lia. }
  destruct (fold_left _ (error_codes self) _) as [[b|] s]; cbn [fst fmap option_fmap option_map].
  - destruct Hscan as (_ & Hthr & Hpos & i & Hi & Hmax & Hfirst). split; [|split].
    + intros d [= <-]. exists i, b. repeat split; try assumption.
      intros j e Hlt Hj. specialize (Hfirst j e Hlt Hj). lia.
    + split; [discriminate|]. intros Hall. exfalso.
      apply list_elem_of_lookup_2, list_elem_of_In in Hi. specialize (Hall b Hi). lia.
    + exact Hex.
  - destruct Hscan as (_ & Hall). split; [discriminate|]. split; [|exact Hex].
    split; [|reflexivity].
    intros _ e He. destruct (Hall e He); lia.
Qed.

(** C7 on the query "the gun temperature is high". *)
Lemma keyword_search_witness :
  extract_keywords "the gun temperature is high" = ["gun"; "temperature"; "high"]
  /\ _keyword_search Sample.catalog "the gun temperature is high"
     = Some (_format_error_response Sample.gun_temperature)
  /\ (2 <= keyword_score (extract_keywords "the gun temperature is high")
             Sample.gun_temperature)%nat.
Proof.
  assert (H : _keyword_search Sample.catalog "the gun temperature is high"
              = Some (_format_error_response Sample.gun_temperature))
    by (vm_compute; reflexivity).
  split; [vm_compute; reflexivity|]. split; [exact H|].
  apply (keyword_search Sample.catalog "the gun temperature is high") in H
    as (i & error & Hi & Hd & Hs & _).
  destruct i as [|[|[|i]]]; cbn in Hi; try discriminate Hi;
    injection Hi as <-; try discriminate Hd. exact Hs.
Defined.

(** ** Matches and the text they capture *)

Section MatchFacts.
Variables (icase : bool) (w : string).

Lemma run_Seq_In r1 r2 i g j g' :
  In (j, g') (run icase w (Seq r1 r2) i g) ->
  exists j1 g1, In (j1, g1) (run icase w r1 i g) /\ In (j, g') (run icase w r2 j1 g1).
Proof.
  cbn [run]. intros H. apply in_flat_map in H as ([j1 g1] & H1 & H2). eauto.
Qed.

Lemma run_Group_In r i g j g' :
  In (j, g') (run icase w (Group r) i g) ->
  g' = Some (i, j) /\ exists g0, In (j, g0) (run icase w r i g).
Proof.
  cbn [run]. intros H. apply in_map_iff in H as ([j0 g0] & [= <- <-] & H). eauto.
Qed.

Lemma run_WordB_In i g j g' :
  In (j, g') (run icase w WordB i g) -> j = i /\ g' = g.
Proof.
  cbn [run]. destruct (boundary w i); [|intros []]. intros [[= <- <-]|[]]. auto.
Qed.

Lemma run_Lit_In c i g j g' :
  In (j, g') (run icase w (Lit c) i g) ->
  j = S i /\ g' = g /\ exists d, String.get i w = Some d /\ same_char icase c d = true.
Proof. cbn [run]. apply class_In. Qed.

(** A repetition of [\d] consumes at least [lo] characters. *)
Lemma run_digits_least hi : forall lo i g j g',
  In (j, g') (run icase w (Rep Digit lo hi) i g) -> (i + lo <= j)%nat.
Proof.
  induction hi as [|hi IH]; intros lo i g j g'.
  - rewrite run_Rep_0. destruct lo; [|intros []]. intros [[= <- <-]|[]]. lia.
  - rewrite run_Rep_S. intros H. apply in_app_or in H as [H|H].
    + apply in_flat_map in H as ([j1 g1] & H1 & H2).
      apply class_In in H1 as (-> & -> & _). apply IH in H2. lia.
    + destruct lo; [|destruct H]. destruct H as [[= <- <-]|[]]. lia.
Qed.

(** The first start position that matches, and the match there. *)
Lemma search_from_Some r n : forall i s,
  search_from icase w r n i = Some s ->
  exists k j g, (i <= k <= i + n)%nat
                /\ In (j, g) (run icase w r k None) /\ s = group1 w g.
Proof.
  induction n as [|n IH]; intros i s; cbn [search_from]; unfold match_at;
    destruct (run icase w r i None) as [|[j g] rest] eqn:Hrun.
  - discriminate.
  - intros [= <-]. exists i, j, g. rewrite Hrun. repeat split; try lia. now left.
  - intros H. apply IH in H as (k & j & g & Hk & Hin & Hs).
    exists k, j, g. repeat split; try assumption; lia.
  - intros [= <-]. exists i, j, g. rewrite Hrun. repeat split; try lia. now left.
Qed.
End MatchFacts.

(** Strings by their characters. *)
Lemma all_digits_get s :
  (forall t c, String.get t s = Some c -> Py.isdigit_char c = true) ->
  Py.all_digits s = true.
Proof.
  induction s as [|a s IH]; intros H; cbn; [reflexivity|].
  rewrite (H 0%nat a eq_refl). cbn. apply IH. intros t c Hc. exact (H (S t) c Hc).
Qed.

Lemma length_get s n :
  (forall t, (t < n)%nat -> String.get t s <> None) ->
  (forall t, (n <= t)%nat -> String.get t s = None) ->
  String.length s = n.
Proof.
  revert n. induction s as [|a s IH]; intros n Hsome Hnone.
  - destruct n; [reflexivity|]. now specialize (Hsome 0%nat ltac:(lia)).
  - destruct n as [|n]; [specialize (Hnone 0%nat ltac:(lia)); discriminate|].
    cbn. f_equal. apply IH.
    + intros t Ht. apply (Hsome (S t)). lia.
    + intros t Ht. apply (Hnone (S t)). lia.
Qed.

(** The slice between two positions of which every character is a digit. *)
Lemma slice_digits w i j :
  (i <= j)%nat ->
  (forall k, (i <= k < j)%nat ->
             exists c, String.get k w = Some c /\ Py.isdigit_char c = true) ->
  Py.all_digits (Py.slice i j w) = true /\ String.length (Py.slice i j w) = (j - i)%nat.
Proof.
  intros Hij Hd. unfold Py.slice. split.
  - apply all_digits_get. intros t c Hc.
    destruct (le_lt_dec (j - i) t) as [Hge|Hlt].
    + rewrite substring_correct2 in Hc by assumption. discriminate.
    + rewrite substring_correct1 in Hc by assumption.
      destruct (Hd (t + i)%nat) as (c' & Hc' & Hdig); [lia|]. congruence.
  - apply length_get.
    + intros t Ht. rewrite substring_correct1 by assumption.
      destruct (Hd (t + i)%nat) as (c' & Hc' & _); [lia|]. congruence.
    + intros t Ht. now apply substring_correct2.
Qed.

Lemma substring_cons w : forall i n c,
  String.get i w = Some c ->
  substring i (S n) w = String c (substring (S i) n w).
Proof.
  induction w as [|a w IH]; intros i n c Hc; [destruct i; discriminate|].
  destruct i as [|i]; cbn in Hc.
  - injection Hc as <-. reflexivity.
  - cbn [substring]. now apply IH.
Qed.

(** What the group of each pattern holds. *)
Lemma pattern4_group message g :
  re_search false pattern4 message = Some g ->
  Py.all_digits g = true /\ (3 <= String.length g <= 4)%nat.
Proof.
  intros H. apply search_from_Some in H as (k & j & c & _ & Hin & ->).
  apply run_Seq_In in Hin as (j1 & g1 & H1 & Hin).
  apply run_WordB_In in H1 as [-> ->].
  apply run_Seq_In in Hin as (j2 & g2 & H2 & Hin).
  apply run_WordB_In in Hin as [-> ->].
  apply run_Group_In in H2 as (-> & g0 & H2).
  pose proof (run_digits_least _ _ _ _ _ _ _ _ H2) as Hlo.
  apply run_digits_In in H2 as (_ & Hhi & Hd).
  cbn [group1]. destruct (slice_digits message k j2 ltac:(lia) Hd) as [Ha Hl].
  split; [assumption|]. lia.
Qed.

Lemma pattern2_group message g :
  re_search true pattern2 message = Some g ->
  Py.all_digits g = true /\ (1 <= String.length g <= 4)%nat.
Proof.
  intros H. apply search_from_Some in H as (k & j & c & _ & Hin & ->).
  unfold pattern2 in Hin.
  do 4 (apply run_Seq_In in Hin as (? & ? & _ & Hin)).
  apply run_Seq_In in Hin as (i & gi & _ & Hin).
  apply run_Seq_In in Hin as (j2 & g2 & H2 & Hin).
  apply run_WordB_In in Hin as [-> ->].
  apply run_Group_In in H2 as (-> & g0 & H2).
  pose proof (run_digits_least _ _ _ _ _ _ _ _ H2) as Hlo.
  apply run_digits_In in H2 as (_ & Hhi & Hd).
  cbn [group1]. destruct (slice_digits message i j2 ltac:(lia) Hd) as [Ha Hl].
  split; [assumption|]. lia.
Qed.

Lemma pattern3_group message g :
  re_search true pattern3 message = Some g ->
  exists c d, g = String c d /\ Py.lower_char c = "e"%char
              /\ Py.all_digits d = true /\ (1 <= String.length d <= 4)%nat.
Proof.
  intros H. apply search_from_Some in H as (k & j & c & _ & Hin & ->).
  apply run_Seq_In in Hin as (j1 & g1 & H1 & Hin).
  apply run_WordB_In in H1 as [-> ->].
  apply run_Seq_In in Hin as (j2 & g2 & H2 & Hin).
  apply run_WordB_In in Hin as [-> ->].
  apply run_Group_In in H2 as (-> & g0 & H2).
  apply run_Seq_In in H2 as (j3 & g3 & H3 & H2).
  apply run_Lit_In in H3 as (-> & -> & c0 & Hc0 & He).
  pose proof (run_digits_least _ _ _ _ _ _ _ _ H2) as Hlo.
  apply run_digits_In in H2 as (_ & Hhi & Hd).
  destruct (slice_digits message (S k) j2 ltac:(lia) Hd) as [Ha Hl].
  exists c0, (Py.slice (S k) j2 message). cbn [group1]. unfold Py.slice at 1.
  replace (j2 - k)%nat with (S (j2 - S k)) by lia.
  rewrite (substring_cons _ _ _ _ Hc0). repeat split; try assumption; try lia.
  cbn in He. apply Ascii.eqb_eq in He. now symmetry.
Qed.

Lemma pattern1_group message g :
  re_search true pattern1 message = Some g ->
  exists c0 c1 d, g = String c0 (String c1 d)
                  /\ Py.lower_char c0 = "e"%char /\ Py.lower_char c1 = "r"%char
                  /\ Py.all_digits d = true /\ (3 <= String.length d <= 4)%nat.
Proof.
  intros H. apply search_from_Some in H as (k & j & c & _ & Hin & ->).
  apply run_Seq_In in Hin as (j1 & g1 & H1 & Hin).
  apply run_WordB_In in H1 as [-> ->].
  apply run_Seq_In in Hin as (j2 & g2 & H2 & Hin).
  apply run_WordB_In in Hin as [-> ->].
  apply run_Group_In in H2 as (-> & g0 & H2).
  apply run_Seq_In in H2 as (j3 & g3 & H3 & H2).
  apply run_Seq_In in H3 as (j4 & g4 & H4 & H3).
  apply run_Lit_In in H4 as (-> & -> & c0 & Hc0 & He).
  apply run_Lit_In in H3 as (-> & -> & c1 & Hc1 & Hr).
  pose proof (run_digits_least _ _ _ _ _ _ _ _ H2) as Hlo.
  apply run_digits_In in H2 as (_ & Hhi & Hd).
  destruct (slice_digits message (S (S k)) j2 ltac:(lia) Hd) as [Ha Hl].
  exists c0, c1, (Py.slice (S (S k)) j2 message). cbn [group1]. unfold Py.slice at 1.
  replace (j2 - k)%nat with (S (S (j2 - S (S k)))) by lia.
  rewrite (substring_cons _ _ _ _ Hc0), (substring_cons _ _ _ _ Hc1).
  repeat split; try assumption; try lia.
  - cbn in He. apply Ascii.eqb_eq in He. now symmetry.
  - cbn in Hr. apply Ascii.eqb_eq in Hr. now symmetry.
Qed.

Lemma upper_of_e c : Py.lower_char c = "e"%char -> Py.upper_char c = "E"%char.
Proof. destruct c as [[] [] [] [] [] [] [] []]; vm_compute; congruence. Qed.

Lemma upper_of_r c : Py.lower_char c = "r"%char -> Py.upper_char c = "R"%char.
Proof. destruct c as [[] [] [] [] [] [] [] []]; vm_compute; congruence. Qed.

Lemma digit_char_plain c :
  Py.isdigit_char c = true ->
  Py.upper_char c = c /\ Py.lower_char c = c /\ Py.isspace c = false.
Proof. destruct c as [[] [] [] [] [] [] [] []]; vm_compute; intros; try discriminate; auto. Qed.

Lemma digits_upper d : Py.all_digits d = true -> Py.upper d = d.
Proof.
  induction d as [|c d IH]; cbn; [reflexivity|]. intros H.
  apply andb_true_iff in H as [Hc Hd]. unfold Py.upper in IH.
  now rewrite (proj1 (digit_char_plain c Hc)), IH.
Qed.

Lemma digits_no_space d :
  Py.all_digits d = true -> forall_chars (fun c => negb (Py.isspace c)) d = true.
Proof.
  induction d as [|c d IH]; cbn; [reflexivity|]. intros H.
  apply andb_true_iff in H as [Hc Hd].
  destruct (digit_char_plain c Hc) as (_ & _ & ->). now rewrite IH.
Qed.

(** Stripping leaves a text without white space as it is. *)
Lemma strip_no_space s :
  forall_chars (fun c => negb (Py.isspace c)) s = true -> Py.strip s = s.
Proof.
  intros H. unfold Py.strip.
  assert (Hl : Py.lstrip s = s).
  { destruct s as [|c s]; [reflexivity|]. cbn in *.
    apply andb_true_iff in H as [Hc _]. apply negb_true_iff in Hc. now rewrite Hc. }
  rewrite Hl. clear Hl. induction s as [|c s IH]; [reflexivity|]. cbn in *.
  apply andb_true_iff in H as [Hc Hs]. apply negb_true_iff in Hc.
  now rewrite Hc, IH.
Qed.

Lemma zfill_digits g :
  Py.all_digits g = true -> (1 <= String.length g <= 4)%nat ->
  Py.all_digits (Py.zfill 3 g) = true /\ (3 <= String.length (Py.zfill 3 g) <= 4)%nat.
Proof.
  unfold Py.zfill.
  destruct g as [|a [|b [|c [|d [|e g]]]]]; simpl; intros H Hl; try lia;
    (split; [exact H | lia]).
Qed.

(** A code made of the prefix and digits, or of digits, is its own lookup
    key. *)
Lemma code_key d :
  Py.all_digits d = true ->
  Py.strip (Py.upper d) = d /\ Py.strip (Py.upper ("ER" ++ d)) = "ER" ++ d.
Proof.
  intros Hd. pose proof (digits_upper d Hd) as Hu.
  pose proof (digits_no_space d Hd) as Hs. split.
  - rewrite Hu. now apply strip_no_space.
  - change (Py.upper ("ER" ++ d)) with (String "E" (String "R" (Py.upper d))).
    rewrite Hu. apply strip_no_space. cbn. exact Hs.
Qed.

(** The code the first pattern gives. *)
Lemma pattern1_code message g :
  re_search true pattern1 message = Some g ->
  exists d, Py.all_digits d = true /\ (3 <= String.length d <= 4)%nat
            /\ Py.upper g = "ER" ++ d.
Proof.
  intros H. apply pattern1_group in H as (c0 & c1 & d & -> & He & Hr & Hd & Hl).
  exists d. cbn. rewrite (upper_of_e _ He), (upper_of_r _ Hr).
  fold (Py.upper d). rewrite (digits_upper d Hd). auto.
Qed.

(** X1.  Whatever the message, an extracted code is [ER] followed by three or
    four digits, or three or four digits alone, the latter only when none of
    the first three patterns matches; it is in upper case and free of white
    space, so that it is its own lookup key. *)
Theorem extract_error_pattern_format message code :
  extract_error_pattern message = Some code ->
  exists d,
    Py.all_digits d = true /\ (3 <= String.length d <= 4)%nat
    /\ (code = "ER" ++ d
        \/ (code = d
            /\ re_search true pattern1 message = None
            /\ re_search true pattern2 message = None
            /\ re_search true pattern3 message = None))
    /\ Py.strip (Py.upper code) = code.
Proof.
  unfold extract_error_pattern. destruct (Py.is_empty message); [discriminate|].
  destruct (re_search true pattern1 message) as [g1|] eqn:H1.
  { intros [= <-]. apply pattern1_code in H1 as (d & Hd & Hl & ->).
    exists d. repeat split; try assumption; try lia; [now left|].
    apply (code_key d Hd). }
  destruct (re_search true pattern2 message) as [g2|] eqn:H2.
  { intros [= <-]. apply pattern2_group in H2 as (Hd & Hl).
    destruct (zfill_digits g2 Hd Hl) as [Hd' Hl'].
    exists (Py.zfill 3 g2). repeat split; try assumption; try lia; [now left|].
    apply (code_key _ Hd'). }
  destruct (re_search true pattern3 message) as [g3|] eqn:H3.
  { intros [= <-]. apply pattern3_group in H3 as (c & d & -> & _ & Hd & Hl).
    cbn [Py.drop]. destruct (zfill_digits d Hd Hl) as [Hd' Hl'].
    exists (Py.zfill 3 d). repeat split; try assumption; try lia; [now left|].
    apply (code_key _ Hd'). }
  destruct (re_search false pattern4 message) as [g4|] eqn:H4; [|discriminate].
  apply pattern4_group in H4 as (Hd & Hl). intros H.
  assert (code = g4) as -> by (destruct (_ || _); [|destruct (has_context_keyword _)]; congruence).
  exists g4. repeat split; try assumption; try lia; [right; auto|].
  apply (code_key _ Hd).
Qed.

(** X1 on the message "showing er015". *)
Lemma extract_error_pattern_format_witness :
  extract_error_pattern "showing er015" = Some "ER015"
  /\ Py.strip (Py.upper "ER015") = "ER015".
Proof.
  assert (H : extract_error_pattern "showing er015" = Some "ER015")
    by (vm_compute; reflexivity).
  split; [exact H|].
  destruct (extract_error_pattern_format _ _ H) as (d & _ & _ & _ & Hk). exact Hk.
Defined.

(** ** Codes in free text *)

Lemma forall_chars_get p s : forall k c,
  forall_chars p s = true -> String.get k s = Some c -> p c = true.
Proof.
  induction s as [|a s IH]; intros k c H Hc; [destruct k; discriminate|].
  cbn in H. apply andb_true_iff in H as [Ha Hs].
  destruct k; cbn in Hc; [now injection Hc as <-|]. eauto.
Qed.

Lemma forall_chars_weaken (p q : ascii -> bool) s :
  (forall c, p c = true -> q c = true) ->
  forall_chars p s = true -> forall_chars q s = true.
Proof.
  intros Hpq. induction s as [|a s IH]; cbn; [reflexivity|]. intros H.
  apply andb_true_iff in H as [Ha Hs]. now rewrite (Hpq a Ha), IH.
Qed.

(** What stripping removes is white space. *)
Lemma forall_chars_of_lstrip p s :
  forall_chars p (Py.lstrip s) = true ->
  forall_chars (fun c => p c || Py.isspace c) s = true.
Proof.
  induction s as [|a s IH]; cbn; [reflexivity|]. destruct (Py.isspace a) eqn:Ha.
  - intros H. rewrite orb_true_r. now apply IH.
  - cbn. intros H. apply andb_true_iff in H as [Hp Hs]. rewrite Hp. cbn.
    eapply forall_chars_weaken; [|exact Hs]. intros c ->. reflexivity.
Qed.

Lemma forall_chars_of_rstrip p s :
  forall_chars p (Py.rstrip s) = true ->
  forall_chars (fun c => p c || Py.isspace c) s = true.
Proof.
  induction s as [|a s IH]; cbn; [reflexivity|].
  destruct (Py.isspace a && Py.is_empty (Py.rstrip s)) eqn:Hc.
  - apply andb_true_iff in Hc as [Ha He]. intros _. rewrite Ha, orb_true_r. cbn.
    apply IH. now destruct (Py.rstrip s).
  - cbn. intros H. apply andb_true_iff in H as [Hp Hs]. rewrite Hp. cbn. now apply IH.
Qed.

Lemma get_map_chars f s : forall k,
  String.get k (Py.map_chars f s) = option_map f (String.get k s).
Proof.
  induction s as [|a s IH]; intros k; [now destruct k|].
  destruct k; cbn; [reflexivity|]. apply IH.
Qed.

(** A text with a digit is not turned into a text without digits by
    lower-casing and stripping. *)
Lemma digit_survives message k c :
  String.get k message = Some c -> Py.isdigit_char c = true ->
  forall_chars (fun c => negb (Py.isdigit_char c)) (Py.strip (Py.lower message)) = false.
Proof.
  intros Hc Hd. apply not_true_iff_false. intros H. unfold Py.strip in H.
  apply forall_chars_of_rstrip, forall_chars_of_lstrip in H.
  assert (Hl : String.get k (Py.lower message) = Some c).
  { unfold Py.lower. rewrite get_map_chars, Hc. cbn.
    now rewrite (proj1 (proj2 (digit_char_plain c Hd))). }
  pose proof (forall_chars_get _ _ _ _ H Hl) as Hp. cbn in Hp.
  destruct (digit_char_plain c Hd) as (_ & _ & Hs). now rewrite Hd, Hs in Hp.
Qed.

(** No label of the option map holds a digit. *)
Lemma option_mapping_no_digit key node :
  option_mapping !! key = Some node ->
  forall_chars (fun c => negb (Py.isdigit_char c)) key = true.
Proof.
  intros Hk. apply elem_of_list_to_map_2 in Hk.
  change (forall_chars (fun c => negb (Py.isdigit_char c)) (fst (key, node)) = true).
  revert Hk. generalize (key, node). apply Forall_forall.
  repeat (constructor; [reflexivity|]). constructor.
Qed.

Lemma digit_not_option message k c :
  String.get k message = Some c -> Py.isdigit_char c = true ->
  _map_option_to_node message = None.
Proof.
  intros Hc Hd. unfold _map_option_to_node. case_bool_decide; [reflexivity|].
  destruct (option_mapping !! Py.strip (Py.lower message)) as [node|] eqn:Ho;
    [|reflexivity].
  apply option_mapping_no_digit in Ho.
  now rewrite (digit_survives _ _ _ Hc Hd) in Ho.
Qed.

(** A match of the first pattern lies on a digit of the message. *)
Lemma pattern1_digit message g :
  re_search true pattern1 message = Some g ->
  exists k c, String.get k message = Some c /\ Py.isdigit_char c = true.
Proof.
  intros H. apply search_from_Some in H as (k & j & c & _ & Hin & _).
  apply run_Seq_In in Hin as (j1 & g1 & H1 & Hin).
  apply run_WordB_In in H1 as [-> ->].
  apply run_Seq_In in Hin as (j2 & g2 & H2 & _).
  apply run_Group_In in H2 as (_ & g0 & H2).
  apply run_Seq_In in H2 as (j3 & g3 & _ & H2).
  pose proof (run_digits_least _ _ _ _ _ _ _ _ H2) as Hlo.
  apply run_digits_In in H2 as (_ & _ & Hd).
  destruct (Hd j3) as (d & Hd1 & Hd2); [lia|]. eauto.
Qed.

(** X2.  A message that holds, as a word, [ER] and three or four digits in
    any case is answered by the diagnosis of the record indexed under that
    code: neither the option map, nor the action, nor the intents are looked
    at, and the node of the session stays. *)
Theorem error_code_token_diagnosed self user_id message action platform g record :
  re_search true pattern1 message = Some g ->
  error_codes (diagnostic_engine self) <> [] ->
  error_index (diagnostic_engine self) !! Py.upper g = Some record ->
  let r := process_message self user_id (Some message) action platform in
  value r = _generate_diagnostic_response (sid self user_id platform)
              (_format_error_response record)
  /\ type (value r) = diagnostic
  /\ error_code (value r) = Some (Error_Code record)
  /\ persisted (trace r) = [prior_node self user_id platform]
  /\ evaluations (trace r) = [MapOptionToNode message; DetectErrorCode message].
Proof.
  intros Hg Hcodes Hidx.
  assert (Hm : message <> "") by (intros ->; vm_compute in Hg; discriminate Hg).
  assert (Ho : _map_option_to_node message = None).
  { destruct (pattern1_digit _ _ Hg) as (k & c & Hc & Hd). eapply digit_not_option; eauto. }
  assert (He : extract_error_pattern message = Some (Py.upper g)).
  { unfold extract_error_pattern. destruct message; [congruence|]. cbn [Py.is_empty].
    now rewrite Hg. }
  assert (Hd : detect_error_code (diagnostic_engine self) message
               = Some (_format_error_response record)).
  { destruct (pattern1_code _ _ Hg) as (d & Hdig & _ & Hu).
    apply (detect_by_pattern _ _ (Py.upper g)); try assumption.
    - rewrite Hu. discriminate.
    - rewrite Hu in *. now rewrite (proj2 (code_key d Hdig)). }
  cbv zeta. rewrite process_message_turn. unfold first_match.
  rewrite (truthy_present _ Hm). change (default "" (Some message)) with message.
  rewrite Ho, Hd. unfold turn, opening, value, trace.
  rewrite (truthy_present _ Hm). repeat split; reflexivity.
Qed.

(** X2 on the message "showing er015" and the sample catalog. *)
Lemma error_code_token_diagnosed_witness :
  let r := process_message Sample.mgr "u1" (Some "showing er015") (Some "start") "web" in
  type (value r) = diagnostic /\ error_code (value r) = Some "ER015".
Proof.
  pose proof (error_code_token_diagnosed Sample.mgr "u1" "showing er015" (Some "start")
                "web" "er015" Sample.rfid_fail) as H.
  cbv zeta in H. destruct H as (_ & Ht & Hc & _).
  - vm_compute; reflexivity.
  - discriminate.
  - vm_compute; reflexivity.
  - split; [exact Ht | exact Hc].
Defined.

(** ** Normalization *)

Lemma rstrip_idempotent s : Py.rstrip (Py.rstrip s) = Py.rstrip s.
Proof.
  induction s as [|c s IH]; [reflexivity|]. cbn [Py.rstrip].
  destruct (Py.isspace c && Py.is_empty (Py.rstrip s)) eqn:Hc; [reflexivity|].
  cbn [Py.rstrip]. now rewrite IH, Hc.
Qed.

Lemma lstrip_head s c r : Py.lstrip s = String c r -> Py.isspace c = false.
Proof.
  induction s as [|a s IH]; cbn; [discriminate|].
  destruct (Py.isspace a) eqn:Ha; [exact IH|]. now intros [= <- <-].
Qed.

(** A stripped text is empty or begins with a character that is no white
    space, and it has no white space at its end. *)
Lemma strip_shape s :
  Py.rstrip (Py.strip s) = Py.strip s
  /\ (Py.strip s = ""
      \/ exists c r, Py.strip s = String c r /\ Py.isspace c = false).
Proof.
  unfold Py.strip. split; [apply rstrip_idempotent|].
  destruct (Py.lstrip s) as [|c r] eqn:Hl; [now left|].
  apply lstrip_head in Hl. right. cbn [Py.rstrip]. rewrite Hl. cbn. eauto.
Qed.

Lemma strip_idempotent s : Py.strip (Py.strip s) = Py.strip s.
Proof.
  destruct (strip_shape s) as [Hr [->|(c & r & Hs & Hc)]]; [reflexivity|].
  unfold Py.strip at 1. rewrite Hs. cbn [Py.lstrip]. rewrite Hc. now rewrite <- Hs.
Qed.

Lemma sub_spaces_single_spaced s : forall in_run,
  Py.rstrip s = s -> s <> "" ->
  single_spaced in_run (Py.sub_spaces in_run s) = true.
Proof.
  induction s as [|c s IH]; intros in_run Hr Hne; [congruence|].
  cbn [Py.rstrip] in Hr. cbn [Py.sub_spaces].
  destruct (Py.isspace c) eqn:Hc; cbn [andb] in Hr.
  - destruct (Py.is_empty (Py.rstrip s)) eqn:He; [discriminate|].
    injection Hr as Hr. assert (Hs : s <> "") by (intros ->; discriminate).
    destruct in_run; [now apply IH|].
    cbn. now rewrite IH.
  - injection Hr as Hr. cbn. rewrite Hc. destruct s as [|d s]; [reflexivity|].
    apply IH; [assumption|discriminate].
Qed.

Lemma single_spaced_sub_spaces s : forall after in_run,
  single_spaced after s = true -> (in_run = true -> after = true) ->
  Py.sub_spaces in_run s = s.
Proof.
  induction s as [|c s IH]; intros after in_run H Hb; [reflexivity|].
  cbn in *. destruct (Py.isspace c) eqn:Hc.
  - apply andb_true_iff in H as [H Hs]. apply andb_true_iff in H as [Heq Ha].
    apply Ascii.eqb_eq in Heq. apply negb_true_iff in Ha. subst c.
    destruct in_run; [specialize (Hb eq_refl); congruence|].
    f_equal. now apply (IH true).
  - f_equal. apply (IH false); [assumption|discriminate].
Qed.

Lemma single_spaced_rstrip s : forall after,
  single_spaced after s = true -> Py.rstrip s = s.
Proof.
  induction s as [|c s IH]; intros after H; [reflexivity|].
  cbn in *. destruct (Py.isspace c) eqn:Hc.
  - apply andb_true_iff in H as [_ Hs]. rewrite (IH _ Hs).
    destruct s; [discriminate Hs|reflexivity].
  - now rewrite (IH _ H).
Qed.

Lemma single_spaced_strip s : single_spaced true s = true -> Py.strip s = s.
Proof.
  intros H. unfold Py.strip. destruct s as [|c s]; [reflexivity|].
  cbn [Py.lstrip]. cbn in H. destruct (Py.isspace c) eqn:Hc.
  - rewrite andb_false_r in H. discriminate.
  - apply (single_spaced_rstrip _ true). cbn. now rewrite Hc.
Qed.

(** The shape of a normalized text. *)
Lemma normalize_text_shape text :
  let n := normalize_text text in
  n = "" \/ (single_spaced true n = true /\ forall_chars is_lower_char n = true).
Proof.
  cbv zeta. unfold normalize_text. destruct (Py.is_empty text); [now left|].
  destruct (strip_shape (Py.lower text)) as [Hr [->|(c & r & Hs & Hc)]]; [now left|].
  right. split.
  - rewrite Hs in *. cbn [Py.sub_spaces]. rewrite Hc.
    pose proof (sub_spaces_single_spaced (String c r) false Hr ltac:(discriminate)) as H.
    cbn [Py.sub_spaces] in H. rewrite Hc in H. cbn in H. rewrite Hc in H.
    cbn. now rewrite Hc.
  - apply forall_chars_sub_spaces; [reflexivity|].
    apply forall_chars_rstrip, forall_chars_lstrip, forall_chars_map, lower_char_idempotent.
Qed.

Lemma normalized_fixed text :
  let n := normalize_text text in
  normalize_text n = n
  /\ Py.lower n = n
  /\ Py.strip n = n
  /\ Py.sub_spaces false n = n
  /\ (n = "" \/ single_spaced true n = true).
Proof.
  cbv zeta. destruct (normalize_text_shape text) as [->|[Hs Hl]];
    [repeat split; auto|].
  pose proof (lower_fixed _ Hl) as Hlow.
  pose proof (single_spaced_strip _ Hs) as Hstrip.
  pose proof (single_spaced_sub_spaces _ true false Hs ltac:(discriminate)) as Hsub.
  repeat split; auto.
  unfold normalize_text at 1. destruct (normalize_text text) eqn:Hn; [reflexivity|].
  cbn [Py.is_empty]. now rewrite Hlow, Hstrip, Hsub.
Qed.

(** X3.  Normalizing is idempotent: a normalized text is in lower case, has
    no white space at its ends and none inside but single blanks, and
    normalizing it again changes nothing. *)
Theorem normalize_text_idempotent text :
  let n := normalize_text text in
  normalize_text n = n
  /\ Py.lower n = n
  /\ Py.strip n = n
  /\ Py.sub_spaces false n = n
  /\ (n = "" \/ single_spaced true n = true).
Proof. exact (normalized_fixed text). Qed.

Lemma lower_upper_char c : Py.lower_char (Py.upper_char c) = Py.lower_char c.
Proof. destruct c as [[] [] [] [] [] [] [] []]; reflexivity. Qed.

Lemma lower_upper s : Py.lower (Py.upper s) = Py.lower s.
Proof.
  induction s as [|c s IH]; [reflexivity|]. cbn. unfold Py.lower, Py.upper in IH.
  now rewrite lower_upper_char, IH.
Qed.

Lemma lower_lower s : Py.lower (Py.lower s) = Py.lower s.
Proof.
  induction s as [|c s IH]; [reflexivity|]. cbn. unfold Py.lower in IH. rewrite IH.
  f_equal. pose proof (lower_char_idempotent c) as H. unfold is_lower_char in H.
  now apply Ascii.eqb_eq in H.
Qed.

(** Normalization does not see the case of the letters. *)
Lemma normalize_text_upper text : normalize_text (Py.upper text) = normalize_text text.
Proof. unfold normalize_text. rewrite lower_upper. now destruct text. Qed.

Lemma normalize_text_lower text : normalize_text (Py.lower text) = normalize_text text.
Proof. unfold normalize_text. rewrite lower_lower. now destruct text. Qed.

(** X4.  The keywords of a text are those of its normalization and those of
    its lower-cased form; for an ASCII text they are those of its upper-cased
    form as well. *)
Theorem extract_keywords_normalized text :
  extract_keywords (normalize_text text) = extract_keywords text
  /\ extract_keywords (Py.lower text) = extract_keywords text
  /\ (Py.isascii text = true ->
      extract_keywords (Py.upper text) = extract_keywords text).
Proof.
  split; [|split].
  - unfold extract_keywords. rewrite (proj1 (normalized_fixed text)).
    destruct text as [|c text]; [reflexivity|]. cbn [Py.is_empty].
    now destruct (normalize_text (String c text)).
  - unfold extract_keywords. rewrite normalize_text_lower. now destruct text.
  - intros _. unfold extract_keywords. rewrite normalize_text_upper. now destruct text.
Qed.

(** X4 on "The GUN is Hot". *)
Lemma extract_keywords_normalized_witness :
  extract_keywords "THE GUN IS HOT" = extract_keywords "The GUN is Hot"
  /\ extract_keywords "The GUN is Hot" = ["gun"; "hot"].
Proof.
  split; [|vm_compute; reflexivity].
  apply (proj2 (proj2 (extract_keywords_normalized "The GUN is Hot"))). reflexivity.
Defined.

(** ** Sanitizing *)

Lemma startswith_refl s : Py.startswith s s = true.
Proof. induction s as [|c s IH]; cbn; [reflexivity|]. now rewrite Ascii.eqb_refl. Qed.

Lemma chars_nil s : Py.chars s = [] -> s = "".
Proof.
  destruct s as [|c s]; [reflexivity|]. cbn [Py.chars].
  destruct s as [|d s]; [discriminate|].
  destruct (Py.is_continuation d); [|discriminate].
  destruct (Py.chars (String d s)); discriminate.
Qed.

(** The characters of a text, joined, are the text. *)
Lemma join_cons c l : Py.join (c :: l) = c ++ Py.join l.
Proof. reflexivity. Qed.

Lemma append_cons b (t u : string) : String b t ++ u = String b (t ++ u).
Proof. reflexivity. Qed.

Lemma join_chars s : Py.join (Py.chars s) = s.
Proof.
  induction s as [|c s IH]; [reflexivity|]. cbn [Py.chars].
  destruct s as [|d s]; [reflexivity|].
  destruct (Py.is_continuation d).
  - destruct (Py.chars (String d s)) as [|first rest] eqn:Hc.
    + apply chars_nil in Hc. discriminate.
    + rewrite join_cons in *. rewrite append_cons. now rewrite IH.
  - rewrite join_cons, append_cons. change ("" ++ ?x) with x. now rewrite IH.
Qed.

Lemma join_app l l' : Py.join (l ++ l') = Py.join l ++ Py.join l'.
Proof.
  induction l as [|x l IH]; [reflexivity|].
  cbn [app]. now rewrite !join_cons, IH, append_assoc.
Qed.

(** The first characters of a text are a prefix of it. *)
Lemma join_firstn_prefix n s :
  Py.startswith (Py.join (firstn n (Py.chars s))) s = true.
Proof.
  apply startswith_prefix. exists (Py.join (skipn n (Py.chars s))).
  now rewrite <- join_app, firstn_skipn, join_chars.
Qed.

Lemma chars_step c d r :
  Py.chars (String c (String d r))
  = if Py.is_continuation d then
      match Py.chars (String d r) with
      | first :: rest => String c first :: rest
      | [] => [String c ""]
      end
    else String c "" :: Py.chars (String d r).
Proof. reflexivity. Qed.

(** The characters of a text that starts with a given character. *)
Lemma chars_cons_character t : forall b s,
  continuation_bytes t = true ->
  match s with String d _ => Py.is_continuation d = false | EmptyString => True end ->
  Py.chars (String b (t ++ s)) = String b t :: Py.chars s.
Proof.
  induction t as [|d t IH]; intros b s Ht Hs.
  - change ("" ++ s) with s. destruct s as [|e s]; [reflexivity|].
    now rewrite chars_step, Hs.
  - cbn in Ht. apply andb_true_iff in Ht as [Hd Ht].
    rewrite append_cons, chars_step, Hd. now rewrite (IH d s Ht Hs).
Qed.

(** What [Py.chars] gives: characters, each but the first starting with a
    byte that is no continuation byte. *)
Lemma chars_characters s :
  match Py.chars s with
  | [] => True
  | first :: rest =>
      is_character first = true /\ Forall (fun c => starts_character c = true) rest
  end.
Proof.
  induction s as [|c s IH]; [exact I|]. cbn [Py.chars].
  destruct s as [|d s]; [split; [reflexivity | constructor]|].
  destruct (Py.is_continuation d) eqn:Hd.
  - destruct (Py.chars (String d s)) as [|first rest] eqn:Hc; [split; [reflexivity|constructor]|].
    destruct IH as [Hf Hr]. split; [|exact Hr].
    assert (Hfd : exists t, first = String d t).
    { pose proof (join_chars (String d s)) as Hj. rewrite Hc in Hj.
      destruct first as [|x t]; [discriminate Hf|].
      rewrite join_cons, append_cons in Hj.
      injection Hj as -> _. eauto. }
    destruct Hfd as [t ->]. cbn in *. now rewrite Hd.
  - destruct (Py.chars (String d s)) as [|first rest] eqn:Hc.
    + apply chars_nil in Hc. discriminate.
    + destruct IH as [Hf Hr]. split; [reflexivity|]. constructor; [|exact Hr].
      pose proof (join_chars (String d s)) as Hj. rewrite Hc in Hj.
      destruct first as [|x t]; [discriminate Hf|].
      rewrite join_cons, append_cons in Hj.
      injection Hj as -> _. cbn in *. now rewrite Hd.
Qed.

(** Characters that are joined are found again. *)
Lemma chars_join_characters rest :
  Forall (fun c => starts_character c = true) rest ->
  Py.chars (Py.join rest) = rest
  /\ match Py.join rest with
     | String d _ => Py.is_continuation d = false
     | EmptyString => True
     end.
Proof.
  induction rest as [|c rest IH]; intros H; [split; [reflexivity | exact I]|].
  apply Forall_cons in H as [Hc Hr]. destruct (IH Hr) as [IHc IHh].
  destruct c as [|b t]; [discriminate Hc|]. cbn in Hc.
  apply andb_true_iff in Hc as [Hb Ht]. apply negb_true_iff in Hb.
  rewrite join_cons, append_cons.
  split; [|exact Hb].
  rewrite (chars_cons_character t b (Py.join rest) Ht IHh). now rewrite IHc.
Qed.

Lemma chars_join_firstn n s :
  Py.chars (Py.join (firstn n (Py.chars s))) = firstn n (Py.chars s).
Proof.
  pose proof (chars_characters s) as H.
  destruct (Py.chars s) as [|first rest]; [now destruct n|].
  destruct n as [|n]; [reflexivity|]. destruct H as [Hf Hr]. cbn [firstn].
  assert (Hr' : Forall (fun c => starts_character c = true) (firstn n rest)).
  { now apply Forall_take. }
  destruct (chars_join_characters _ Hr') as [Hc Hh].
  destruct first as [|b t]; [discriminate Hf|]. cbn in Hf.
  rewrite join_cons, append_cons.
  rewrite (chars_cons_character t b _ Hf Hh). now rewrite Hc.
Qed.

Lemma len_prefix k s :
  Py.len (Py.prefix k s)
  = Nat.min (if (k <? 0)%Z then Z.to_nat (Z.of_nat (Py.len s) + k) else Z.to_nat k)
            (Py.len s).
Proof.
  unfold Py.prefix, Py.len at 1. rewrite chars_join_firstn, length_firstn. reflexivity.
Qed.

(** X5.  A sanitized text is made of the first characters of the stripped
    text and has no white space at its start.  For a [max_length] that is not
    negative it has at most [max_length] characters, and it is the stripped
    text when that fits; for a negative [max_length] the last [-max_length]
    characters of the stripped text are cut.  Cutting can leave white space
    at the end: sanitizing is not idempotent. *)
Theorem sanitize_user_input_bounds text max_length :
  let r := sanitize_user_input text max_length in
  let stripped := Py.strip text in
  Py.startswith r stripped = true
  /\ Py.lstrip r = r
  /\ (exists n, Py.chars r = firstn n (Py.chars stripped))
  /\ ((0 <= max_length)%Z -> (Z.of_nat (Py.len r) <= max_length)%Z)
  /\ ((Z.of_nat (Py.len stripped) <= max_length)%Z -> r = stripped)
  /\ ((max_length < 0)%Z ->
      Py.len r = (Py.len stripped - Z.to_nat (- max_length))%nat)
  /\ (sanitize_user_input "ab  cd" 3 = "ab "
      /\ sanitize_user_input (sanitize_user_input "ab  cd" 3) 3 = "ab"
      /\ sanitize_user_input "abc" (-1) = "ab"
      /\ sanitize_user_input "✅ab" 2 = "✅a").
Proof.
  cbv zeta.
  assert (Hr : sanitize_user_input text max_length
               = if (max_length <? Z.of_nat (Py.len (Py.strip text)))%Z
                 then Py.prefix max_length (Py.strip text) else Py.strip text).
  { unfold sanitize_user_input. destruct text as [|c text]; [|reflexivity].
    cbn [Py.is_empty]. change (Py.strip "") with "".
    destruct (_ <? _)%Z; [|reflexivity]. unfold Py.prefix.
    change (Py.chars "") with (@nil string). now rewrite firstn_nil. }
  rewrite Hr. clear Hr. set (t := Py.strip text).
  assert (Hstart : forall r, Py.startswith r t = true -> Py.lstrip r = r).
  { intros r H. destruct r as [|a r]; [reflexivity|].
    destruct (strip_shape text) as [_ [E|(c & u & E & Hc)]]; fold t in E; rewrite E in H.
    - discriminate H.
    - cbn in H. apply andb_true_iff in H as [Ha _]. apply Ascii.eqb_eq in Ha.
      subst a. cbn. now rewrite Hc. }
  split; [|split; [|split; [|split; [|split; [|split]]]]].
  - destruct (_ <? _)%Z; [apply join_firstn_prefix | apply startswith_refl].
  - apply Hstart.
    destruct (_ <? _)%Z; [apply join_firstn_prefix | apply startswith_refl].
  - destruct (_ <? _)%Z.
    + eexists. apply chars_join_firstn.
    + exists (Py.len t). unfold Py.len. now rewrite firstn_all.
  - intros Hk. destruct (max_length <? Z.of_nat (Py.len t))%Z eqn:Hlt.
    + rewrite len_prefix. destruct (max_length <? 0)%Z eqn:Hneg; [lia|]. lia.
    + apply Z.ltb_ge in Hlt. exact Hlt.
  - intros Hfit. destruct (max_length <? Z.of_nat (Py.len t))%Z eqn:Hlt; [lia|reflexivity].
  - intros Hneg. destruct (max_length <? Z.of_nat (Py.len t))%Z eqn:Hlt; [|lia].
    rewrite len_prefix. destruct (max_length <? 0)%Z eqn:Hn; lia.
  - split; [|split; [|split]]; vm_compute; reflexivity.
Qed.

(** X5 on a text that fits. *)
Lemma sanitize_user_input_bounds_witness :
  sanitize_user_input "  my charger shows ER001  " 2000 = "my charger shows ER001"
  /\ Py.len (sanitize_user_input "abcdef" (-2)) = 4%nat.
Proof.
  split.
  - apply (proj1 (proj2 (proj2 (proj2 (proj2
             (sanitize_user_input_bounds "  my charger shows ER001  " 2000)))))).
    vm_compute. discriminate.
  - apply (proj1 (proj2 (proj2 (proj2 (proj2 (proj2
             (sanitize_user_input_bounds "abcdef" (-2)))))))).
    reflexivity.
Defined.

(** ** The catalog in use *)

(** X6.  After the first load of a file with unique codes, the records are
    those of the file, the index holds each record that has a code under its
    upper-cased code and nothing else, the count is the number of records and
    the database counts as loaded when there is a record. *)
Theorem catalog_after_first_load records :
  unique_codes records ->
  let self := load_error_codes init (Parsed records) in
  error_codes self = records
  /\ (forall key error,
        error_index self !! key = Some error
        <-> In error records /\ key <> "" /\ Py.upper (Error_Code error) = key)
  /\ get_total_error_count self = length records
  /\ (is_database_loaded self = true <-> records <> []).
Proof.
  intros Hu self. split; [reflexivity|]. split; [|split; [reflexivity|]].
  - intros key error. now apply first_load_index.
  - unfold is_database_loaded, self. cbn. destruct records; cbn; split;
      congruence || discriminate.
Qed.

(** X6 on the sample catalog. *)
Lemma catalog_after_first_load_witness :
  error_index Sample.catalog !! "ER015" = Some Sample.rfid_fail
  /\ get_total_error_count Sample.catalog = 3%nat.
Proof.
  destruct (catalog_after_first_load _ sample_codes_unique) as (_ & Hi & Hc & _).
  split; [|exact Hc]. apply Hi. cbn. repeat split; auto; discriminate.
Defined.

Lemma lookup_by_code_empty self code :
  error_index self = ∅ -> _lookup_by_code self code = None.
Proof.
  intros He. unfold _lookup_by_code. rewrite He, !lookup_empty.
  destruct (negb _ && _); destruct (Py.startswith _ _); reflexivity.
Qed.

(** X7.  After a load that fails, whatever was loaded before, the database
    counts as not loaded, holds no record, and neither detection nor the
    lookup by code finds anything; no turn of a manager with such a catalog
    is answered by a diagnosis. *)
Theorem failed_load_unloads self f :
  f = FileNotFoundError \/ f = JSONDecodeError ->
  let failed := load_error_codes self f in
  is_database_loaded failed = false
  /\ get_total_error_count failed = 0%nat
  /\ (forall message, detect_error_code failed message = None)
  /\ (forall code, get_error_by_code failed code = None)
  /\ (forall m user_id message action platform,
        diagnostic_engine m = failed ->
        type (value (process_message m user_id message action platform)) <> diagnostic).
Proof.
  intros Hf failed.
  assert (Hc : error_codes failed = []) by (destruct Hf; subst; reflexivity).
  assert (Hi : error_index failed = ∅) by (destruct Hf; subst; reflexivity).
  assert (Hd : forall message, detect_error_code failed message = None).
  { intros message. unfold detect_error_code. rewrite Hc.
    now rewrite bool_decide_eq_true_2, orb_true_r. }
  split; [unfold is_database_loaded; now rewrite Hc|].
  split; [unfold get_total_error_count; now rewrite Hc|].
  split; [exact Hd|]. split; [intros code; now apply lookup_by_code_empty|].
  intros m user_id message action platform Hm. rewrite process_message_turn.
  pose proof (turn_type_persisted m user_id platform message
                (first_match m message action)) as Ht. cbv zeta in Ht.
  destruct (first_match m message action) eqn:Hfm; destruct Ht as [-> _];
    try discriminate.
  exfalso. unfold first_match in Hfm. rewrite Hm in Hfm.
  destruct (Py.truthy message);
    repeat (rewrite ?Hd in Hfm;
            match type of Hfm with
            | context [match ?x with _ => _ end] => destruct x
            | context [if ?x then _ else _] => destruct x
            end; try discriminate Hfm).
Qed.

(** X7 on a load that finds no file after the sample was loaded. *)
Lemma failed_load_unloads_witness :
  detect_error_code (load_error_codes Sample.catalog FileNotFoundError) "ER001" = None
  /\ detect_error_code Sample.catalog "ER001"
     = Some (_format_error_response Sample.gun_temperature).
Proof.
  split; [|vm_compute; reflexivity].
  apply (failed_load_unloads Sample.catalog FileNotFoundError). now left.
Defined.

(** X8.  In a catalog with unique codes loaded first, the lookup by code
    finds each record whose code has no white space around it, under any
    spelling of the code that differs by case or by white space around it. *)
Theorem get_error_by_code_round_trip records error code :
  unique_codes records ->
  In error records ->
  Error_Code error <> "" ->
  Py.strip (Py.upper (Error_Code error)) = Py.upper (Error_Code error) ->
  Py.strip (Py.upper code) = Py.upper (Error_Code error) ->
  get_error_by_code (load_error_codes init (Parsed records)) code
  = Some (_format_error_response error).
Proof.
  intros Hu Hin Hne Hkey Hcode. unfold get_error_by_code, _lookup_by_code.
  rewrite Hcode.
  assert (Hi : error_index (load_error_codes init (Parsed records))
                 !! Py.upper (Error_Code error) = Some error).
  { apply first_load_index; [assumption|]. repeat split; [assumption|].
    destruct (Error_Code error); [congruence|discriminate]. }
  now rewrite Hi.
Qed.

(** X8 on the sample catalog and the spelling " er042 ". *)
Lemma get_error_by_code_round_trip_witness :
  get_error_by_code Sample.catalog " er042 "
  = Some (_format_error_response Sample.ocpp_error).
Proof.
  apply (get_error_by_code_round_trip
           [Sample.gun_temperature; Sample.rfid_fail; Sample.ocpp_error]
           Sample.ocpp_error " er042 " sample_codes_unique).
  - cbn. auto.
  - discriminate.
  - reflexivity.
  - reflexivity.
Defined.

Lemma digits_not_prefixed d : Py.all_digits d = true -> Py.startswith "ER" d = false.
Proof.
  destruct d as [|c d]; [reflexivity|]. cbn. intros H.
  apply andb_true_iff in H as [Hc _].
  destruct c as [[] [] [] [] [] [] [] []]; try discriminate Hc; reflexivity.
Qed.

(** X9.  The two spellings of a numeric code, with and without the prefix
    [ER], find the same record whenever the index holds at most one of
    them. *)
Theorem lookup_prefix_toggle self d :
  Py.all_digits d = true -> d <> "" ->
  error_index self !! d = None \/ error_index self !! ("ER" ++ d) = None ->
  get_error_by_code self d = get_error_by_code self ("ER" ++ d)
  /\ get_error_by_code self ("er" ++ d) = get_error_by_code self ("ER" ++ d).
Proof.
  intros Hd Hne Hone.
  destruct (code_key d Hd) as [Hk Hke].
  assert (Hlow : Py.strip (Py.upper ("er" ++ d)) = "ER" ++ d) by exact Hke.
  split; [|unfold get_error_by_code, _lookup_by_code; now rewrite Hlow, Hke].
  unfold get_error_by_code, _lookup_by_code. rewrite Hk, Hke.
  rewrite (digits_not_prefixed d Hd).
  assert (Hdig : Py.isdigit d = true)
    by (unfold Py.isdigit; rewrite Hd; now destruct d).
  assert (Hst : Py.startswith "ER" ("ER" ++ d) = true) by reflexivity.
  assert (Hdrop : Py.drop 2 ("ER" ++ d) = d) by reflexivity.
  rewrite Hdig, Hst, Hdrop. cbn [negb andb].
  destruct (error_index self !! d) as [e|] eqn:E1;
    destruct (error_index self !! ("ER" ++ d)) as [e'|] eqn:E2;
    try reflexivity.
  destruct Hone; discriminate.
Qed.

(** X9 on the sample catalog and the code 042. *)
Lemma lookup_prefix_toggle_witness :
  get_error_by_code Sample.catalog "042" = get_error_by_code Sample.catalog "ER042"
  /\ get_error_by_code Sample.catalog "042"
     = Some (_format_error_response Sample.ocpp_error).
Proof.
  split; [|vm_compute; reflexivity].
  apply (lookup_prefix_toggle Sample.catalog "042"); [reflexivity|discriminate|].
  left. vm_compute. reflexivity.
Defined.

Lemma first_load_index_member records key error :
  error_index (load_error_codes init (Parsed records)) !! key = Some error ->
  In error records.
Proof.
  cbn. rewrite index_loop_lookup.
  destruct (last_under key records) eqn:Hl; [|rewrite lookup_empty; discriminate].
  intros [= ->]. now apply last_under_Some in Hl.
Qed.

Lemma lookup_by_code_member self code d :
  _lookup_by_code self code = Some d ->
  exists key error, error_index self !! key = Some error /\ d = _format_error_response error.
Proof.
  unfold _lookup_by_code.
  destruct (error_index self !! Py.strip (Py.upper code)) as [e|] eqn:E1;
    [intros [= <-]; eauto|].
  destruct (negb _ && _).
  - destruct (error_index self !! ("ER" ++ Py.strip (Py.upper code))) as [e|] eqn:E2;
      [intros [= <-]; eauto|].
    destruct (Py.startswith _ _); [|discriminate].
    destruct (error_index self !! Py.drop 2 (Py.strip (Py.upper code))) as [e|] eqn:E3;
      [intros [= <-]; eauto|discriminate].
  - destruct (Py.startswith _ _); [|discriminate].
    destruct (error_index self !! Py.drop 2 (Py.strip (Py.upper code))) as [e|] eqn:E3;
      [intros [= <-]; eauto|discriminate].
Qed.

Lemma fuzzy_match_titles_member self query d :
  _fuzzy_match_titles self query = Some d ->
  exists error, In error (error_codes self) /\ d = _format_error_response error.
Proof.
  unfold _fuzzy_match_titles. destruct (fuzzy_match_title _ _ _) as [t|]; [|discriminate].
  destruct (Py.is_empty t); [discriminate|].
  destruct (List.find _ _) as [e|] eqn:Hf; [|discriminate].
  intros [= <-]. apply find_some in Hf as [Hin _]. eauto.
Qed.

Lemma keyword_search_member self query d :
  _keyword_search self query = Some d ->
  exists error, In error (error_codes self) /\ d = _format_error_response error.
Proof.
  unfold _keyword_search. destruct (extract_keywords query) as [|k ks]; [discriminate|].
  rewrite keyword_loop_keep_best.
  pose proof (keep_best_scan Nat.le Nat.leb Nat.leb_le Nat.le_trans Nat.le_ge_cases
                (keyword_score (k :: ks)) 2%nat 0%nat (error_codes self)) as H.
  destruct (fold_left _ _ _) as [[b|] s]; [|discriminate].
  destruct H as (_ & _ & _ & i & Hi & _). intros [= <-].
  apply list_elem_of_lookup_2, list_elem_of_In in Hi. eauto.
Qed.

(** Whatever detection answers is the view of a record: of the index when
    the code of the message decided, of the list otherwise. *)
Lemma detect_error_code_member self message d :
  detect_error_code self message = Some d ->
  (exists key error, error_index self !! key = Some error
                     /\ d = _format_error_response error)
  \/ (exists error, In error (error_codes self) /\ d = _format_error_response error).
Proof.
  unfold detect_error_code. destruct (_ || _); [discriminate|].
  destruct (match extract_error_pattern message with
            | Some code => if Py.is_empty code then None else _lookup_by_code self code
            | None => None
            end) as [r|] eqn:Ha.
  { intros [= <-]. destruct (extract_error_pattern message) as [code|]; [|discriminate].
    destruct (Py.is_empty code); [discriminate|].
    left. now apply lookup_by_code_member in Ha. }
  destruct (_fuzzy_match_titles self (normalize_text message)) as [r|] eqn:Hb.
  { intros [= <-]. right. now apply fuzzy_match_titles_member in Hb. }
  intros Hc. right. now apply keyword_search_member in Hc.
Qed.

Lemma first_load_detected records message d :
  detect_error_code (load_error_codes init (Parsed records)) message = Some d ->
  exists error, In error records /\ d = _format_error_response error.
Proof.
  intros H. apply detect_error_code_member in H as [(key & error & Hk & ->)|H].
  - apply first_load_index_member in Hk. eauto.
  - exact H.
Qed.

(** X10.  After the first load, whatever detection answers is the view of a
    record of the file, whichever of its three stages found it. *)
Theorem detect_error_code_sound records message d :
  detect_error_code (load_error_codes init (Parsed records)) message = Some d ->
  exists error, In error records /\ d = _format_error_response error.
Proof. apply first_load_detected. Qed.

(** X10 on the sample catalog: a record found by its title. *)
Lemma detect_error_code_sound_witness :
  detect_error_code Sample.catalog "rfid communication fail"
  = Some (_format_error_response Sample.rfid_fail)
  /\ exists error,
       In error [Sample.gun_temperature; Sample.rfid_fail; Sample.ocpp_error]
       /\ _format_error_response Sample.rfid_fail = _format_error_response error.
Proof.
  assert (H : detect_error_code Sample.catalog "rfid communication fail"
              = Some (_format_error_response Sample.rfid_fail))
    by (vm_compute; reflexivity).
  split; [exact H|].
  exact (detect_error_code_sound _ _ _ H).
Defined.

(** ** The intent engine *)

(** The first element of a list that passes a test. *)
Lemma find_first {A : Type} (f : A -> bool) (l : list A) x :
  List.find f l = Some x <->
  exists pre post, l = (pre ++ x :: post)%list /\ f x = true
                   /\ forall y, In y pre -> f y = false.
Proof.
  induction l as [|a l IH]; cbn.
  - split; [discriminate | intros ([|? ?] & ? & ? & _); discriminate].
  - destruct (f a) eqn:Ha.
    + split.
      * intros [= ->]. exists [], l. repeat split; [assumption | intros ? []].
      * intros ([|b pre] & post & Hl & Hx & Hpre); cbn in Hl.
        -- congruence.
        -- injection Hl as -> _. rewrite (Hpre b) in Ha; [discriminate | now left].
    + rewrite IH. split.
      * intros (pre & post & -> & Hx & Hpre). exists (a :: pre), post.
        repeat split; [assumption|]. intros y [<-|Hy]; auto.
      * intros ([|b pre] & post & Hl & Hx & Hpre); cbn in Hl.
        -- injection Hl as -> _. congruence.
        -- injection Hl as -> ->. exists pre, post. repeat split; [assumption|].
           intros y Hy. apply Hpre. now right.
Qed.

Lemma rule_based_detection_find rules n :
  IntentEngine._rule_based_detection rules n = fst <$> List.find (rule_fires n) rules.
Proof.
  unfold IntentEngine._rule_based_detection. f_equal.
  induction rules as [|[i kws] rules IH]; [reflexivity|]. cbn.
  unfold rule_fires at 1. cbn [snd]. now rewrite IH.
Qed.

(** X11.  Intent detection answers the name of the first rule, in the order
    of the rules, that has a keyword occurring in the normalized text; it
    answers nothing for an empty text and when that first rule has the
    empty name. *)
Theorem detect_intent_first_rule rules text intent :
  IntentEngine.detect_intent rules text = Some intent <->
  text <> "" /\ intent <> ""
  /\ exists pre keywords post,
       rules = (pre ++ (intent, keywords) :: post)%list
       /\ (exists keyword, In keyword keywords
                           /\ Py.contains keyword (normalize_text text) = true)
       /\ forall name keywords' keyword,
            In (name, keywords') pre -> In keyword keywords' ->
            Py.contains keyword (normalize_text text) = false.
Proof.
  unfold IntentEngine.detect_intent. rewrite rule_based_detection_find.
  split.
  - destruct (Py.is_empty text) eqn:Ht; [discriminate|].
    apply is_empty_false in Ht.
    destruct (List.find _ rules) as [[i kws]|] eqn:Hf; cbn; [|discriminate].
    destruct (Py.is_empty i) eqn:Hi; [discriminate|]. intros [= <-].
    apply is_empty_false in Hi. split; [assumption|]. split; [assumption|].
    apply find_first in Hf as (pre & post & -> & Hx & Hpre).
    exists pre, kws, post. split; [reflexivity|]. split.
    + unfold rule_fires in Hx. cbn in Hx. now apply existsb_exists in Hx.
    + intros name kws' kw Hin Hkw. specialize (Hpre _ Hin). unfold rule_fires in Hpre.
      cbn in Hpre. destruct (Py.contains kw (normalize_text text)) eqn:Hc; [|reflexivity].
      rewrite <- Hpre. symmetry. apply existsb_exists. eauto.
  - intros (Ht & Hi & pre & kws & post & Hr & (kw & Hkw & Hc) & Hpre).
    apply is_empty_false in Ht. rewrite Ht.
    assert (Hf : List.find (rule_fires (normalize_text text)) rules = Some (intent, kws)).
    { apply find_first. exists pre, post. split; [assumption|]. split.
      - unfold rule_fires. apply existsb_exists. eauto.
      - intros [name kws'] Hin. unfold rule_fires. cbn.
        destruct (existsb _ kws') eqn:He; [|reflexivity].
        apply existsb_exists in He as (k & Hk & Hck).
        rewrite (Hpre _ _ _ Hin Hk) in Hck. discriminate. }
    rewrite Hf. cbn. apply is_empty_false in Hi. now rewrite Hi.
Qed.

(** X11 on the default rules: "wallet" comes before "payment". *)
Lemma detect_intent_first_rule_witness :
  IntentEngine.detect_intent IntentEngine.intent_keywords "My Payment Failed" = Some "wallet"
  /\ "My Payment Failed" <> "".
Proof.
  assert (H : IntentEngine.detect_intent IntentEngine.intent_keywords "My Payment Failed"
              = Some "wallet") by (vm_compute; reflexivity).
  split; [exact H|].
  exact (proj1 (proj1 (detect_intent_first_rule _ _ _) H)).
Defined.

(** X12.  Intent detection reads the text through its normalization only:
    the lower-cased text has the intent of the text, an ASCII text in upper
    case has it as well, and a text that is not blank has the intent of its
    normalization. *)
Theorem detect_intent_normalized rules text :
  IntentEngine.detect_intent rules (Py.lower text) = IntentEngine.detect_intent rules text
  /\ (Py.isascii text = true ->
      IntentEngine.detect_intent rules (Py.upper text)
      = IntentEngine.detect_intent rules text)
  /\ (normalize_text text <> "" ->
      IntentEngine.detect_intent rules (normalize_text text)
      = IntentEngine.detect_intent rules text).
Proof.
  unfold IntentEngine.detect_intent.
  rewrite normalize_text_upper, normalize_text_lower.
  split; [now destruct text|]. split; [intros _; now destruct text|].
  intros Hn. destruct (normalized_fixed text) as [-> _].
  apply is_empty_false in Hn. rewrite Hn.
  destruct text; [discriminate Hn; reflexivity | reflexivity].
Qed.

(** X12 on "  HOW   to Charge ". *)
Lemma detect_intent_normalized_witness :
  IntentEngine.detect_intent IntentEngine.intent_keywords "how to charge"
  = IntentEngine.detect_intent IntentEngine.intent_keywords "  HOW   to Charge "
  /\ IntentEngine.detect_intent IntentEngine.intent_keywords "  HOW   TO CHARGE "
     = IntentEngine.detect_intent IntentEngine.intent_keywords "  HOW   to Charge ".
Proof.
  split.
  - apply (proj2 (proj2 (detect_intent_normalized IntentEngine.intent_keywords
                           "  HOW   to Charge "))).
    vm_compute. discriminate.
  - apply (proj1 (proj2 (detect_intent_normalized IntentEngine.intent_keywords
                           "  HOW   to Charge "))).
    reflexivity.
Defined.

Lemma add_intent_rule_known rules intent keywords :
  In intent (IntentEngine.get_all_intents rules) ->
  IntentEngine.get_all_intents (IntentEngine.add_intent_rule rules intent keywords)
  = IntentEngine.get_all_intents rules.
Proof.
  unfold IntentEngine.get_all_intents.
  induction rules as [|[name old] rules IH]; cbn; [intros []|].
  destruct (String.eqb name intent) eqn:He; [reflexivity|].
  intros [->|Hin]; [rewrite String.eqb_refl in He; discriminate|].
  cbn. now rewrite IH.
Qed.

Lemma add_intent_rule_new rules intent keywords :
  ~ In intent (IntentEngine.get_all_intents rules) ->
  IntentEngine.add_intent_rule rules intent keywords = (rules ++ [(intent, keywords)])%list.
Proof.
  unfold IntentEngine.get_all_intents.
  induction rules as [|[name old] rules IH]; cbn; [reflexivity|]. intros Hn.
  destruct (String.eqb name intent) eqn:He.
  - apply String.eqb_eq in He. tauto.
  - rewrite IH; [reflexivity | tauto].
Qed.

Lemma find_app_none {A : Type} (f : A -> bool) (l l' : list A) :
  List.find f l = None -> List.find f (l ++ l') = List.find f l'.
Proof.
  induction l as [|a l IH]; cbn; [reflexivity|]. destruct (f a); [discriminate | exact IH].
Qed.

Lemma find_app_some {A : Type} (f : A -> bool) (l l' : list A) x :
  List.find f l = Some x -> List.find f (l ++ l') = Some x.
Proof.
  induction l as [|a l IH]; cbn; [discriminate|]. destruct (f a); [trivial | exact IH].
Qed.

(** X13.  Setting the keywords of an intent that has a rule replaces them in
    place: the intents and their order of priority stay.  Setting those of a
    new intent adds the rule last: the intents are those before and then the
    new one, every text that had an intent keeps it, and the new intent is
    detected only in texts no other rule fires on. *)
Theorem add_intent_rule_priority rules intent keywords :
  let rules' := IntentEngine.add_intent_rule rules intent keywords in
  (In intent (IntentEngine.get_all_intents rules) ->
   IntentEngine.get_all_intents rules' = IntentEngine.get_all_intents rules)
  /\ (~ In intent (IntentEngine.get_all_intents rules) ->
      IntentEngine.get_all_intents rules'
      = (IntentEngine.get_all_intents rules ++ [intent])%list
      /\ forall normalized_text,
           IntentEngine._rule_based_detection rules' normalized_text
           = match IntentEngine._rule_based_detection rules normalized_text with
             | Some found => Some found
             | None =>
                 if existsb (fun keyword => Py.contains keyword normalized_text) keywords
                 then Some intent else None
             end)
  /\ In (intent, keywords) rules'
  /\ (List.NoDup (IntentEngine.get_all_intents rules) ->
      List.NoDup (IntentEngine.get_all_intents rules')
      /\ forall kws, In (intent, kws) rules' -> kws = keywords).
Proof.
  cbv zeta. split; [apply add_intent_rule_known|]. split; [|split].
  - intros Hn. rewrite (add_intent_rule_new _ _ _ Hn). split.
    + unfold IntentEngine.get_all_intents. now rewrite map_app.
    + intros n. rewrite !rule_based_detection_find.
      destruct (List.find (rule_fires n) rules) as [r|] eqn:Hf.
      * now rewrite (find_app_some _ _ _ _ Hf).
      * rewrite (find_app_none _ _ _ Hf). cbn. unfold rule_fires. cbn [snd].
        now destruct (existsb _ keywords).
  - induction rules as [|[n old] rules IH]; cbn; [now left|].
    destruct (String.eqb n intent) eqn:He.
    + apply String.eqb_eq in He as ->. now left.
    + now right.
  - unfold IntentEngine.get_all_intents.
    induction rules as [|[n old] rules IH]; cbn; intros Hd.
    + split; [repeat constructor; intros [] | intros kws [[= <-]|[]]; reflexivity].
    + apply List.NoDup_cons_iff in Hd as [Hn Hd]. destruct (String.eqb n intent) eqn:He.
      * apply String.eqb_eq in He as ->. split.
        -- cbn. apply List.NoDup_cons_iff. now split.
        -- intros kws [[= <-]|Hin]; [reflexivity|]. exfalso. apply Hn.
           apply (in_map fst) in Hin. exact Hin.
      * destruct (IH Hd) as [IHd IHk]. split.
        -- cbn. apply List.NoDup_cons_iff. split; [|exact IHd].
           intros Hin. apply Hn.
           destruct (in_dec String.string_dec intent (List.map fst rules)) as [Hi|Hi].
           ++ pose proof (add_intent_rule_known rules intent keywords Hi) as Hk.
              unfold IntentEngine.get_all_intents in Hk. now rewrite Hk in Hin.
           ++ rewrite (add_intent_rule_new rules intent keywords Hi), map_app in Hin.
              apply in_app_or in Hin as [Hin|[Hin|[]]]; [assumption|].
              cbn in Hin. subst. rewrite String.eqb_refl in He. discriminate.
        -- intros kws [[= -> <-]|Hin]; [rewrite String.eqb_refl in He; discriminate|].
           now apply IHk.
Qed.

(** X13 on the default rules, with a new intent "charger_offline". *)
Lemma add_intent_rule_priority_witness :
  let rules' := IntentEngine.add_intent_rule IntentEngine.intent_keywords
                  "charger_offline" ["offline"] in
  IntentEngine.get_all_intents rules'
  = (IntentEngine.get_all_intents IntentEngine.intent_keywords ++ ["charger_offline"])%list
  /\ IntentEngine.detect_intent rules' "charger offline" = Some "charger_offline"
  /\ IntentEngine.detect_intent rules' "offline error" = Some "error_report".
Proof.
  split; [|split; vm_compute; reflexivity].
  refine (proj1 (proj1 (proj2 (add_intent_rule_priority IntentEngine.intent_keywords
                                 "charger_offline" ["offline"])) _)).
  vm_compute. intros H. repeat (destruct H as [H|H]; [discriminate H|]). destruct H.
Defined.

Lemma normalize_text_nonempty text :
  normalize_text text <> "" -> text <> "".
Proof. now intros H ->. Qed.

(** X14.  Two keywords of the default rules never decide: a text that holds
    "charge vehicle" (rule "usage") holds "hi" and is a greeting; a text that
    holds "connection" (rule "network") holds "connect" and has the intent
    of "installation" or of a rule before it. *)
Theorem shadowed_keywords text :
  let n := normalize_text text in
  (Py.contains "charge vehicle" n = true ->
   IntentEngine.detect_intent IntentEngine.intent_keywords text = Some "greeting")
  /\ (Py.contains "connection" n = true ->
      exists intent,
        IntentEngine.detect_intent IntentEngine.intent_keywords text = Some intent
        /\ In intent ["greeting"; "error_report"; "troubleshoot"; "wallet"; "maintenance";
                      "support"; "status"; "installation"]).
Proof.
  cbv zeta. split; intros Hc.
  - assert (Hhi : Py.contains "hi" (normalize_text text) = true)
      by (apply (contains_trans _ "charge vehicle"); [reflexivity | exact Hc]).
    unfold IntentEngine.detect_intent.
    replace (Py.is_empty text) with false
      by (symmetry; apply is_empty_false, normalize_text_nonempty; intros E;
          rewrite E in Hc; discriminate).
    rewrite rule_based_detection_find. unfold IntentEngine.intent_keywords.
    cbn [List.find]. unfold rule_fires at 1. cbn [snd existsb]. rewrite Hhi.
    rewrite orb_true_r. reflexivity.
  - assert (Hco : Py.contains "connect" (normalize_text text) = true)
      by (apply (contains_trans _ "connection"); [reflexivity | exact Hc]).
    unfold IntentEngine.detect_intent.
    replace (Py.is_empty text) with false
      by (symmetry; apply is_empty_false, normalize_text_nonempty; intros E;
          rewrite E in Hc; discriminate).
    rewrite rule_based_detection_find. unfold IntentEngine.intent_keywords.
    cbn [List.find].
    repeat match goal with
           | |- context [if rule_fires ?n (?i, ?k) then _ else _] =>
               lazymatch i with
               | "installation" => fail
               | _ => destruct (rule_fires n (i, k));
                      [eexists; split; [reflexivity | cbn; auto 10]|]
               end
           end.
    unfold rule_fires at 1. cbn [snd existsb]. rewrite Hco, !orb_true_r.
    eexists; split; [reflexivity | cbn; auto 10].
Qed.

(** X14 on "How do I charge vehicle?" and "connection lost". *)
Lemma shadowed_keywords_witness :
  IntentEngine.detect_intent IntentEngine.intent_keywords "How do I charge vehicle?"
  = Some "greeting"
  /\ IntentEngine.detect_intent IntentEngine.intent_keywords "connection lost"
     = Some "installation".
Proof.
  split.
  - apply (proj1 (shadowed_keywords "How do I charge vehicle?")). vm_compute; reflexivity.
  - destruct (proj2 (shadowed_keywords "connection lost")) as (i & Hi & _);
      [vm_compute; reflexivity|].
    vm_compute. reflexivity.
Defined.

Lemma detect_intent_registered rules text intent :
  IntentEngine.detect_intent rules text = Some intent ->
  In intent (IntentEngine.get_all_intents rules).
Proof.
  unfold IntentEngine.detect_intent. destruct (Py.is_empty text); [discriminate|].
  rewrite rule_based_detection_find.
  destruct (List.find _ rules) as [[i kws]|] eqn:Hf; cbn; [|discriminate].
  destruct (Py.is_empty i); [discriminate|]. intros [= <-].
  apply find_some in Hf as [Hin _]. apply (in_map fst) in Hin. exact Hin.
Qed.

(** X15.  Every intent the default rules detect has a node of its own in the
    intent map, so that the default node stands only for intents that are
    not among the default ones. *)
Theorem intent_nodes_defined :
  (forall text intent,
      IntentEngine.detect_intent IntentEngine.intent_keywords text = Some intent ->
      intent_mapping !! intent = Some (_map_intent_to_node intent)
      /\ _map_intent_to_node intent <> "")
  /\ (forall intent,
        ~ In intent (IntentEngine.get_all_intents IntentEngine.intent_keywords) ->
        intent_mapping !! intent = None /\ _map_intent_to_node intent = "start").
Proof.
  split.
  - intros text intent H. apply detect_intent_registered in H. cbn in H.
    repeat (destruct H as [<-|H]; [split; [reflexivity | discriminate]|]). destruct H.
  - intros intent Hn.
    assert (H : intent_mapping !! intent = None).
    { apply not_elem_of_list_to_map_1. intros Hin. apply Hn.
      apply list_elem_of_In in Hin. exact Hin. }
    split; [exact H|]. unfold _map_intent_to_node. now rewrite H.
Qed.

(** X15 on "is the charger working": the intent "status" and its node. *)
Lemma intent_nodes_defined_witness :
  intent_mapping !! "status" = Some (_map_intent_to_node "status")
  /\ _map_intent_to_node "status" = "status_check".
Proof.
  split; [|reflexivity].
  apply (proj1 intent_nodes_defined "is the charger working"). vm_compute; reflexivity.
Defined.

(** ** The router: options, actions and the shape of the answer *)

(** No label of the option map begins like the label of an error. *)
Lemma option_mapping_no_error_label key node :
  option_mapping !! key = Some node ->
  re_match true error_option_label key = None.
Proof.
  intros Hk. apply elem_of_list_to_map_2 in Hk.
  change (re_match true error_option_label (fst (key, node)) = None).
  revert Hk. generalize (key, node). apply Forall_forall.
  repeat (constructor; [vm_compute; reflexivity|]). constructor.
Qed.

(** The labels of the option map are stripped and in lower case. *)
Lemma option_mapping_labels_normal key node :
  option_mapping !! key = Some node -> Py.strip (Py.lower key) = key.
Proof.
  intros Hk. apply elem_of_list_to_map_2 in Hk.
  change (Py.strip (Py.lower (fst (key, node))) = fst (key, node)).
  revert Hk. generalize (key, node). apply Forall_forall.
  repeat (constructor; [vm_compute; reflexivity|]). constructor.
Qed.

Lemma map_option_to_node_label option_text node :
  option_mapping !! Py.strip (Py.lower option_text) = Some node ->
  _map_option_to_node option_text = Some node.
Proof.
  intros H. unfold _map_option_to_node.
  rewrite (option_mapping_no_error_label _ _ H).
  case_bool_decide as Hs; [destruct Hs; discriminate | exact H].
Qed.

Lemma first_match_option self message action node :
  _map_option_to_node message = Some node ->
  message <> "" ->
  first_match self (Some message) action = OptionMapped node.
Proof.
  intros Ho Hm. unfold first_match. rewrite (truthy_present _ Hm).
  change (default "" (Some message)) with message. rewrite Ho.
  apply map_option_to_node_named in Ho. now destruct node.
Qed.

(** X16.  The guard on error labels hides no entry of the option map: a
    text whose lower-cased, stripped form is a label of the map is mapped to
    the node of that label, so that every label reaches its node, in upper
    case as well.  The three options a diagnostic answer offers are labels
    of the map: sent back as the next utterance, each is answered by a flow
    response of its node without any detection. *)
Theorem option_labels_reachable :
  (forall option_text node,
      option_mapping !! Py.strip (Py.lower option_text) = Some node ->
      _map_option_to_node option_text = Some node)
  /\ (forall label node,
        option_mapping !! label = Some node ->
        _map_option_to_node label = Some node
        /\ _map_option_to_node (Py.upper label) = Some node)
  /\ (forall option_text,
        In option_text follow_up_options ->
        exists node,
          _map_option_to_node option_text = Some node
          /\ forall self user_id act platform,
               let r := process_message self user_id (Some option_text) act platform in
               type (value r) = flow
               /\ persisted (trace r) = [node]
               /\ evaluations (trace r) = [MapOptionToNode option_text]).
Proof.
  split; [exact map_option_to_node_label|]. split.
  - intros label node H. pose proof (option_mapping_labels_normal _ _ H) as Hn.
    split; apply map_option_to_node_label.
    + now rewrite Hn.
    + now rewrite lower_upper, Hn.
  - intros option_text Hin.
    assert (Hcases : exists node, _map_option_to_node option_text = Some node
                                  /\ option_text <> "").
    { cbn in Hin.
      repeat (destruct Hin as [<-|Hin];
              [eexists; split; [vm_compute; reflexivity | discriminate]|]).
      destruct Hin. }
    destruct Hcases as (node & Ho & Hm). exists node. split; [exact Ho|].
    intros self user_id act platform. cbv zeta. rewrite process_message_turn.
    rewrite (first_match_option _ _ _ _ Ho Hm).
    unfold turn, opening, value, trace. rewrite (truthy_present _ Hm).
    repeat split; reflexivity.
Qed.

(** X16 on the label "Back to Menu". *)
Lemma option_labels_reachable_witness :
  _map_option_to_node "  BACK TO MENU " = Some "start".
Proof.
  apply (proj1 option_labels_reachable "  BACK TO MENU " "start").
  vm_compute; reflexivity.
Defined.

(** X17.  A turn with an action and no utterance goes straight to the node
    of the action: the session is fetched, the node is fetched, persisted
    and its text appended to the history; no strategy is evaluated and no
    message of the user is stored. *)
Theorem action_only_turn self user_id message node platform :
  Py.truthy message = false ->
  node <> "" ->
  let r := process_message self user_id message (Some node) platform in
  let sid := sid self user_id platform in
  value r = flow_response self user_id platform node
  /\ trace r = [GetOrCreateSession user_id platform;
                GetNode node;
                UpdateSession user_id sid node;
                AddMessageToHistory user_id sid assistant (text (value r))]
  /\ text (value r) = default "I'm not sure how to respond."
                        (node_text (flow_engine self node))
  /\ response_session_id (value r) = sid.
Proof.
  intros Hm Hn. cbv zeta. rewrite process_message_turn.
  assert (Hf : first_match self message (Some node) = ExplicitAction node).
  { unfold first_match. rewrite Hm. cbn. now destruct node. }
  rewrite Hf. unfold turn, opening, gated, closing, value, trace. rewrite Hm.
  repeat split; reflexivity.
Qed.

(** X17 on the action "start" of a new conversation. *)
Lemma action_only_turn_witness :
  value (process_message Sample.mgr "u1" None (Some "start") "web")
  = flow_response Sample.mgr "u1" "web" "start".
Proof.
  apply (action_only_turn Sample.mgr "u1" None "start" "web"); [reflexivity | discriminate].
Defined.

Lemma first_match_diagnostic self message act d :
  first_match self message act = DiagnosticHit d ->
  Py.truthy message = true
  /\ detect_error_code (diagnostic_engine self) (msg message) = Some d.
Proof.
  unfold first_match, msg. destruct (Py.truthy message); cbn.
  - destruct (_map_option_to_node _) as [[|c n]|]; try discriminate;
      (destruct (detect_error_code _ _) as [d'|];
       [intros [= ->]; now split|];
       destruct (_is_payment_intent _); [discriminate|];
       destruct act as [[|c' a]|]; try discriminate;
       destruct (IntentEngine.detect_intent _ _) as [[|c'' i]|]; discriminate).
  - destruct act as [[|c' a]|]; discriminate.
Qed.

(** X18.  The answer of a turn carries the identifier of the session, and
    its type tells which fields are filled: a diagnostic answer is the view
    of what detection found in the utterance, with the three follow-up
    options and neither steps nor action; a flow answer has no diagnostic
    field; an AI answer has the generated text and nothing else. *)
Theorem response_shape self user_id message act platform :
  let r := value (process_message self user_id message act platform) in
  response_session_id r = sid self user_id platform
  /\ match type r with
     | diagnostic =>
         exists d,
           detect_error_code (diagnostic_engine self) (msg message) = Some d
           /\ error_code r = Some (DiagnosticEngine.error_code d)
           /\ description r = Some (DiagnosticEngine.description d)
           /\ solutions r = Some (DiagnosticEngine.solutions d)
           /\ options r = Some follow_up_options
           /\ steps r = None /\ action r = None
     | flow =>
         error_code r = None /\ description r = None /\ solutions r = None
     | ai =>
         text r = ai_service self (if Py.truthy message then msg message else "Hello")
         /\ error_code r = None /\ description r = None /\ solutions r = None
         /\ options r = None /\ steps r = None /\ action r = None
     end.
Proof.
  cbv zeta. rewrite process_message_turn.
  destruct (first_match self message act) as [node|d| |node|intent|] eqn:Hf;
    cbn; try (repeat split; reflexivity).
  split; [reflexivity|]. apply first_match_diagnostic in Hf as [_ Hd].
  exists d. repeat split; try reflexivity. exact Hd.
Qed.

(** X19.  With a catalog loaded once from a file, a diagnostic answer shows a
    record of that file: its code, its description and its solutions. *)
Theorem diagnostic_answer_from_catalog self records user_id message act platform :
  diagnostic_engine self = load_error_codes init (Parsed records) ->
  let r := value (process_message self user_id message act platform) in
  type r = diagnostic ->
  exists error,
    In error records
    /\ error_code r = Some (Error_Code error)
    /\ description r = Some (Description error)
    /\ solutions r = Some (Solution error)
    /\ text r = "I found information about " ++ Error_Code error ++ " - " ++ Tittle error
                ++ ". Please review the solutions below.".
Proof.
  intros He. cbv zeta. rewrite process_message_turn.
  destruct (first_match self message act) as [node|d| |node|intent|] eqn:Hf;
    cbn; try discriminate.
  intros _. apply first_match_diagnostic in Hf as [_ Hd]. rewrite He in Hd.
  apply first_load_detected in Hd as (error & Hin & ->).
  exists error. repeat split; [exact Hin|..]; reflexivity.
Qed.

(** X19 on the sample catalog and the utterance "er015". *)
Lemma diagnostic_answer_from_catalog_witness :
  exists error,
    In error [Sample.gun_temperature; Sample.rfid_fail; Sample.ocpp_error]
    /\ error_code (value (process_message Sample.mgr "u1" (Some "er015") None "web"))
       = Some (Error_Code error).
Proof.
  destruct (diagnostic_answer_from_catalog Sample.mgr
              [Sample.gun_temperature; Sample.rfid_fail; Sample.ocpp_error]
              "u1" (Some "er015") None "web")
    as (error & Hin & Hc & _).
  - reflexivity.
  - vm_compute; reflexivity.
  - exists error. split; [exact Hin | exact Hc].
Defined.

(** X20.  An utterance with one of the five payment keywords among its words
    passes the payment check. *)
Theorem payment_keyword_detected message keyword :
  In keyword payment_keywords ->
  In keyword (Py.split (normalize_text message)) ->
  _is_payment_intent message = true.
Proof.
  intros Hk Hw. unfold _is_payment_intent. apply existsb_exists.
  exists keyword. split; [exact Hw|]. apply existsb_exists.
  exists keyword. split; [exact Hk|].
  unfold payment_keywords in Hk.
  repeat (destruct Hk as [<-|Hk]; [vm_compute; reflexivity|]). destruct Hk.
Qed.

(** X20 on "My Wallet is empty". *)
Lemma payment_keyword_detected_witness : _is_payment_intent "My Wallet is empty" = true.
Proof.
  apply (payment_keyword_detected "My Wallet is empty" "wallet").
  - cbn; auto.
  - vm_compute; auto.
Defined.

(** ** The flow engine *)

Lemma last_resort_nonempty : FlowEngine.last_resort <> ∅.
Proof.
  intros H. apply (f_equal (fun m => m !! "text")) in H.
  rewrite lookup_empty in H. vm_compute in H. discriminate.
Qed.

Lemma minimal_start_nonempty : FlowEngine.minimal_start <> ∅.
Proof.
  intros H. apply (f_equal (fun m => m !! "text")) in H.
  rewrite lookup_empty in H. vm_compute in H. discriminate.
Qed.

Lemma get_start_node_stored self :
  FlowEngine.get_start_node self
  = default FlowEngine.last_resort (FlowEngine.flows self !! "start").
Proof.
  unfold FlowEngine.get_start_node, FlowEngine.get_node.
  destruct (FlowEngine.flows self !! "start") as [node|]; [|reflexivity].
  now destruct (FlowEngine.node_truthy node).
Qed.

(** X21.  [get_node] answers the node stored under the identifier when that
    node has a key; for an unknown identifier and for a node without keys it
    answers what [get_start_node] answers, which is the node stored under
    "start" or, without one, the last-resort node.  The answer is a node
    without keys only when such a node is stored under "start". *)
Theorem get_node_fallback self node_id :
  (forall node,
      FlowEngine.flows self !! node_id = Some node -> node <> ∅ ->
      FlowEngine.get_node self node_id = node)
  /\ (FlowEngine.flows self !! node_id = None \/ FlowEngine.flows self !! node_id = Some ∅ ->
      FlowEngine.get_node self node_id = FlowEngine.get_start_node self)
  /\ FlowEngine.get_start_node self
     = default FlowEngine.last_resort (FlowEngine.flows self !! "start")
  /\ (FlowEngine.get_node self node_id = ∅ -> FlowEngine.flows self !! "start" = Some ∅).
Proof.
  split; [|split; [|split]].
  - intros node Hl Hn. unfold FlowEngine.get_node, FlowEngine.node_truthy. rewrite Hl.
    now rewrite bool_decide_true.
  - rewrite get_start_node_stored. unfold FlowEngine.get_node, FlowEngine.node_truthy.
    intros [->| ->]; [reflexivity|]. now rewrite bool_decide_false by tauto.
  - apply get_start_node_stored.
  - assert (Hs : default FlowEngine.last_resort (FlowEngine.flows self !! "start") = ∅ ->
                 FlowEngine.flows self !! "start" = Some ∅).
    { destruct (FlowEngine.flows self !! "start") as [node|]; cbn.
      - now intros ->.
      - intros H. now apply last_resort_nonempty in H. }
    unfold FlowEngine.get_node, FlowEngine.node_truthy.
    destruct (FlowEngine.flows self !! node_id) as [node|]; [|exact Hs].
    case_bool_decide as Hn; [|exact Hs]. intros ->. now destruct Hn.
Qed.

(** X21 on a flow file with the single node "start". *)
Lemma get_node_fallback_witness :
  let self := FlowEngine.load_flows FlowEngine.init
                (FlowEngine.Parsed (Some {[ "start" := {[ "text" := FlowEngine.VStr "Hi" ]} ]})) in
  FlowEngine.get_node self "wallet_issues" = FlowEngine.get_start_node self
  /\ FlowEngine.get_node self "start" = {[ "text" := FlowEngine.VStr "Hi" ]}.
Proof.
  cbv zeta. split.
  - apply (proj1 (proj2 (get_node_fallback _ "wallet_issues"))). left. reflexivity.
  - apply (proj1 (get_node_fallback _ "start")); [reflexivity|].
    intros H. apply (f_equal (fun m => m !! "text")) in H.
    rewrite lookup_empty in H. vm_compute in H. discriminate.
Defined.

(** X22.  Loading replaces the flows, whatever they were.  When the file is
    missing the engine counts as loaded and every identifier answers the
    minimal start node; when the file is no JSON, or has no key "flows", the
    engine counts as not loaded and every identifier answers the last-resort
    node. *)
Theorem flows_after_failed_load self node_id :
  (forall f, FlowEngine.load_flows self f = FlowEngine.load_flows FlowEngine.init f)
  /\ FlowEngine.is_flow_loaded (FlowEngine.load_flows self FlowEngine.FileNotFoundError) = true
  /\ FlowEngine.get_node (FlowEngine.load_flows self FlowEngine.FileNotFoundError) node_id
     = FlowEngine.minimal_start
  /\ (forall f,
        f = FlowEngine.JSONDecodeError \/ f = FlowEngine.Parsed None ->
        FlowEngine.is_flow_loaded (FlowEngine.load_flows self f) = false
        /\ FlowEngine.get_node (FlowEngine.load_flows self f) node_id
           = FlowEngine.last_resort).
Proof.
  split; [now intros []|]. split; [reflexivity|]. split.
  - unfold FlowEngine.get_node, FlowEngine.load_flows. cbn [FlowEngine.flows].
    destruct (decide (node_id = "start")) as [->|Hn].
    + rewrite lookup_singleton_eq. cbn [default].
      now destruct (FlowEngine.node_truthy FlowEngine.minimal_start).
    + rewrite lookup_singleton_ne by congruence. now rewrite lookup_singleton_eq.
  - intros f [->| ->]; (split; [reflexivity|]);
      unfold FlowEngine.get_node, FlowEngine.load_flows; cbn [FlowEngine.flows default];
      now rewrite !lookup_empty.
Qed.

(** X22 on an engine that held a flow before the file went missing. *)
Lemma flows_after_failed_load_witness :
  let self := FlowEngine.load_flows FlowEngine.init
                (FlowEngine.Parsed (Some {[ "start" := {[ "text" := FlowEngine.VStr "Hi" ]} ]})) in
  FlowEngine.is_flow_loaded (FlowEngine.load_flows self FlowEngine.JSONDecodeError) = false
  /\ FlowEngine.get_node (FlowEngine.load_flows self FlowEngine.JSONDecodeError) "start"
     = FlowEngine.last_resort.
Proof.
  cbv zeta.
  apply (proj2 (proj2 (proj2 (flows_after_failed_load _ "start")))). now left.
Defined.

(** ** The AI service *)

Lemma is_empty_map_chars f s : Py.is_empty (Py.map_chars f s) = Py.is_empty s.
Proof. now destruct s. Qed.

(** X23.  The generated answer is the mock answer whether or not a client is
    set; it is one of four texts, chosen by the words "help", "assist",
    "support" first, then by the question words, then by "thank"; the case
    of the letters of an ASCII message does not matter; the word "thanks" is
    never needed, and the prompt "Hello" of a turn without utterance gets the
    default text. *)
Theorem generate_response_mock client message :
  AIService.generate_response client message = AIService._mock_response message
  /\ In (AIService._mock_response message)
        [AIService.help_answer; AIService.question_answer; AIService.thanks_answer;
         AIService.default_answer]
  /\ (Py.isascii message = true ->
      AIService._mock_response (Py.upper message) = AIService._mock_response message)
  /\ (AIService.any_word ["help"; "assist"; "support"] (Py.lower message) = true ->
      AIService._mock_response message = AIService.help_answer)
  /\ AIService.any_word ["thank"; "thanks"] (Py.lower message)
     = Py.contains "thank" (Py.lower message)
  /\ AIService.generate_response client "Hello" = AIService.default_answer.
Proof.
  split; [now destruct client|]. split; [|split; [|split; [|split]]].
  - unfold AIService._mock_response.
    destruct (AIService.any_word _ _); [cbn; auto|].
    destruct (AIService.any_word _ _); [cbn; auto|].
    destruct (AIService.any_word _ _); cbn; auto.
  - intros _. unfold AIService._mock_response. now rewrite lower_upper.
  - unfold AIService._mock_response. now intros ->.
  - unfold AIService.any_word. cbn [existsb]. rewrite orb_false_r.
    destruct (Py.contains "thanks" (Py.lower message)) eqn:Hs;
      [|now rewrite orb_false_r].
    now rewrite (contains_trans "thank" "thanks" _ eq_refl Hs).
  - destruct client; vm_compute; reflexivity.
Qed.

(** X23 on "Please HELP, thanks". *)
Lemma generate_response_mock_witness :
  AIService._mock_response "Please HELP, thanks" = AIService.help_answer
  /\ AIService._mock_response "PLEASE HELP, THANKS"
     = AIService._mock_response "Please HELP, thanks".
Proof.
  split.
  - apply (proj1 (proj2 (proj2 (proj2
             (generate_response_mock false "Please HELP, thanks"))))).
    vm_compute; reflexivity.
  - apply (proj1 (proj2 (proj2 (generate_response_mock false "Please HELP, thanks")))).
    reflexivity.
Defined.

(** ** The validators of the request *)

(** X24.  A validated message is absent or a text that is not empty and is
    its own stripped form, never an empty or blank text; it is absent
    exactly when the message was absent or blank; validating twice changes
    nothing.  A validated user identifier is likewise stripped and not
    empty, and the identifier is refused exactly when it is blank. *)
Theorem validated_request_fields :
  (forall v,
      match RequestModels.validate_message v with
      | Some s => s <> "" /\ Py.strip s = s /\ exists raw, v = Some raw /\ s = Py.strip raw
      | None => v = None \/ exists raw, v = Some raw /\ Py.strip raw = ""
      end
      /\ Py.truthy (RequestModels.validate_message v)
         = bool_decide (is_Some (RequestModels.validate_message v))
      /\ RequestModels.validate_message (RequestModels.validate_message v)
         = RequestModels.validate_message v)
  /\ (forall v,
        match RequestModels.validate_user_id v with
        | Some s => s <> "" /\ Py.strip s = s /\ s = Py.strip v
                    /\ RequestModels.validate_user_id s = Some s
        | None => Py.strip v = ""
        end).
Proof.
  split.
  - intros [raw|]; [|split; [now left | split; reflexivity]].
    pose proof (strip_idempotent raw) as Hi.
    assert (Hv : RequestModels.validate_message (Some raw)
                 = if Py.is_empty (Py.strip raw) then None else Some (Py.strip raw))
      by reflexivity.
    destruct (Py.strip raw) as [|c s] eqn:Hs; cbn [Py.is_empty] in Hv; rewrite Hv.
    + split; [right; eauto | split; reflexivity].
    + split; [|split].
      * split; [discriminate|]. split; [exact Hi | eauto].
      * reflexivity.
      * unfold RequestModels.validate_message. now rewrite Hi.
  - intros v. pose proof (strip_idempotent v) as Hi.
    assert (Hv : RequestModels.validate_user_id v
                 = if Py.is_empty (Py.strip v) then None else Some (Py.strip v))
      by reflexivity.
    destruct (Py.strip v) as [|c s] eqn:Hs; cbn [Py.is_empty] in Hv; rewrite Hv;
      [reflexivity|].
    split; [discriminate|]. split; [exact Hi|]. split; [reflexivity|].
    unfold RequestModels.validate_user_id. now rewrite Hi.
Qed.

(** ** Messages without digits *)

(** A match of each of the other patterns lies on a digit of the message. *)
Lemma pattern2_digit message g :
  re_search true pattern2 message = Some g ->
  exists k c, String.get k message = Some c /\ Py.isdigit_char c = true.
Proof.
  intros H. apply search_from_Some in H as (k & j & c & _ & Hin & _).
  unfold pattern2 in Hin.
  do 4 (apply run_Seq_In in Hin as (? & ? & _ & Hin)).
  apply run_Seq_In in Hin as (i & gi & _ & Hin).
  apply run_Seq_In in Hin as (j2 & g2 & H2 & _).
  apply run_Group_In in H2 as (_ & g0 & H2).
  pose proof (run_digits_least _ _ _ _ _ _ _ _ H2) as Hlo.
  apply run_digits_In in H2 as (_ & _ & Hd).
  destruct (Hd i) as (d & Hd1 & Hd2); [lia|]. eauto.
Qed.

Lemma pattern3_digit message g :
  re_search true pattern3 message = Some g ->
  exists k c, String.get k message = Some c /\ Py.isdigit_char c = true.
Proof.
  intros H. apply search_from_Some in H as (k & j & c & _ & Hin & _).
  apply run_Seq_In in Hin as (j1 & g1 & H1 & Hin).
  apply run_WordB_In in H1 as [-> ->].
  apply run_Seq_In in Hin as (j2 & g2 & H2 & _).
  apply run_Group_In in H2 as (_ & g0 & H2).
  apply run_Seq_In in H2 as (j3 & g3 & _ & H2).
  pose proof (run_digits_least _ _ _ _ _ _ _ _ H2) as Hlo.
  apply run_digits_In in H2 as (_ & _ & Hd).
  destruct (Hd j3) as (d & Hd1 & Hd2); [lia|]. eauto.
Qed.

Lemma pattern4_digit message g :
  re_search false pattern4 message = Some g ->
  exists k c, String.get k message = Some c /\ Py.isdigit_char c = true.
Proof.
  intros H. apply search_from_Some in H as (k & j & c & _ & Hin & _).
  apply run_Seq_In in Hin as (j1 & g1 & H1 & Hin).
  apply run_WordB_In in H1 as [-> ->].
  apply run_Seq_In in Hin as (j2 & g2 & H2 & _).
  apply run_Group_In in H2 as (_ & g0 & H2).
  pose proof (run_digits_least _ _ _ _ _ _ _ _ H2) as Hlo.
  apply run_digits_In in H2 as (_ & _ & Hd).
  destruct (Hd k) as (d & Hd1 & Hd2); [lia|]. eauto.
Qed.

Lemma extracted_code_digit message code :
  extract_error_pattern message = Some code ->
  exists k c, String.get k message = Some c /\ Py.isdigit_char c = true.
Proof.
  unfold extract_error_pattern. destruct (Py.is_empty message); [discriminate|].
  destruct (re_search true pattern1 message) as [g1|] eqn:H1;
    [intros _; now apply pattern1_digit in H1|].
  destruct (re_search true pattern2 message) as [g2|] eqn:H2;
    [intros _; now apply pattern2_digit in H2|].
  destruct (re_search true pattern3 message) as [g3|] eqn:H3;
    [intros _; now apply pattern3_digit in H3|].
  destruct (re_search false pattern4 message) as [g4|] eqn:H4; [|discriminate].
  intros _. now apply pattern4_digit in H4.
Qed.

(** X25.  No code is extracted from a message without a digit: detection
    then answers by the titles and, failing that, by the keywords; and a
    message from which a code is extracted is no label of the option map. *)
Theorem no_digit_no_code message :
  (forall_chars (fun c => negb (Py.isdigit_char c)) message = true ->
   extract_error_pattern message = None
   /\ forall self,
        message <> "" -> error_codes self <> [] ->
        detect_error_code self message
        = match _fuzzy_match_titles self (normalize_text message) with
          | Some result => Some result
          | None => _keyword_search self (normalize_text message)
          end)
  /\ (forall code,
        extract_error_pattern message = Some code ->
        _map_option_to_node message = None).
Proof.
  split.
  - intros Hn.
    assert (He : extract_error_pattern message = None).
    { destruct (extract_error_pattern message) as [code|] eqn:He; [|reflexivity].
      apply extracted_code_digit in He as (k & c & Hc & Hd).
      pose proof (forall_chars_get _ _ _ _ Hn Hc) as Hp. cbn in Hp.
      now rewrite Hd in Hp. }
    split; [exact He|]. intros self Hm Hc. unfold detect_error_code. rewrite He.
    apply is_empty_false in Hm. rewrite Hm. cbn [orb].
    now rewrite bool_decide_false by exact Hc.
  - intros code He. apply extracted_code_digit in He as (k & c & Hc & Hd).
    exact (digit_not_option _ _ _ Hc Hd).
Qed.

(** X25 on "rfid communication fail", found by its title. *)
Lemma no_digit_no_code_witness :
  extract_error_pattern "rfid communication fail" = None
  /\ extract_error_pattern "error 15" = Some "ER015"
  /\ _map_option_to_node "error 15" = None.
Proof.
  split; [|split].
  - apply (proj1 (no_digit_no_code "rfid communication fail")). reflexivity.
  - vm_compute; reflexivity.
  - apply (proj2 (no_digit_no_code "error 15") "ER015"). vm_compute; reflexivity.
Defined.
